(** * Booking system: schema, row-level security and dashboard operations

    A shallow embedding of the booking application:
    - the SQL schema script (tables, row-level-security policies, the
      conversion-statistics function, the provisioning trigger) and the
      recursion-fix migration, as DDL statements executed on a catalog;
    - the evaluation of the policies for a caller and a row;
    - the two SQL functions [get_admin_conversion_stats] and
      [handle_new_user];
    - the data-access handlers of the React components ([AuthForm],
      [BookingForm], [AdminDashboard], [SuperAdminDashboard]).

    Conventions.  A [uuid] is its 128-bit value.  A [timestamptz] is a count
    of microseconds since the epoch.  [text] is a byte string.  SQL [numeric]
    values computed by the statistics function are decimal numbers with a
    scale ([Numeric.t]), divided and rounded as PostgreSQL does; elsewhere a
    numeric is the rational it denotes.  A nullable column
    has an [option] type, [None] being NULL. *)

From Stdlib Require Import List String Ascii Bool Arith ZArith NArith QArith Qround Qabs Lia Lqa.
From Stdlib Require Import Sorted Permutation.
Import ListNotations.

Local Open Scope string_scope.
Local Open Scope list_scope.

(** ** Base types *)

Definition uuid := N.
Definition timestamptz := Z.
Bind Scope N_scope with uuid.
Bind Scope Z_scope with timestamptz.

(** [role text CHECK (role IN ('client', 'admin', 'super_admin'))] *)
Inductive role := client | admin | super_admin.

(** [status text CHECK (status IN ('inquiry', 'confirmed', 'cleared'))] *)
Inductive status := inquiry | confirmed | cleared.

Definition role_text (r : role) : string :=
  match r with
  | client => "client"
  | admin => "admin"
  | super_admin => "super_admin"
  end.

Definition status_text (s : status) : string :=
  match s with
  | inquiry => "inquiry"
  | confirmed => "confirmed"
  | cleared => "cleared"
  end.

(** The CHECK constraints, read as parsers: a text passes the constraint
    exactly when it denotes a constructor. *)
Definition role_of_text (s : string) : option role :=
  if s =? "client" then Some client
  else if s =? "admin" then Some admin
  else if s =? "super_admin" then Some super_admin
  else None.

Definition status_of_text (s : string) : option status :=
  if s =? "inquiry" then Some inquiry
  else if s =? "confirmed" then Some confirmed
  else if s =? "cleared" then Some cleared
  else None.

Definition role_eqb (a b : role) : bool :=
  match a, b with
  | client, client | admin, admin | super_admin, super_admin => true
  | _, _ => false
  end.

Definition status_eqb (a b : status) : bool :=
  match a, b with
  | inquiry, inquiry | confirmed, confirmed | cleared, cleared => true
  | _, _ => false
  end.

(** ** SQL values and three-valued logic *)

Module Sql.

Inductive value :=
| VNull
| VUuid (u : uuid)
| VText (s : string)
| VBool (b : bool)
| VTime (t : timestamptz)
| VNum (q : Q).

Definition of_option {A} (inj : A -> value) (o : option A) : value :=
  match o with
  | Some a => inj a
  | None => VNull
  end.

(** A truth value is [Some b] or NULL ([None]). *)
Definition tv := option bool.

(** [a = b]: NULL as soon as one side is NULL.  The policies of the schema
    only compare uuid with uuid and text with text. *)
Definition eq (a b : value) : tv :=
  match a, b with
  | VUuid x, VUuid y => Some (N.eqb x y)
  | VText x, VText y => Some (String.eqb x y)
  | VBool x, VBool y => Some (Bool.eqb x y)
  | VTime x, VTime y => Some (Z.eqb x y)
  | VNum x, VNum y => Some (Qeq_bool x y)
  | _, _ => None
  end.

Definition and3 (a b : tv) : tv :=
  match a, b with
  | Some false, _ | _, Some false => Some false
  | Some true, Some true => Some true
  | _, _ => None
  end.

Definition or3 (a b : tv) : tv :=
  match a, b with
  | Some true, _ | _, Some true => Some true
  | Some false, Some false => Some false
  | _, _ => None
  end.

(** [a IN (l)] is the disjunction of the equalities. *)
Definition in3 (a : value) (l : list value) : tv :=
  fold_right (fun b acc => or3 (eq a b) acc) (Some false) l.

(** A row passes a WHERE clause or a policy only when the condition is
    true; false and NULL both reject it. *)
Definition holds (t : tv) : bool :=
  match t with
  | Some true => true
  | _ => false
  end.

End Sql.

(** ** Rows of the three tables *)

Module profiles.
Record row := mk {
  id : uuid;
  email : string;
  name : string;
  phone : option string;
  role_ : role;
  admin_color : option string;
  created_at : option timestamptz;
  updated_at : option timestamptz
}.

Definition col (r : row) (c : string) : Sql.value :=
  if c =? "id" then Sql.VUuid (id r)
  else if c =? "email" then Sql.VText (email r)
  else if c =? "name" then Sql.VText (name r)
  else if c =? "phone" then Sql.of_option Sql.VText (phone r)
  else if c =? "role" then Sql.VText (role_text (role_ r))
  else if c =? "admin_color" then Sql.of_option Sql.VText (admin_color r)
  else if c =? "created_at" then Sql.of_option Sql.VTime (created_at r)
  else if c =? "updated_at" then Sql.of_option Sql.VTime (updated_at r)
  else Sql.VNull.
End profiles.

Module bookings.
Record row := mk {
  id : uuid;
  client_id : option uuid;
  client_name : string;
  email : string;
  phone_number : string;
  event_date : string;
  time_slot : string;
  facility : string;
  package : string;
  special_requests : option string;
  status_ : status;
  assigned_admin_id : option uuid;
  total_spend : option Q;
  receipts_uploaded : option bool;
  receipts_approved : option bool;
  created_at : option timestamptz;
  updated_at : option timestamptz
}.

Definition col (r : row) (c : string) : Sql.value :=
  if c =? "id" then Sql.VUuid (id r)
  else if c =? "client_id" then Sql.of_option Sql.VUuid (client_id r)
  else if c =? "client_name" then Sql.VText (client_name r)
  else if c =? "email" then Sql.VText (email r)
  else if c =? "phone_number" then Sql.VText (phone_number r)
  else if c =? "event_date" then Sql.VText (event_date r)
  else if c =? "time_slot" then Sql.VText (time_slot r)
  else if c =? "facility" then Sql.VText (facility r)
  else if c =? "package" then Sql.VText (package r)
  else if c =? "special_requests" then Sql.of_option Sql.VText (special_requests r)
  else if c =? "status" then Sql.VText (status_text (status_ r))
  else if c =? "assigned_admin_id" then Sql.of_option Sql.VUuid (assigned_admin_id r)
  else if c =? "total_spend" then Sql.of_option Sql.VNum (total_spend r)
  else if c =? "receipts_uploaded" then Sql.of_option Sql.VBool (receipts_uploaded r)
  else if c =? "receipts_approved" then Sql.of_option Sql.VBool (receipts_approved r)
  else if c =? "created_at" then Sql.of_option Sql.VTime (created_at r)
  else if c =? "updated_at" then Sql.of_option Sql.VTime (updated_at r)
  else Sql.VNull.
End bookings.

Module notifications.
Record row := mk {
  id : uuid;
  user_id : uuid;
  type_ : string;
  title : string;
  message : string;
  read : option bool;
  booking_id : option uuid;
  created_at : option timestamptz
}.

Definition col (r : row) (c : string) : Sql.value :=
  if c =? "id" then Sql.VUuid (id r)
  else if c =? "user_id" then Sql.VUuid (user_id r)
  else if c =? "type" then Sql.VText (type_ r)
  else if c =? "title" then Sql.VText (title r)
  else if c =? "message" then Sql.VText (message r)
  else if c =? "read" then Sql.of_option Sql.VBool (read r)
  else if c =? "booking_id" then Sql.of_option Sql.VUuid (booking_id r)
  else if c =? "created_at" then Sql.of_option Sql.VTime (created_at r)
  else Sql.VNull.
End notifications.

(** The contents of the three tables. *)
Record database := mkdb {
  db_profiles : list profiles.row;
  db_bookings : list bookings.row;
  db_notifications : list notifications.row
}.

(** The rows of a table as column accessors, for policy subqueries. *)
Definition rows_of (db : database) (tbl : string) : list (string -> Sql.value) :=
  if tbl =? "profiles" then map profiles.col (db_profiles db)
  else if tbl =? "bookings" then map bookings.col (db_bookings db)
  else if tbl =? "notifications" then map notifications.col (db_notifications db)
  else [].

(** ** Policies, catalog and DDL *)

Module Ddl.

(** Scalars and conditions of the USING / WITH CHECK clauses. *)
Inductive scalar :=
| Col (c : string)
| AuthUid
| TextLit (s : string).

Inductive expr :=
| ETrue
| EEq (a b : scalar)
| EIn (a : scalar) (l : list scalar)
| EAnd (a b : expr)
| EOr (a b : expr)
| EExists (tbl : string) (where_ : expr).   (* EXISTS (SELECT 1 FROM tbl WHERE where_) *)

Inductive command := CmdSelect | CmdInsert | CmdUpdate | CmdDelete.

Definition command_eqb (a b : command) : bool :=
  match a, b with
  | CmdSelect, CmdSelect | CmdInsert, CmdInsert
  | CmdUpdate, CmdUpdate | CmdDelete, CmdDelete => true
  | _, _ => false
  end.

(** [CREATE POLICY name ON table FOR cmd TO authenticated USING (..)
    WITH CHECK (..)].  Every policy of the schema is permissive and is
    granted to the role [authenticated]. *)
Record policy := mkpolicy {
  pol_name : string;
  pol_table : string;
  pol_cmd : command;
  pol_using : option expr;
  pol_check : option expr
}.

Record column := mkcol {
  col_name : string;
  col_type : string;
  col_not_null : bool;
  col_default : option string;
  col_check_in : list string
}.

Record table_def := mktable {
  tbl_name : string;
  tbl_columns : list column
}.

Inductive routine_body := GetAdminConversionStatsBody | HandleNewUserBody.

Record routine := mkroutine {
  fn_name : string;
  fn_body : routine_body;
  fn_security_definer : bool
}.

Record trigger_def := mktrigger {
  trg_name : string;
  trg_table : string;
  trg_timing : string;
  trg_function : string
}.

Record index_def := mkindex {
  idx_name : string;
  idx_table : string;
  idx_column : string
}.

Record catalog := mkcatalog {
  tables : list table_def;
  rls_enabled : list string;
  policies : list policy;
  functions : list routine;
  triggers : list trigger_def;
  indexes : list index_def
}.

Inductive stmt :=
| CreateTable (if_not_exists : bool) (t : table_def)
| EnableRls (tbl : string)
| CreatePolicy (p : policy)
| DropPolicy (if_exists : bool) (name tbl : string)
| CreateFunction (or_replace : bool) (f : routine)
| DropTrigger (if_exists : bool) (name tbl : string)
| CreateTrigger (t : trigger_def)
| CreateIndex (if_not_exists : bool) (i : index_def).

Inductive error :=
| DuplicateTable (name : string)
| UndefinedTable (name : string)
| DuplicatePolicy (name tbl : string)
| UndefinedPolicy (name tbl : string)
| DuplicateFunction (name : string)
| UndefinedFunction (name : string)
| DuplicateTrigger (name tbl : string)
| UndefinedTrigger (name tbl : string)
| DuplicateIndex (name : string).

Inductive result (A : Type) :=
| Ok (a : A)
| Err (e : error).
Arguments Ok {A} a.
Arguments Err {A} e.

Definition has_table (c : catalog) (n : string) : bool :=
  existsb (fun t => tbl_name t =? n) (tables c).

Definition is_policy (n tbl : string) (p : policy) : bool :=
  (pol_name p =? n) && (pol_table p =? tbl).

Definition has_policy (c : catalog) (n tbl : string) : bool :=
  existsb (is_policy n tbl) (policies c).

Definition has_function (c : catalog) (n : string) : bool :=
  existsb (fun f => fn_name f =? n) (functions c).

Definition is_trigger (n tbl : string) (t : trigger_def) : bool :=
  (trg_name t =? n) && (trg_table t =? tbl).

Definition has_trigger (c : catalog) (n tbl : string) : bool :=
  existsb (is_trigger n tbl) (triggers c).

Definition has_index (c : catalog) (n : string) : bool :=
  existsb (fun i => idx_name i =? n) (indexes c).

Definition set_tables (c : catalog) l :=
  mkcatalog l (rls_enabled c) (policies c) (functions c) (triggers c) (indexes c).
Definition set_rls (c : catalog) l :=
  mkcatalog (tables c) l (policies c) (functions c) (triggers c) (indexes c).
Definition set_policies (c : catalog) l :=
  mkcatalog (tables c) (rls_enabled c) l (functions c) (triggers c) (indexes c).
Definition set_functions (c : catalog) l :=
  mkcatalog (tables c) (rls_enabled c) (policies c) l (triggers c) (indexes c).
Definition set_triggers (c : catalog) l :=
  mkcatalog (tables c) (rls_enabled c) (policies c) (functions c) l (indexes c).
Definition set_indexes (c : catalog) l :=
  mkcatalog (tables c) (rls_enabled c) (policies c) (functions c) (triggers c) l.

(** One statement.  An IF NOT EXISTS / IF EXISTS / OR REPLACE guard turns
    the error of the unguarded form into a skip or a replacement. *)
Definition exec (s : stmt) (c : catalog) : result catalog :=
  match s with
  | CreateTable guard t =>
      if has_table c (tbl_name t)
      then if guard then Ok c else Err (DuplicateTable (tbl_name t))
      else Ok (set_tables c (tables c ++ [t]))
  | EnableRls tbl =>
      if has_table c tbl
      then Ok (if existsb (String.eqb tbl) (rls_enabled c) then c
               else set_rls c (rls_enabled c ++ [tbl]))
      else Err (UndefinedTable tbl)
  | CreatePolicy p =>
      if has_table c (pol_table p)
      then if has_policy c (pol_name p) (pol_table p)
           then Err (DuplicatePolicy (pol_name p) (pol_table p))
           else Ok (set_policies c (policies c ++ [p]))
      else Err (UndefinedTable (pol_table p))
  | DropPolicy guard n tbl =>
      if has_table c tbl
      then if has_policy c n tbl
           then Ok (set_policies c
                      (filter (fun p => negb (is_policy n tbl p)) (policies c)))
           else if guard then Ok c else Err (UndefinedPolicy n tbl)
      else if guard then Ok c else Err (UndefinedTable tbl)
  | CreateFunction guard f =>
      if has_function c (fn_name f)
      then if guard
           then Ok (set_functions c
                      (map (fun g => if fn_name g =? fn_name f then f else g)
                           (functions c)))
           else Err (DuplicateFunction (fn_name f))
      else Ok (set_functions c (functions c ++ [f]))
  | DropTrigger guard n tbl =>
      if has_trigger c n tbl
      then Ok (set_triggers c
                 (filter (fun t => negb (is_trigger n tbl t)) (triggers c)))
      else if guard then Ok c else Err (UndefinedTrigger n tbl)
  | CreateTrigger t =>
      if negb (has_table c (trg_table t)) then Err (UndefinedTable (trg_table t))
      else if negb (has_function c (trg_function t))
           then Err (UndefinedFunction (trg_function t))
      else if has_trigger c (trg_name t) (trg_table t)
           then Err (DuplicateTrigger (trg_name t) (trg_table t))
      else Ok (set_triggers c (triggers c ++ [t]))
  | CreateIndex guard i =>
      if has_index c (idx_name i)
      then if guard then Ok c else Err (DuplicateIndex (idx_name i))
      else if has_table c (idx_table i)
           then Ok (set_indexes c (indexes c ++ [i]))
           else Err (UndefinedTable (idx_table i))
  end.

(** A script stops at its first failing statement. *)
Fixpoint run (script : list stmt) (c : catalog) : result catalog :=
  match script with
  | [] => Ok c
  | s :: rest =>
      match exec s c with
      | Ok c' => run rest c'
      | Err e => Err e
      end
  end.

(** The statements of a script that fail when each is executed, in order,
    from [c]; a failing statement leaves the catalog as it was and the
    next one is tried (each statement submitted on its own). *)
Fixpoint failures (script : list stmt) (c : catalog) : list (stmt * error) :=
  match script with
  | [] => []
  | s :: rest =>
      match exec s c with
      | Ok c' => failures rest c'
      | Err e => (s, e) :: failures rest c
      end
  end.

Definition is_create_policy (s : stmt) : bool :=
  match s with
  | CreatePolicy _ => true
  | _ => false
  end.

(** *** The schema script *)

Definition c_ (n ty : string) (nn : bool) (d : option string) (chk : list string) :=
  mkcol n ty nn d chk.

Definition profiles_table : table_def :=
  mktable "profiles"
    [ c_ "id" "uuid" true None [];
      c_ "email" "text" true None [];
      c_ "name" "text" true None [];
      c_ "phone" "text" false None [];
      c_ "role" "text" true (Some "client") ["client"; "admin"; "super_admin"];
      c_ "admin_color" "text" false None [];
      c_ "created_at" "timestamptz" false (Some "now()") [];
      c_ "updated_at" "timestamptz" false (Some "now()") [] ].

Definition bookings_table : table_def :=
  mktable "bookings"
    [ c_ "id" "uuid" true (Some "gen_random_uuid()") [];
      c_ "client_id" "uuid" false None [];
      c_ "client_name" "text" true None [];
      c_ "email" "text" true None [];
      c_ "phone_number" "text" true None [];
      c_ "event_date" "date" true None [];
      c_ "time_slot" "text" true None [];
      c_ "facility" "text" true None [];
      c_ "package" "text" true None [];
      c_ "special_requests" "text" false None [];
      c_ "status" "text" true (Some "inquiry") ["inquiry"; "confirmed"; "cleared"];
      c_ "assigned_admin_id" "uuid" false None [];
      c_ "total_spend" "decimal(10,2)" false None [];
      c_ "receipts_uploaded" "boolean" false (Some "false") [];
      c_ "receipts_approved" "boolean" false (Some "false") [];
      c_ "created_at" "timestamptz" false (Some "now()") [];
      c_ "updated_at" "timestamptz" false (Some "now()") [] ].

Definition notifications_table : table_def :=
  mktable "notifications"
    [ c_ "id" "uuid" true (Some "gen_random_uuid()") [];
      c_ "user_id" "uuid" true None [];
      c_ "type" "text" true None
         ["booking_inquiry"; "booking_confirmed"; "booking_cleared"; "assignment"];
      c_ "title" "text" true None [];
      c_ "message" "text" true None [];
      c_ "read" "boolean" false (Some "false") [];
      c_ "booking_id" "uuid" false None [];
      c_ "created_at" "timestamptz" false (Some "now()") [] ].

Definition schema : list stmt :=
  [ CreateTable true profiles_table;
    CreateTable true bookings_table;
    CreateTable true notifications_table;
    EnableRls "profiles";
    EnableRls "bookings";
    EnableRls "notifications";
    (* Profiles policies *)
    CreatePolicy (mkpolicy "Users can read their own profile" "profiles" CmdSelect
                    (Some (EEq AuthUid (Col "id"))) None);
    CreatePolicy (mkpolicy "Users can update their own profile" "profiles" CmdUpdate
                    (Some (EEq AuthUid (Col "id"))) None);
    CreatePolicy (mkpolicy "Super admins can read all profiles" "profiles" CmdSelect
                    (Some (EExists "profiles"
                             (EAnd (EEq (Col "id") AuthUid)
                                   (EEq (Col "role") (TextLit "super_admin")))))
                    None);
    (* Bookings policies *)
    CreatePolicy (mkpolicy "Clients can read their own bookings" "bookings" CmdSelect
                    (Some (EOr (EEq (Col "client_id") AuthUid)
                               (EExists "profiles"
                                  (EAnd (EEq (Col "id") AuthUid)
                                        (EIn (Col "role")
                                             [TextLit "admin";
                                              TextLit "super_admin"])))))
                    None);
    CreatePolicy (mkpolicy "Anyone can create bookings" "bookings" CmdInsert
                    None (Some ETrue));
    CreatePolicy (mkpolicy "Admins can update assigned bookings" "bookings" CmdUpdate
                    (Some (EOr (EEq (Col "assigned_admin_id") AuthUid)
                               (EExists "profiles"
                                  (EAnd (EEq (Col "id") AuthUid)
                                        (EEq (Col "role") (TextLit "super_admin"))))))
                    None);
    (* Notifications policies *)
    CreatePolicy (mkpolicy "Users can read their own notifications" "notifications"
                    CmdSelect (Some (EEq (Col "user_id") AuthUid)) None);
    CreatePolicy (mkpolicy "System can create notifications" "notifications"
                    CmdInsert None (Some ETrue));
    CreatePolicy (mkpolicy "Users can update their own notifications" "notifications"
                    CmdUpdate (Some (EEq (Col "user_id") AuthUid)) None);
    CreateFunction true
      (mkroutine "get_admin_conversion_stats" GetAdminConversionStatsBody true);
    CreateFunction true (mkroutine "handle_new_user" HandleNewUserBody true);
    DropTrigger true "on_auth_user_created" "auth.users";
    CreateTrigger (mktrigger "on_auth_user_created" "auth.users" "AFTER INSERT"
                     "handle_new_user");
    CreateIndex true (mkindex "idx_bookings_status" "bookings" "status");
    CreateIndex true (mkindex "idx_bookings_assigned_admin" "bookings" "assigned_admin_id");
    CreateIndex true (mkindex "idx_bookings_event_date" "bookings" "event_date");
    CreateIndex true (mkindex "idx_notifications_user_id" "notifications" "user_id");
    CreateIndex true (mkindex "idx_notifications_read" "notifications" "read") ].

(** *** The recursion-fix migration (20250828073544_quiet_union.sql) *)
Definition quiet_union : list stmt :=
  [ DropPolicy true "Super admins can read all profiles" "profiles" ].

(** The catalog the schema script starts from: the hosted platform already
    provides [auth.users]. *)
Definition platform : catalog :=
  mkcatalog [mktable "auth.users" []] [] [] [] [] [].

Definition or_platform (r : result catalog) : catalog :=
  match r with
  | Ok c => c
  | Err _ => platform
  end.

(** The catalog after the schema script, and after the migration too. *)
Definition after_schema : catalog := or_platform (run schema platform).
Definition migrated : catalog := or_platform (run quiet_union after_schema).

End Ddl.

(** ** Evaluation of the row-level-security policies *)

Module Rls.
Import Ddl.

(** Who runs a statement: the [anon] role, the [authenticated] role with
    the identity of the session, or the service role, which bypasses row
    security. *)
Inductive caller :=
| Anon
| Authenticated (uid : uuid)
| ServiceRole.

(** [auth.uid()] *)
Definition auth_uid (who : caller) : Sql.value :=
  match who with
  | Authenticated u => Sql.VUuid u
  | _ => Sql.VNull
  end.

Definition scalar_value (who : caller) (row : string -> Sql.value) (s : scalar)
  : Sql.value :=
  match s with
  | Col c => row c
  | AuthUid => auth_uid who
  | TextLit t => Sql.VText t
  end.

(** Outcome of evaluating a policy: a truth value, or the engine's
    "infinite recursion detected in policy for relation ..." error. *)
Inductive outcome (A : Type) :=
| Val (a : A)
| InfiniteRecursion (tbl : string).
Arguments Val {A} a.
Arguments InfiniteRecursion {A} tbl.

Definition bind {A B} (o : outcome A) (k : A -> outcome B) : outcome B :=
  match o with
  | Val a => k a
  | InfiniteRecursion t => InfiniteRecursion t
  end.

(** The policies of [tbl] that apply to [cmd] for the role authenticated. *)
Definition policies_for (cat : catalog) (tbl : string) (cmd : command) : list policy :=
  filter (fun p => (pol_table p =? tbl) && command_eqb (pol_cmd p) cmd) (policies cat).

Definition rls_on (cat : catalog) (tbl : string) : bool :=
  existsb (String.eqb tbl) (rls_enabled cat).

(** Disjunction of the outcomes of a list of conditions, all evaluated. *)
Fixpoint any_of {A} (f : A -> outcome bool) (l : list A) : outcome bool :=
  match l with
  | [] => Val false
  | x :: rest =>
      bind (f x) (fun b => bind (any_of f rest) (fun c => Val (b || c)))
  end.

Section Eval.
Variable cat : catalog.
Variable db : database.
Variable who : caller.

(** [eval_with visible row e]: the truth value of [e] on [row].  A
    subquery on a table reads the rows of that table that [visible]
    lets the caller see. *)
Section Level.
Variable visible : string -> (string -> Sql.value) -> outcome bool.

Fixpoint eval_with (row : string -> Sql.value) (e : expr) : outcome Sql.tv :=
  match e with
  | ETrue => Val (Some true)
  | EEq a b => Val (Sql.eq (scalar_value who row a) (scalar_value who row b))
  | EIn a l => Val (Sql.in3 (scalar_value who row a) (map (scalar_value who row) l))
  | EAnd a b =>
      bind (eval_with row a) (fun x =>
      bind (eval_with row b) (fun y => Val (Sql.and3 x y)))
  | EOr a b =>
      bind (eval_with row a) (fun x =>
      bind (eval_with row b) (fun y => Val (Sql.or3 x y)))
  | EExists tbl w =>
      bind
        (any_of
           (fun r =>
              bind (visible tbl r) (fun v =>
              bind (eval_with r w) (fun t => Val (v && Sql.holds t))))
           (rows_of db tbl))
        (fun found => Val (Some found))
  end.

(** The USING clause of a policy on a row; a policy without one does
    not restrict. *)
Definition using_holds (row : string -> Sql.value) (p : policy) : outcome bool :=
  match pol_using p with
  | Some u => bind (eval_with row u) (fun t => Val (Sql.holds t))
  | None => Val true
  end.

(** The WITH CHECK clause, or the USING clause when there is none. *)
Definition check_holds (row : string -> Sql.value) (p : policy) : outcome bool :=
  match pol_check p with
  | Some u => bind (eval_with row u) (fun t => Val (Sql.holds t))
  | None => using_holds row p
  end.
End Level.

(** Whether the SELECT policies of [tbl] let the caller see a row of
    it, for a subquery at nesting depth bounded by [fuel]: the policies
    of [tbl] may themselves read tables, one level deeper. *)
Fixpoint visible_at (fuel : nat) (tbl : string) (r : string -> Sql.value)
  : outcome bool :=
  match fuel with
  | O => InfiniteRecursion tbl
  | S fuel' =>
      if rls_on cat tbl
      then any_of (using_holds (visible_at fuel') r) (policies_for cat tbl CmdSelect)
      else Val true
  end.

(** A nesting depth that policies without a cycle among the tables never
    exceed. *)
Definition depth : nat := S (List.length (tables cat)).

(** Does row security let the caller apply [cmd] to an existing [row]
    of [tbl]?  The USING clauses of the applicable policies are combined
    with OR; with row security on and no applicable policy nothing is
    permitted. *)
Definition permits (tbl : string) (cmd : command) (row : string -> Sql.value)
  : outcome bool :=
  match who with
  | ServiceRole => Val true
  | Anon => Val (negb (rls_on cat tbl))
  | Authenticated _ =>
      if rls_on cat tbl
      then any_of (using_holds (visible_at depth) row) (policies_for cat tbl cmd)
      else Val true
  end.

(** Does row security accept [row] as a new row of [tbl] written by
    [cmd]? *)
Definition accepts (tbl : string) (cmd : command) (row : string -> Sql.value)
  : outcome bool :=
  match who with
  | ServiceRole => Val true
  | Anon => Val (negb (rls_on cat tbl))
  | Authenticated _ =>
      if rls_on cat tbl
      then any_of (check_holds (visible_at depth) row) (policies_for cat tbl cmd)
      else Val true
  end.

End Eval.

End Rls.

(** ** Text and numeric primitives *)

(** The fields of [s] between occurrences of the one-character separator:
    JavaScript's [s.split(sep)] and the fields of SQL's [split_part]. *)
Fixpoint split (sep : ascii) (s : string) : list string :=
  match s with
  | EmptyString => [EmptyString]
  | String c rest =>
      if Ascii.eqb c sep then EmptyString :: split sep rest
      else match split sep rest with
           | [] => [String c EmptyString]
           | field :: fields => String c field :: fields
           end
  end.

(** [split_part(s, sep, n)] for [n >= 1]: the n-th field, or the empty
    text when there are fewer fields. *)
Definition split_part (s : string) (sep : ascii) (n : nat) : string :=
  nth (pred n) (split sep s) EmptyString.

(** The specification's words for the two parts of an address: the text
    before the first [@] (the whole text when there is none), and the text
    after the first [@] up to the next one, if any (nothing when there is
    no [@]). *)
Fixpoint local_part (s : string) : string :=
  match s with
  | EmptyString => EmptyString
  | String c rest => if Ascii.eqb c "@" then EmptyString else String c (local_part rest)
  end.

Fixpoint domain_part (s : string) : option string :=
  match s with
  | EmptyString => None
  | String c rest => if Ascii.eqb c "@" then Some (local_part rest) else domain_part rest
  end.

(** [toLowerCase] on the letters A to Z; the other bytes are kept.  (Of
    the characters outside ASCII only the Kelvin sign lower-cases to an
    ASCII letter, k, which no allowed domain contains.) *)
Definition lower_ascii (c : ascii) : ascii :=
  let n := nat_of_ascii c in
  if (65 <=? n)%nat && (n <=? 90)%nat then ascii_of_nat (n + 32) else c.

Fixpoint toLowerCase (s : string) : string :=
  match s with
  | EmptyString => EmptyString
  | String c rest => String (lower_ascii c) (toLowerCase rest)
  end.

(** The text of a date as a date control submits it and as the database
    prints it, [YYYY-MM-DD]: [Some true] for a day of the calendar,
    [Some false] for a text of that form that names no day (a month 13, a
    30th of February, the year 0000), [None] for any other text.  The
    other spellings of a date that PostgreSQL reads are not modelled. *)
Definition digit (c : ascii) : option nat :=
  let n := nat_of_ascii c in
  if (48 <=? n)%nat && (n <=? 57)%nat then Some (n - 48)%nat else None.

Fixpoint number (l : list ascii) (acc : nat) : option nat :=
  match l with
  | [] => Some acc
  | c :: rest =>
      match digit c with
      | Some d => number rest (10 * acc + d)%nat
      | None => None
      end
  end.

Definition leap_year (y : nat) : bool :=
  ((y mod 4 =? 0)%nat && negb (y mod 100 =? 0)%nat) || (y mod 400 =? 0)%nat.

Definition days_in_month (y m : nat) : nat :=
  if existsb (Nat.eqb m) [1; 3; 5; 7; 8; 10; 12]%nat then 31%nat
  else if existsb (Nat.eqb m) [4; 6; 9; 11]%nat then 30%nat
  else if (m =? 2)%nat then (if leap_year y then 29%nat else 28%nat)
  else 0%nat.

Definition calendar_date (s : string) : option bool :=
  match list_ascii_of_string s with
  | [y1; y2; y3; y4; dash1; m1; m2; dash2; d1; d2] =>
      if Ascii.eqb dash1 "-" && Ascii.eqb dash2 "-"
      then match number [y1; y2; y3; y4] 0%nat, number [m1; m2] 0%nat,
                 number [d1; d2] 0%nat with
           | Some y, Some m, Some d =>
               Some ((1 <=? y)%nat && (1 <=? d)%nat && (d <=? days_in_month y m)%nat)
           | _, _, _ => None
           end
      else None
  | _ => None
  end.

(** ** numeric

    A PostgreSQL numeric: the digits as an integer and the number of
    decimals shown ([dscale]); the value is [unscaled / 10^dscale].  Sums
    and products are exact; a quotient is rounded, half away from zero, to
    the scale that [select_div_scale] chooses from the base-10000 weights
    and first digits of the operands, so that it has at least 16
    significant digits and no fewer decimals than either operand. *)

Module Numeric.

Record t := mk { unscaled : Z; dscale : nat }.

Definition value (x : t) : Q :=
  (inject_Z (unscaled x) / inject_Z (10 ^ Z.of_nat (dscale x)))%Q.

(** A bigint or integer cast to numeric. *)
Definition of_Z (z : Z) : t := mk z 0.

(** The integer nearest to [num / den], ties away from zero. *)
Definition nearest (num den : Z) : Z :=
  (Z.sgn num * Z.sgn den * ((2 * Z.abs num + Z.abs den) / (2 * Z.abs den)))%Z.

(** Of a positive integer: the number of base-10000 digits after the first,
    and the first digit. *)
Fixpoint leading (fuel : nat) (n : Z) : Z * Z :=
  match fuel with
  | O => (0, n)%Z
  | S fuel' =>
      if (n <? 10000)%Z then (0, n)%Z
      else let '(w, d) := leading fuel' (n / 10000)%Z in ((w + 1)%Z, d)
  end.

(** The weight of the first non-zero base-10000 digit and that digit; both
    0 for zero. *)
Definition weight_digit (x : t) : Z * Z :=
  let k := Z.of_nat ((dscale x + 3) / 4) in
  let n := (Z.abs (unscaled x) * 10 ^ (4 * k - Z.of_nat (dscale x)))%Z in
  if (n =? 0)%Z then (0, 0)%Z
  else let '(w, d) := leading (Z.to_nat (Z.log2 n)) n in ((w - k)%Z, d).

(** NUMERIC_MIN_SIG_DIGITS is 16, DEC_DIGITS 4, the display scale lies
    between 0 and 1000. *)
Definition select_div_scale (a b : t) : nat :=
  let '(w1, d1) := weight_digit a in
  let '(w2, d2) := weight_digit b in
  let qweight := (w1 - w2 - (if d1 <=? d2 then 1 else 0))%Z in
  Z.to_nat
    (Z.min 1000
       (Z.max (Z.max (Z.max (16 - qweight * 4) (Z.of_nat (dscale a)))
                     (Z.of_nat (dscale b))) 0)).

(** [a / b], for [b] not zero. *)
Definition div (a b : t) : t :=
  let r := select_div_scale a b in
  mk (nearest (unscaled a * 10 ^ Z.of_nat (r + dscale b))
              (unscaled b * 10 ^ Z.of_nat (dscale a))) r.

Definition mul (a b : t) : t := mk (unscaled a * unscaled b) (dscale a + dscale b).

Definition add (a b : t) : t :=
  let m := Nat.max (dscale a) (dscale b) in
  mk (unscaled a * 10 ^ Z.of_nat (m - dscale a) + unscaled b * 10 ^ Z.of_nat (m - dscale b)) m.

Definition sum (l : list t) : t := fold_left add l (of_Z 0).

(** [ROUND(x, d)] *)
Definition round (x : t) (d : nat) : t :=
  mk (nearest (unscaled x * 10 ^ Z.of_nat d) (10 ^ Z.of_nat (dscale x))) d.

(** Half a unit of the last of [r] decimals. *)
Definition half_ulp (r : nat) : Q := ((1 # 2) / inject_Z (10 ^ Z.of_nat r))%Q.

End Numeric.

(** [ROUND(q, digits)] on numeric: to the nearest multiple of
    [10^-digits], ties away from zero. *)
Definition round_numeric (q : Q) (digits : nat) : Q :=
  let scale := Z.pow 10 (Z.of_nat digits) in
  let scaled := (q * inject_Z scale)%Q in
  let units :=
    if Qle_bool 0 scaled
    then Qfloor (scaled + (1 # 2))%Q
    else Z.opp (Qfloor ((- scaled) + (1 # 2))%Q) in
  (inject_Z units / inject_Z scale)%Q.

(** [COUNT(..) FILTER (WHERE f)] over the rows of a group. *)
Definition count_where {A} (f : A -> bool) (l : list A) : Z :=
  Z.of_nat (List.length (filter f l)).

Definition sumQ (l : list Q) : Q := fold_right Qplus 0%Q l.

(** The non-NULL inputs of an aggregate. *)
Fixpoint non_null {A} (l : list (option A)) : list A :=
  match l with
  | [] => []
  | Some a :: rest => a :: non_null rest
  | None :: rest => non_null rest
  end.

(** [AVG] on numeric: the sum of the non-NULL inputs divided by their
    number, NULL when there is none. *)
Definition avg (l : list (option Numeric.t)) : option Numeric.t :=
  match non_null l with
  | [] => None
  | x :: xs =>
      Some (Numeric.div (Numeric.sum (x :: xs))
                        (Numeric.of_Z (Z.of_nat (List.length (x :: xs)))))
  end.

Definition coalesce {A} (o : option A) (d : A) : A :=
  match o with
  | Some a => a
  | None => d
  end.

(** ** get_admin_conversion_stats *)

Module Stats.

Record row := mk {
  admin_id : uuid;
  admin_name : string;
  admin_color : option string;
  inquiries_assigned : Z;
  confirmed_bookings : Z;
  conversion_rate : Q;
  avg_response_time : Q
}.

(** A row of [profiles p LEFT JOIN bookings b ON p.id = b.assigned_admin_id]:
    the booking side is NULL for a profile without a match. *)
Definition joined := (profiles.row * option bookings.row)%type.

Definition on_assigned (p : profiles.row) (b : bookings.row) : bool :=
  Sql.holds (Sql.eq (Sql.VUuid (profiles.id p))
                    (Sql.of_option Sql.VUuid (bookings.assigned_admin_id b))).

Definition left_join (ps : list profiles.row) (bs : list bookings.row) : list joined :=
  flat_map
    (fun p =>
       match filter (on_assigned p) bs with
       | [] => [(p, None)]
       | matches => map (fun b => (p, Some b)) matches
       end)
    ps.

(** The joined rows of one profile. *)
Definition block (bs : list bookings.row) (p : profiles.row) : list joined :=
  match filter (on_assigned p) bs with
  | [] => [(p, None)]
  | matches => map (fun b => (p, Some b)) matches
  end.

(** GROUP BY p.id, p.name, p.admin_color *)
Definition key := (uuid * string * option string)%type.

Definition key_of (j : joined) : key :=
  (profiles.id (fst j), profiles.name (fst j), profiles.admin_color (fst j)).

Definition key_eqb (a b : key) : bool :=
  let '(i, n, c) := a in
  let '(i', n', c') := b in
  N.eqb i i' && String.eqb n n' &&
  match c, c' with
  | Some x, Some y => String.eqb x y
  | None, None => true
  | _, _ => false
  end.

Definition key_of_profile (p : profiles.row) : key :=
  (profiles.id p, profiles.name p, profiles.admin_color p).

(** WHERE p.role = 'admin' *)
Definition is_admin_row (j : joined) : bool :=
  String.eqb (role_text (profiles.role_ (fst j))) "admin".

Definition is_admin (p : profiles.row) : bool := role_eqb (profiles.role_ p) admin.

(** The distinct keys, in order of first occurrence. *)
Fixpoint distinct (l : list key) : list key :=
  match l with
  | [] => []
  | k :: rest => k :: filter (fun k' => negb (key_eqb k k')) (distinct rest)
  end.

Definition groups (rows : list joined) : list (key * list joined) :=
  map (fun k => (k, filter (fun j => key_eqb k (key_of j)) rows))
      (distinct (map key_of rows)).

(** [b.id] is counted when the booking side is not NULL. *)
Definition has_status (ss : list status) (j : joined) : bool :=
  match snd j with
  | Some b => existsb (status_eqb (bookings.status_ b)) ss
  | None => false
  end.

Definition has_booking (j : joined) : bool :=
  match snd j with
  | Some _ => true
  | None => false
  end.

(** [EXTRACT(EPOCH FROM (b.updated_at - b.created_at)) / 3600]: the epoch
    of an interval is a numeric of six decimals, the seconds. *)
Definition response_hours (b : bookings.row) : option Numeric.t :=
  match bookings.updated_at b, bookings.created_at b with
  | Some u, Some c => Some (Numeric.div (Numeric.mk (u - c) 6) (Numeric.of_Z 3600))
  | _, _ => None
  end.

Definition joined_hours (j : joined) : option Numeric.t :=
  match snd j with
  | Some b => response_hours b
  | None => None
  end.

(** [ROUND((won::numeric / total::numeric) * 100, 1)] *)
Definition rate (won total : Z) : Numeric.t :=
  Numeric.round
    (Numeric.mul (Numeric.div (Numeric.of_Z won) (Numeric.of_Z total)) (Numeric.of_Z 100))
    1.

Definition aggregate (g : key * list joined) : row :=
  let '(i, n, c) := fst g in
  let rows := snd g in
  let total := count_where has_booking rows in
  let won := count_where (has_status [confirmed; cleared]) rows in
  mk i n c
     (count_where (has_status [inquiry]) rows)
     won
     (Numeric.value (if (total >? 0)%Z then rate won total else Numeric.of_Z 0))
     (Numeric.value (coalesce (avg (map joined_hours rows)) (Numeric.of_Z 0))).

(** The function is SECURITY DEFINER: it reads both tables whole, whoever
    calls it.  The rows as a plan gives them that scans profiles in order
    and keeps the groups in order of first occurrence. *)
Definition get_admin_conversion_stats (db : database) : list row :=
  map aggregate
      (groups
         (filter (fun j => String.eqb (role_text (profiles.role_ (fst j))) "admin")
                 (left_join (db_profiles db) (db_bookings db)))).

(** The query has no ORDER BY: a call may return the rows in any order. *)
Definition returns (db : database) (rows : list row) : Prop :=
  Permutation rows (get_admin_conversion_stats db).

(** The row of the group of profile [p]. *)
Definition of_admin (bs : list bookings.row) (p : profiles.row) : row :=
  aggregate (key_of_profile p, block bs p).

End Stats.

(** The statistics of one admin as the specification words them, computed
    from the bookings assigned to that admin. *)
Module StatsSpec.

Definition assigned_to (p : profiles.row) (bs : list bookings.row) : list bookings.row :=
  filter (fun b => match bookings.assigned_admin_id b with
                   | Some a => N.eqb a (profiles.id p)
                   | None => false
                   end) bs.

Definition with_status (ss : list status) (bs : list bookings.row) : list bookings.row :=
  filter (fun b => existsb (status_eqb (bookings.status_ b)) ss) bs.

Definition mean (l : list Q) : Q :=
  match l with
  | [] => 0%Q
  | _ :: _ => (sumQ l / inject_Z (Z.of_nat (List.length l)))%Q
  end.

(** Hours from creation to last update, timestamps being microseconds,
    for the bookings that carry both. *)
Definition elapsed_hours (b : bookings.row) : option Q :=
  match bookings.created_at b, bookings.updated_at b with
  | Some c, Some u => Some (inject_Z (u - c) / inject_Z 3600000000)%Q
  | _, _ => None
  end.

Definition hours (bs : list bookings.row) : list Q :=
  non_null (map elapsed_hours bs).

End StatsSpec.

(** ** Data manipulation: inserts, updates and selects under row security *)

Module Dml.

Inductive error :=
| NotNullViolation (col : string)
| CheckViolation (col : string)
| UniqueViolation (constraint : string)
| ForeignKeyViolation (col : string)
| InvalidInput (col : string)
| DatetimeFieldOverflow (col : string)
| UndefinedColumn (col : string)
| NumericOverflow (col : string)
| RlsViolation (tbl : string)
| PolicyRecursion (tbl : string).

Inductive result (A : Type) :=
| Done (a : A)
| Raise (e : error).
Arguments Done {A} a.
Arguments Raise {A} e.

Definition bind {A B} (r : result A) (k : A -> result B) : result B :=
  match r with
  | Done a => k a
  | Raise e => Raise e
  end.

Notation "x <- r ;; k" := (bind r (fun x => k))
  (at level 61, r at next level, right associativity).

Definition guard (b : bool) (e : error) : result unit :=
  if b then Done tt else Raise e.

Definition of_policy (tbl : string) (o : Rls.outcome bool) : result bool :=
  match o with
  | Rls.Val b => Done b
  | Rls.InfiniteRecursion _ => Raise (PolicyRecursion tbl)
  end.

(** The body of an insert or update request: column names with values. *)
Definition payload := list (string * Sql.value).

Fixpoint lookup (k : string) (o : payload) : option Sql.value :=
  match o with
  | [] => None
  | (k', v) :: rest => if k' =? k then Some v else lookup k rest
  end.

(** [{...o, k: v}]: the key is replaced where it stands, or added last. *)
Fixpoint put (k : string) (v : Sql.value) (o : payload) : payload :=
  match o with
  | [] => [(k, v)]
  | (k', v') :: rest =>
      if k' =? k then (k, v) :: rest else (k', v') :: put k v rest
  end.

(** The columns of [base] with those of the payload written over them. *)
Definition overlay (o : payload) (base : string -> Sql.value) : string -> Sql.value :=
  fun c =>
    match lookup c o with
    | Some v => v
    | None => base c
    end.

(** Conversions of a column value to the type of the column. *)
Definition as_uuid (c : string) (v : Sql.value) : result (option uuid) :=
  match v with
  | Sql.VNull => Done None
  | Sql.VUuid u => Done (Some u)
  | _ => Raise (InvalidInput c)
  end.

Definition as_text (c : string) (v : Sql.value) : result (option string) :=
  match v with
  | Sql.VNull => Done None
  | Sql.VText s => Done (Some s)
  | _ => Raise (InvalidInput c)
  end.

Definition as_bool (c : string) (v : Sql.value) : result (option bool) :=
  match v with
  | Sql.VNull => Done None
  | Sql.VBool b => Done (Some b)
  | _ => Raise (InvalidInput c)
  end.

Definition as_time (c : string) (v : Sql.value) : result (option timestamptz) :=
  match v with
  | Sql.VNull => Done None
  | Sql.VTime t => Done (Some t)
  | _ => Raise (InvalidInput c)
  end.

Definition as_num (c : string) (v : Sql.value) : result (option Q) :=
  match v with
  | Sql.VNull => Done None
  | Sql.VNum q => Done (Some q)
  | _ => Raise (InvalidInput c)
  end.

Definition not_null {A} (c : string) (o : option A) : result A :=
  match o with
  | Some a => Done a
  | None => Raise (NotNullViolation c)
  end.

(** A value written to a [decimal(10,2)] column is rounded to two
    decimals and must stay below 10^8 in absolute value. *)
Definition decimal_10_2 (c : string) (q : Q) : result Q :=
  let r := round_numeric q 2 in
  if Qle_bool (100000000 # 1) (Qabs r) then Raise (NumericOverflow c) else Done r.

Definition bookings_columns : list string :=
  map Ddl.col_name (Ddl.tbl_columns Ddl.bookings_table).

(** Every key of a request must be a column of the table; the request is
    refused otherwise, before any row is looked at. *)
Fixpoint known_columns (o : payload) : result unit :=
  match o with
  | [] => Done tt
  | (k, _) :: rest =>
      _ <- guard (existsb (String.eqb k) bookings_columns) (UndefinedColumn k) ;;
      known_columns rest
  end.

(** The values of a request as the columns keep them: the value for
    [total_spend] is converted to [decimal(10,2)]. *)
Fixpoint stored (o : payload) : result payload :=
  match o with
  | [] => Done []
  | (k, v) :: rest =>
      v' <- (if k =? "total_spend"
             then match v with
                  | Sql.VNum q => q' <- decimal_10_2 k q ;; Done (Sql.VNum q')
                  | _ => Done v
                  end
             else Done v) ;;
      rest' <- stored rest ;;
      Done ((k, v') :: rest')
  end.

(** A text written to the [date] column [event_date] must be a date of
    the calendar; a text that is not of the form [YYYY-MM-DD] is refused
    here (see [calendar_date]). *)
Definition dated (o : payload) : result unit :=
  match lookup "event_date" o with
  | Some (Sql.VText s) =>
      match calendar_date s with
      | Some true => Done tt
      | Some false => Raise (DatetimeFieldOverflow "event_date")
      | None => Raise (InvalidInput "event_date")
      end
  | _ => Done tt
  end.

(** A bookings row from its column values: types, NOT NULL and the CHECK
    on status. *)
Definition bookings_row (get : string -> Sql.value) : result bookings.row :=
  id <- (o <- as_uuid "id" (get "id") ;; not_null "id" o) ;;
  client_id <- as_uuid "client_id" (get "client_id") ;;
  client_name <- (o <- as_text "client_name" (get "client_name") ;; not_null "client_name" o) ;;
  email <- (o <- as_text "email" (get "email") ;; not_null "email" o) ;;
  phone_number <- (o <- as_text "phone_number" (get "phone_number") ;; not_null "phone_number" o) ;;
  event_date <- (o <- as_text "event_date" (get "event_date") ;; not_null "event_date" o) ;;
  time_slot <- (o <- as_text "time_slot" (get "time_slot") ;; not_null "time_slot" o) ;;
  facility <- (o <- as_text "facility" (get "facility") ;; not_null "facility" o) ;;
  package <- (o <- as_text "package" (get "package") ;; not_null "package" o) ;;
  special_requests <- as_text "special_requests" (get "special_requests") ;;
  status_txt <- (o <- as_text "status" (get "status") ;; not_null "status" o) ;;
  status <- match status_of_text status_txt with
            | Some s => Done s
            | None => Raise (CheckViolation "status")
            end ;;
  assigned_admin_id <- as_uuid "assigned_admin_id" (get "assigned_admin_id") ;;
  total_spend <- as_num "total_spend" (get "total_spend") ;;
  receipts_uploaded <- as_bool "receipts_uploaded" (get "receipts_uploaded") ;;
  receipts_approved <- as_bool "receipts_approved" (get "receipts_approved") ;;
  created_at <- as_time "created_at" (get "created_at") ;;
  updated_at <- as_time "updated_at" (get "updated_at") ;;
  Done (bookings.mk id client_id client_name email phone_number event_date time_slot
          facility package special_requests status assigned_admin_id total_spend
          receipts_uploaded receipts_approved created_at updated_at).

(** The DEFAULT clauses of the bookings table. *)
Definition bookings_defaults (gen_random_uuid : uuid) (now : timestamptz)
  : string -> Sql.value :=
  fun c =>
    if c =? "id" then Sql.VUuid gen_random_uuid
    else if c =? "status" then Sql.VText "inquiry"
    else if c =? "receipts_uploaded" then Sql.VBool false
    else if c =? "receipts_approved" then Sql.VBool false
    else if c =? "created_at" then Sql.VTime now
    else if c =? "updated_at" then Sql.VTime now
    else Sql.VNull.

Definition option_uuid_eqb (a b : option uuid) : bool :=
  match a, b with
  | Some x, Some y => N.eqb x y
  | None, None => true
  | _, _ => false
  end.

Definition references_profile (db : database) (o : option uuid) : bool :=
  match o with
  | None => true
  | Some u => existsb (fun p => N.eqb (profiles.id p) u) (db_profiles db)
  end.

Definition has_booking_id (db : database) (u : uuid) : bool :=
  existsb (fun b => N.eqb (bookings.id b) u) (db_bookings db).

Definition set_bookings (db : database) (l : list bookings.row) : database :=
  mkdb (db_profiles db) l (db_notifications db).

Definition set_profiles (db : database) (l : list profiles.row) : database :=
  mkdb l (db_bookings db) (db_notifications db).

Section Statements.
Variable cat : Ddl.catalog.
Variable db : database.
Variable who : Rls.caller.

(** [INSERT INTO bookings] of one row, without RETURNING: row security
    is checked on the values of the new row, then the row is formed and
    its constraints are checked. *)
Definition insert_booking (gen_random_uuid : uuid) (now : timestamptz) (o : payload)
  : result database :=
  _ <- known_columns o ;;
  o' <- stored o ;;
  let new := overlay o' (bookings_defaults gen_random_uuid now) in
  ok <- of_policy "bookings" (Rls.accepts cat db who "bookings" Ddl.CmdInsert new) ;;
  _ <- guard ok (RlsViolation "bookings") ;;
  _ <- dated o' ;;
  r <- bookings_row new ;;
  _ <- guard (negb (has_booking_id db (bookings.id r))) (UniqueViolation "bookings_pkey") ;;
  _ <- guard (references_profile db (bookings.client_id r))
         (ForeignKeyViolation "client_id") ;;
  _ <- guard (references_profile db (bookings.assigned_admin_id r))
         (ForeignKeyViolation "assigned_admin_id") ;;
  Done (set_bookings db (db_bookings db ++ [r])).

(** The rows of bookings that the caller may read. *)
Fixpoint readable (rows : list bookings.row) : result (list bookings.row) :=
  match rows with
  | [] => Done []
  | r :: rest =>
      ok <- of_policy "bookings"
              (Rls.permits cat db who "bookings" Ddl.CmdSelect (bookings.col r)) ;;
      rest' <- readable rest ;;
      Done (if ok then r :: rest' else rest')
  end.

(** [SELECT * FROM bookings WHERE cond] *)
Definition select_bookings (cond : bookings.row -> bool) : result (list bookings.row) :=
  rows <- readable (db_bookings db) ;;
  Done (filter cond rows).

(** One row of [UPDATE bookings SET .. WHERE cond]: a row that the
    condition selects and that the caller may both read and update is
    rewritten.  The values of the request are converted only then, so a
    request that reaches no row raises no conversion error.  The new row
    must be accepted by the update policy and keep the constraints, the
    key and the references valid. *)
Definition update_row (cond : bookings.row -> bool) (o : payload) (r : bookings.row)
  : result bookings.row :=
  if cond r then
    can_read <- of_policy "bookings"
                  (Rls.permits cat db who "bookings" Ddl.CmdSelect (bookings.col r)) ;;
    can_write <- of_policy "bookings"
                   (Rls.permits cat db who "bookings" Ddl.CmdUpdate (bookings.col r)) ;;
    if can_read && can_write then
      o' <- stored o ;;
      let new := overlay o' (bookings.col r) in
      ok <- of_policy "bookings" (Rls.accepts cat db who "bookings" Ddl.CmdUpdate new) ;;
      _ <- guard ok (RlsViolation "bookings") ;;
      _ <- dated o' ;;
      r' <- bookings_row new ;;
      _ <- guard (N.eqb (bookings.id r') (bookings.id r)
                  || negb (has_booking_id db (bookings.id r')))
             (UniqueViolation "bookings_pkey") ;;
      _ <- guard (option_uuid_eqb (bookings.client_id r') (bookings.client_id r)
                  || references_profile db (bookings.client_id r'))
             (ForeignKeyViolation "client_id") ;;
      _ <- guard (option_uuid_eqb (bookings.assigned_admin_id r')
                                   (bookings.assigned_admin_id r)
                  || references_profile db (bookings.assigned_admin_id r'))
             (ForeignKeyViolation "assigned_admin_id") ;;
      Done r'
    else Done r
  else Done r.

Fixpoint update_rows (cond : bookings.row -> bool) (o : payload)
         (rows : list bookings.row) : result (list bookings.row) :=
  match rows with
  | [] => Done []
  | r :: rest =>
      r' <- update_row cond o r ;;
      rest' <- update_rows cond o rest ;;
      Done (r' :: rest')
  end.

(** [UPDATE bookings SET .. WHERE cond], without RETURNING. *)
Definition update_bookings (cond : bookings.row -> bool) (o : payload)
  : result database :=
  _ <- known_columns o ;;
  rows <- update_rows cond o (db_bookings db) ;;
  Done (set_bookings db rows).

(** The rows of profiles that the caller may read. *)
Fixpoint readable_profiles (rows : list profiles.row) : result (list profiles.row) :=
  match rows with
  | [] => Done []
  | r :: rest =>
      ok <- of_policy "profiles"
              (Rls.permits cat db who "profiles" Ddl.CmdSelect (profiles.col r)) ;;
      rest' <- readable_profiles rest ;;
      Done (if ok then r :: rest' else rest')
  end.

(** [SELECT * FROM profiles WHERE cond] *)
Definition select_profiles (cond : profiles.row -> bool) : result (list profiles.row) :=
  rows <- readable_profiles (db_profiles db) ;;
  Done (filter cond rows).

End Statements.

End Dml.

(** ** The rules in the specification's words *)

(** The caller's own profiles row carries one of the role texts [rs]. *)
Definition own_role_in (uid : uuid) (rs : list string) (p : profiles.row) : bool :=
  N.eqb (profiles.id p) uid && existsb (String.eqb (role_text (profiles.role_ p))) rs.

(** One pass over profiles finds such a row. *)
Definition caller_role_in (db : database) (uid : uuid) (rs : list string) : bool :=
  existsb (own_role_in uid rs) (db_profiles db).

(** The booking's client_id, and its assigned_admin_id, is the caller. *)
Definition owns (uid : uuid) (b : bookings.row) : bool :=
  Dml.option_uuid_eqb (bookings.client_id b) (Some uid).

Definition is_assigned (uid : uuid) (b : bookings.row) : bool :=
  Dml.option_uuid_eqb (bookings.assigned_admin_id b) (Some uid).

(** ** handle_new_user *)

Module Auth.

(** A value of the metadata object: JSON null, a JSON string, or any
    other JSON value, kept as its text. *)
Inductive json :=
| JNull
| JString (s : string)
| JOther (text : string).

(** A row of [auth.users], as far as the trigger reads it. *)
Record users_row := mk {
  id : uuid;
  email : option string;
  raw_user_meta_data : option (list (string * json))
}.

(** [object ->> key] as text: NULL when the object is NULL, the key is
    missing or its value is JSON null. *)
Definition get_text (o : option (list (string * json))) (k : string) : option string :=
  match o with
  | None => None
  | Some fields =>
      match find (fun kv => fst kv =? k) fields with
      | Some (_, JString s) => Some s
      | Some (_, JOther t) => Some t
      | Some (_, JNull) => None
      | None => None
      end
  end.

(** [INSERT INTO public.profiles (id, email, name, role) VALUES (..)];
    the other columns take their defaults. *)
Definition insert_profile (db : database) (id : uuid) (email name role : option string)
           (now : timestamptz) : Dml.result database :=
  Dml.bind (Dml.not_null "email" email) (fun email' =>
  Dml.bind (Dml.not_null "name" name) (fun name' =>
  Dml.bind (Dml.not_null "role" role) (fun role_txt =>
  Dml.bind (match role_of_text role_txt with
            | Some r => Dml.Done r
            | None => Dml.Raise (Dml.CheckViolation "role")
            end) (fun role' =>
  Dml.bind (Dml.guard (negb (existsb (fun p => N.eqb (profiles.id p) id) (db_profiles db)))
              (Dml.UniqueViolation "profiles_pkey")) (fun _ =>
  Dml.bind (Dml.guard (negb (existsb (fun p => profiles.email p =? email') (db_profiles db)))
              (Dml.UniqueViolation "profiles_email_key")) (fun _ =>
  Dml.Done (Dml.set_profiles db
              (db_profiles db ++
               [profiles.mk id email' name' None role' None (Some now) (Some now)])))))))).

Definition coalesce2 {A} (a b : option A) : option A :=
  match a with
  | Some _ => a
  | None => b
  end.

(** The trigger function, run AFTER INSERT ON auth.users FOR EACH ROW with
    the new row; it is SECURITY DEFINER, so row security does not apply.
    An error aborts the insertion into [auth.users] as well. *)
Definition handle_new_user (db : database) (NEW : users_row) (now : timestamptz)
  : Dml.result database :=
  insert_profile db
    (id NEW)
    (email NEW)
    (coalesce2 (get_text (raw_user_meta_data NEW) "name")
               (option_map (fun e => split_part e "@" 1) (email NEW)))
    (coalesce2 (get_text (raw_user_meta_data NEW) "role") (Some "client"))
    now.

End Auth.

(** ** AuthForm.tsx *)

Module AuthForm.

Definition ALLOWED_DOMAINS : list string := ["yourcompany.com"; "yourdomain.org"].

(** [email.split('@')[1]?.toLowerCase()] followed by [includes]: with no
    second field the domain is undefined, which the list does not
    include. *)
Definition isOrganizationEmail (email : string) : bool :=
  match nth_error (split "@" email) 1 with
  | Some domain => existsb (String.eqb (toLowerCase domain)) ALLOWED_DOMAINS
  | None => false
  end.

Record FormData := mk {
  email : string;
  password : string;
  name : string;
  role_ : string
}.

Inductive effect :=
| PreventDefault
| ToastError (msg : string)
| SetLoading (b : bool)
| SignIn (email password : string)
| SignUp (email password name role : string)
| ConsoleError (msg : string).

Inductive completion :=
| Returns
| Throws (err : string).

(** [handleSubmit].  The module does not import [toast]: [toast_bound]
    says whether the identifier is bound where the handler runs; if it is
    not, evaluating [toast.error] throws.  [auth_rejects] says whether
    the awaited authentication call rejects. *)
Definition handleSubmit (toast_bound isLogin auth_rejects : bool) (formData : FormData)
  : list effect * completion :=
  if negb (isOrganizationEmail (email formData)) then
    if toast_bound
    then ([PreventDefault; ToastError "Access restricted to organization emails only"],
          Returns)
    else ([PreventDefault], Throws "ReferenceError: toast is not defined")
  else
    ([PreventDefault; SetLoading true]
       ++ [if isLogin
           then SignIn (email formData) (password formData)
           else SignUp (email formData) (password formData) (name formData)
                       (role_ formData)]
       ++ (if auth_rejects then [ConsoleError "Auth error:"] else [])
       ++ [SetLoading false],
     Returns).

Definition is_auth_request (e : effect) : bool :=
  match e with
  | SignIn _ _ | SignUp _ _ _ _ => true
  | _ => false
  end.

End AuthForm.

(** ** BookingForm.tsx *)

Module BookingForm.

(** [z.infer<typeof bookingSchema>]: the parsed form has these keys and
    no other. *)
Record BookingFormData := mk {
  client_name : string;
  email : string;
  phone_number : string;
  event_date : string;
  time_slot : string;
  facility : string;
  package : string;
  special_requests : option string
}.

(** The own properties of the parsed object. *)
Definition entries (data : BookingFormData) : Dml.payload :=
  [ ("client_name", Sql.VText (client_name data));
    ("email", Sql.VText (email data));
    ("phone_number", Sql.VText (phone_number data));
    ("event_date", Sql.VText (event_date data));
    ("time_slot", Sql.VText (time_slot data));
    ("facility", Sql.VText (facility data));
    ("package", Sql.VText (package data)) ]
  ++ match special_requests data with
     | Some s => [("special_requests", Sql.VText s)]
     | None => []
     end.

(** [{...data, status: 'inquiry', receipts_uploaded: false,
      receipts_approved: false}] *)
Definition inserted (data : BookingFormData) : Dml.payload :=
  Dml.put "receipts_approved" (Sql.VBool false)
    (Dml.put "receipts_uploaded" (Sql.VBool false)
       (Dml.put "status" (Sql.VText "inquiry") (entries data))).

Inductive effect :=
| SetIsSubmitting (b : bool)
| ToastSuccess (msg : string)
| ResetForm
| ConsoleError (msg : string)
| ToastError (msg : string).

(** [onSubmit]: the new database and what the form does. *)
Definition onSubmit (cat : Ddl.catalog) (db : database) (who : Rls.caller)
           (gen_random_uuid : uuid) (now : timestamptz) (data : BookingFormData)
  : database * list effect :=
  match Dml.insert_booking cat db who gen_random_uuid now (inserted data) with
  | Dml.Done db' =>
      (db', [SetIsSubmitting true;
             ToastSuccess "Booking inquiry submitted successfully!";
             ResetForm;
             SetIsSubmitting false])
  | Dml.Raise _ =>
      (db, [SetIsSubmitting true;
            ConsoleError "Error submitting booking:";
            ToastError "Failed to submit booking inquiry";
            SetIsSubmitting false])
  end.

End BookingForm.

(** The row that the specification expects a submission of [data] to
    create: the form's fields, status inquiry, the flags false, no owner
    and no assigned admin. *)
Definition submitted_row (gen_random_uuid : uuid) (now : timestamptz)
           (data : BookingForm.BookingFormData) : bookings.row :=
  bookings.mk gen_random_uuid None
    (BookingForm.client_name data) (BookingForm.email data)
    (BookingForm.phone_number data) (BookingForm.event_date data)
    (BookingForm.time_slot data) (BookingForm.facility data)
    (BookingForm.package data) (BookingForm.special_requests data)
    inquiry None None (Some false) (Some false) (Some now) (Some now).

(** ** types.ts *)

Module types.

Record User := mk {
  id : uuid;
  email : string;
  name : string;
  phone : option string;
  role_ : role;
  admin_color : option string;
  created_at : string
}.

(** A JavaScript number as JSON carries it: a finite value, or NaN or an
    infinity, which are serialised as null. *)
Inductive number :=
| Finite (q : Q)
| NotFinite.

Definition json_number (n : number) : Sql.value :=
  match n with
  | Finite q => Sql.VNum q
  | NotFinite => Sql.VNull
  end.

End types.

(** ** AdminDashboard.tsx *)

Module AdminDashboard.

(** The type ['confirmed' | 'cleared'] of [newStatus]. *)
Inductive newStatus := to_confirmed | to_cleared.

Definition status_of (n : newStatus) : status :=
  match n with
  | to_confirmed => confirmed
  | to_cleared => cleared
  end.

(** An update that the dashboard sends: the arguments of
    [updateBookingStatus] or of [uploadReceipts], with the time that
    [new Date()] gave. *)
Inductive update :=
| StatusUpdate (bookingId : uuid) (n : newStatus) (now : timestamptz)
| ReceiptsUpdate (bookingId : uuid) (totalSpend : types.number) (now : timestamptz).

(** The component state, with the requests that are awaited.  [pending]
    lists the calls of [fetchBookings] in flight, each with the tab its
    query was built for and, once the server has run the query, its
    response.  [updates] lists the updates in flight, each with the
    [error] of its response once the server has run it. *)
Record state := mk {
  activeTab : status;
  bookings_ : list bookings.row;
  loading : bool;
  pending : list (status * option (Dml.result (list bookings.row)));
  updates : list (update * option (option Dml.error))
}.

(** ORDER BY created_at DESC, NULLs first. *)
Definition newer_first (a b : bookings.row) : bool :=
  match bookings.created_at a, bookings.created_at b with
  | None, _ => true
  | Some _, None => false
  | Some x, Some y => (y <=? x)%Z
  end.

Fixpoint insert_by (r : bookings.row) (l : list bookings.row) : list bookings.row :=
  match l with
  | [] => [r]
  | h :: t => if newer_first r h then r :: l else h :: insert_by r t
  end.

Definition order_created_desc (l : list bookings.row) : list bookings.row :=
  fold_right insert_by [] l.

Definition session_of (user : types.User) : Rls.caller :=
  Rls.Authenticated (types.id user).

(** The query of [fetchBookings] for the tab [tab]. *)
Definition fetchBookings_query (cat : Ddl.catalog) (db : database) (user : types.User)
           (tab : status) : Dml.result (list bookings.row) :=
  Dml.bind
    (Dml.select_bookings cat db (session_of user)
       (fun b =>
          Sql.holds (Sql.eq (bookings.col b "status") (Sql.VText (status_text tab)))
          && (if role_eqb (types.role_ user) admin
              then Sql.holds (Sql.eq (bookings.col b "assigned_admin_id")
                                     (Sql.VUuid (types.id user)))
              else true)))
    (fun rows => Dml.Done (order_created_desc rows)).

(** [fetchBookings()] is called: the spinner shows and the request leaves. *)
Definition fetchBookings_start (s : state) : state :=
  mk (activeTab s) (bookings_ s) true (pending s ++ [(activeTab s, None)]) (updates s).

Fixpoint remove_nth {A} (k : nat) (l : list A) : list A :=
  match k, l with
  | _, [] => []
  | O, _ :: t => t
  | S k', h :: t => h :: remove_nth k' t
  end.

Fixpoint set_nth {A} (k : nat) (x : A) (l : list A) : list A :=
  match k, l with
  | _, [] => []
  | O, _ :: t => x :: t
  | S k', h :: t => h :: set_nth k' x t
  end.

(** The server runs the query of the k-th fetch in flight, on the
    database as it is then. *)
Definition fetchBookings_serve (cat : Ddl.catalog) (db : database) (user : types.User)
           (k : nat) (s : state) : state :=
  match nth_error (pending s) k with
  | Some (tab, None) =>
      mk (activeTab s) (bookings_ s) (loading s)
         (set_nth k (tab, Some (fetchBookings_query cat db user tab)) (pending s))
         (updates s)
  | _ => s
  end.

(** The response of the k-th fetch in flight arrives: the list is replaced
    when the query succeeded, and the spinner goes in both cases. *)
Definition fetchBookings_finish (k : nat) (s : state) : state :=
  match nth_error (pending s) k with
  | Some (_, Some (Dml.Done data)) =>
      mk (activeTab s) data false (remove_nth k (pending s)) (updates s)
  | Some (_, Some (Dml.Raise _)) =>
      mk (activeTab s) (bookings_ s) false (remove_nth k (pending s)) (updates s)
  | _ => s
  end.

(** [setActiveTab(tab)]; the effect on [activeTab, user] fetches again
    when the tab changed. *)
Definition setActiveTab (tab : status) (s : state) : state :=
  if status_eqb tab (activeTab s) then s
  else fetchBookings_start (mk tab (bookings_ s) (loading s) (pending s) (updates s)).

Definition has_id (bookingId : uuid) (b : bookings.row) : bool :=
  Sql.holds (Sql.eq (bookings.col b "id") (Sql.VUuid bookingId)).

(** The request of [updateBookingStatus]. *)
Definition updateBookingStatus (cat : Ddl.catalog) (db : database) (user : types.User)
           (bookingId : uuid) (n : newStatus) (now : timestamptz)
  : Dml.result database :=
  Dml.update_bookings cat db (session_of user) (has_id bookingId)
    [ ("status", Sql.VText (status_text (status_of n)));
      ("updated_at", Sql.VTime now) ].

(** The request of [uploadReceipts]. *)
Definition uploadReceipts (cat : Ddl.catalog) (db : database) (user : types.User)
           (bookingId : uuid) (totalSpend : types.number) (now : timestamptz)
  : Dml.result database :=
  Dml.update_bookings cat db (session_of user) (has_id bookingId)
    [ ("receipts_uploaded", Sql.VBool true);
      ("total_spend", types.json_number totalSpend);
      ("updated_at", Sql.VTime now) ].

(** After the request: on success a toast and [fetchBookings()], on error
    a toast only; the database is unchanged by a failed request. *)
Definition after_request (db : database) (r : Dml.result database) (s : state)
  : database * state :=
  match r with
  | Dml.Done db' => (db', fetchBookings_start s)
  | Dml.Raise _ => (db, s)
  end.

(** The same in the three steps that other events may come between.  The
    handler sends the update and awaits the response, with the list and
    the buttons still on the screen. *)
Definition send (u : update) (s : state) : state :=
  mk (activeTab s) (bookings_ s) (loading s) (pending s) (updates s ++ [(u, None)]).

Definition request (cat : Ddl.catalog) (db : database) (user : types.User) (u : update)
  : Dml.result database :=
  match u with
  | StatusUpdate bookingId n now => updateBookingStatus cat db user bookingId n now
  | ReceiptsUpdate bookingId totalSpend now =>
      uploadReceipts cat db user bookingId totalSpend now
  end.

(** The server runs the k-th update in flight, on the database as it is
    then. *)
Definition update_serve (cat : Ddl.catalog) (db : database) (user : types.User)
           (k : nat) (s : state) : database * state :=
  match nth_error (updates s) k with
  | Some (u, None) =>
      let answered e :=
        mk (activeTab s) (bookings_ s) (loading s) (pending s)
           (set_nth k (u, Some e) (updates s)) in
      match request cat db user u with
      | Dml.Done db' => (db', answered None)
      | Dml.Raise e => (db, answered (Some e))
      end
  | _ => (db, s)
  end.

(** Its response arrives and the handler goes on. *)
Definition update_finish (k : nat) (s : state) : state :=
  match nth_error (updates s) k with
  | Some (_, Some error) =>
      let s' := mk (activeTab s) (bookings_ s) (loading s) (pending s)
                   (remove_nth k (updates s)) in
      match error with
      | None => fetchBookings_start s'
      | Some _ => s'
      end
  | _ => s
  end.

(** The buttons rendered for a listed booking; nothing is listed while
    the spinner shows. *)
Definition shows_confirm (user : types.User) (s : state) (b : bookings.row) : bool :=
  negb (loading s)
  && status_eqb (bookings.status_ b) inquiry
  && negb (role_eqb (types.role_ user) client).

Definition shows_upload (user : types.User) (s : state) (b : bookings.row) : bool :=
  negb (loading s)
  && status_eqb (bookings.status_ b) confirmed
  && negb (role_eqb (types.role_ user) client).

Definition shows_clear (user : types.User) (s : state) (b : bookings.row) : bool :=
  shows_upload user s b && role_eqb (types.role_ user) super_admin.

Definition initial : state := mk inquiry [] true [(inquiry, None)] [].

End AdminDashboard.

(** What the specification expects of the dashboard requests. *)

(** The amount as the [decimal(10,2)] column keeps it. *)
Definition stored_spend (n : types.number) : option Q :=
  match n with
  | types.Finite q => Some (round_numeric q 2)
  | types.NotFinite => None
  end.

(** [b] with receipts_uploaded, total_spend and updated_at rewritten. *)
Definition with_receipts (b : bookings.row) (spend : option Q) (now : timestamptz)
  : bookings.row :=
  bookings.mk (bookings.id b) (bookings.client_id b) (bookings.client_name b)
    (bookings.email b) (bookings.phone_number b) (bookings.event_date b)
    (bookings.time_slot b) (bookings.facility b) (bookings.package b)
    (bookings.special_requests b) (bookings.status_ b) (bookings.assigned_admin_id b)
    spend (Some true) (bookings.receipts_approved b) (bookings.created_at b) (Some now).

(** [b] with status and updated_at rewritten. *)
Definition with_status (b : bookings.row) (s : status) (now : timestamptz) : bookings.row :=
  bookings.mk (bookings.id b) (bookings.client_id b) (bookings.client_name b)
    (bookings.email b) (bookings.phone_number b) (bookings.event_date b)
    (bookings.time_slot b) (bookings.facility b) (bookings.package b)
    (bookings.special_requests b) s (bookings.assigned_admin_id b)
    (bookings.total_spend b) (bookings.receipts_uploaded b) (bookings.receipts_approved b)
    (bookings.created_at b) (Some now).

(** [b] with assigned_admin_id and updated_at rewritten. *)
Definition with_admin (b : bookings.row) (a : uuid) (now : timestamptz) : bookings.row :=
  bookings.mk (bookings.id b) (bookings.client_id b) (bookings.client_name b)
    (bookings.email b) (bookings.phone_number b) (bookings.event_date b)
    (bookings.time_slot b) (bookings.facility b) (bookings.package b)
    (bookings.special_requests b) (bookings.status_ b) (Some a)
    (bookings.total_spend b) (bookings.receipts_uploaded b) (bookings.receipts_approved b)
    (bookings.created_at b) (Some now).


(** ** SuperAdminDashboard.tsx *)

Module SuperAdminDashboard.

Record state := mk {
  adminStats : list Stats.row;
  unassignedInquiries : list bookings.row;
  admins : list profiles.row;
  loading : bool;
  pending : nat
}.

Definition initial : state := mk [] [] [] true 1.

Definition is_null (v : Sql.value) : bool :=
  match v with
  | Sql.VNull => true
  | _ => false
  end.

(** The three reads of [fetchData]; the first error abandons the rest. *)
Definition fetchData_query (cat : Ddl.catalog) (db : database) (user : types.User)
  : Dml.result (list Stats.row * list bookings.row * list profiles.row) :=
  let who := AdminDashboard.session_of user in
  let statsData := Stats.get_admin_conversion_stats db in
  Dml.bind
    (Dml.select_bookings cat db who
       (fun b =>
          Sql.holds (Sql.eq (bookings.col b "status") (Sql.VText "inquiry"))
          && is_null (bookings.col b "assigned_admin_id")))
    (fun inquiriesData =>
       Dml.bind
         (Dml.select_profiles cat db who
            (fun p =>
               Sql.holds (Sql.in3 (profiles.col p "role")
                            [Sql.VText "admin"; Sql.VText "super_admin"])))
         (fun adminsData => Dml.Done (statsData, inquiriesData, adminsData))).

Definition fetchData_start (s : state) : state :=
  mk (adminStats s) (unassignedInquiries s) (admins s) true (S (pending s)).

Definition fetchData_finish (cat : Ddl.catalog) (db : database) (user : types.User)
           (s : state) : state :=
  match pending s with
  | O => s
  | S n =>
      match fetchData_query cat db user with
      | Dml.Done (statsData, inquiriesData, adminsData) =>
          mk statsData inquiriesData adminsData false n
      | Dml.Raise _ =>
          mk (adminStats s) (unassignedInquiries s) (admins s) false n
      end
  end.

(** The request of [assignInquiry]. *)
Definition assignInquiry (cat : Ddl.catalog) (db : database) (user : types.User)
           (inquiryId adminId : uuid) (now : timestamptz) : Dml.result database :=
  Dml.update_bookings cat db (AdminDashboard.session_of user)
    (AdminDashboard.has_id inquiryId)
    [ ("assigned_admin_id", Sql.VUuid adminId);
      ("updated_at", Sql.VTime now) ].

Definition after_request (db : database) (r : Dml.result database) (s : state)
  : database * state :=
  match r with
  | Dml.Done db' => (db', fetchData_start s)
  | Dml.Raise _ => (db, s)
  end.

(** The options of the "Assign to Admin" select. *)
Definition options (s : state) : list profiles.row :=
  filter (fun a => role_eqb (profiles.role_ a) admin) (admins s).

End SuperAdminDashboard.

(** ** The application as a transition system *)

Module App.

(** A signed-in browser session showing the dashboards. *)
Record session := mk {
  user : types.User;
  admin_ : AdminDashboard.state;
  super_ : SuperAdminDashboard.state
}.

Record world := mkworld {
  db : database;
  sessions : list session
}.

(** What can happen next: a form submission, a new identity, a click in
    session [i], the server running the k-th fetch or update that the
    admin dashboard of session [i] awaits, or the arrival of its
    response; these come in any order.  A request of the super-admin
    dashboard is taken together with its response: [FetchDataDone] reads
    and shows, [AssignInquiry] clicks and updates. *)
Inductive action :=
| Submit (who : Rls.caller) (data : BookingForm.BookingFormData)
         (gen_random_uuid : uuid) (now : timestamptz)
| Provision (NEW : Auth.users_row) (now : timestamptz)
| SetActiveTab (i : nat) (tab : status)
| FetchBookingsServed (i k : nat)
| FetchBookingsDone (i k : nat)
| ConfirmBooking (i k : nat) (now : timestamptz)
| UploadReceipts (i k : nat) (totalSpend : types.number) (now : timestamptz)
| ClearEvent (i k : nat) (now : timestamptz)
| UpdateServed (i k : nat)
| UpdateDone (i k : nat)
| FetchDataDone (i : nat)
| AssignInquiry (i k j : nat) (now : timestamptz).

Fixpoint replace {A} (i : nat) (x : A) (l : list A) : list A :=
  match i, l with
  | _, [] => []
  | O, _ :: t => x :: t
  | S i', h :: t => h :: replace i' x t
  end.

Definition on_session (i : nat) (f : session -> database * session) (w : world)
  : world :=
  match nth_error (sessions w) i with
  | None => w
  | Some s => let '(db', s') := f s in mkworld db' (replace i s' (sessions w))
  end.

Definition with_admin (s : session) (r : database * AdminDashboard.state)
  : database * session :=
  (fst r, mk (user s) (snd r) (super_ s)).

Definition with_super (s : session) (r : database * SuperAdminDashboard.state)
  : database * session :=
  (fst r, mk (user s) (admin_ s) (snd r)).

Section Step.
Variable cat : Ddl.catalog.

(** A click on a button of the k-th listed booking, when it is shown:
    the update leaves. *)
Definition click (s : session) (k : nat)
           (shown : types.User -> AdminDashboard.state -> bookings.row -> bool)
           (u : bookings.row -> AdminDashboard.update)
  : session :=
  match nth_error (AdminDashboard.bookings_ (admin_ s)) k with
  | Some b =>
      if shown (user s) (admin_ s) b
      then mk (user s) (AdminDashboard.send (u b) (admin_ s)) (super_ s)
      else s
  | None => s
  end.

Definition step (a : action) (w : world) : world :=
  match a with
  | Submit who data gen_random_uuid now =>
      mkworld (fst (BookingForm.onSubmit cat (db w) who gen_random_uuid now data))
              (sessions w)
  | Provision NEW now =>
      match Auth.handle_new_user (db w) NEW now with
      | Dml.Done db' => mkworld db' (sessions w)
      | Dml.Raise _ => w
      end
  | SetActiveTab i tab =>
      on_session i
        (fun s => (db w, mk (user s) (AdminDashboard.setActiveTab tab (admin_ s))
                             (super_ s))) w
  | FetchBookingsServed i k =>
      on_session i
        (fun s => (db w, mk (user s)
                             (AdminDashboard.fetchBookings_serve cat (db w) (user s) k
                                (admin_ s))
                             (super_ s))) w
  | FetchBookingsDone i k =>
      on_session i
        (fun s => (db w, mk (user s) (AdminDashboard.fetchBookings_finish k (admin_ s))
                             (super_ s))) w
  | ConfirmBooking i k now =>
      on_session i
        (fun s => (db w,
                   click s k AdminDashboard.shows_confirm
                     (fun b => AdminDashboard.StatusUpdate (bookings.id b)
                                 AdminDashboard.to_confirmed now))) w
  | UploadReceipts i k totalSpend now =>
      on_session i
        (fun s => (db w,
                   click s k AdminDashboard.shows_upload
                     (fun b => AdminDashboard.ReceiptsUpdate (bookings.id b)
                                 totalSpend now))) w
  | ClearEvent i k now =>
      on_session i
        (fun s => (db w,
                   click s k AdminDashboard.shows_clear
                     (fun b => AdminDashboard.StatusUpdate (bookings.id b)
                                 AdminDashboard.to_cleared now))) w
  | UpdateServed i k =>
      on_session i
        (fun s => with_admin s
                    (AdminDashboard.update_serve cat (db w) (user s) k (admin_ s))) w
  | UpdateDone i k =>
      on_session i
        (fun s => (db w, mk (user s) (AdminDashboard.update_finish k (admin_ s))
                             (super_ s))) w
  | FetchDataDone i =>
      on_session i
        (fun s => (db w, mk (user s) (admin_ s)
                             (SuperAdminDashboard.fetchData_finish cat (db w) (user s)
                                (super_ s)))) w
  | AssignInquiry i k j now =>
      on_session i
        (fun s =>
           if SuperAdminDashboard.loading (super_ s) then (db w, s)
           else
             match nth_error (SuperAdminDashboard.unassignedInquiries (super_ s)) k,
                   nth_error (SuperAdminDashboard.options (super_ s)) j with
             | Some inquiry_, Some a =>
                 with_super s
                   (SuperAdminDashboard.after_request (db w)
                      (SuperAdminDashboard.assignInquiry cat (db w) (user s)
                         (bookings.id inquiry_) (profiles.id a) now)
                      (super_ s))
             | _, _ => (db w, s)
             end) w
  end.

Fixpoint run (actions : list action) (w : world) : world :=
  match actions with
  | [] => w
  | a :: rest => run rest (step a w)
  end.

End Step.

(** The sessions as they are when the dashboards mount. *)
Definition start (d : database) (users : list types.User) : world :=
  mkworld d (map (fun u => mk u AdminDashboard.initial SuperAdminDashboard.initial) users).

(** The status of the booking at position [k] of the table. *)
Definition status_at (w : world) (k : nat) : option status :=
  option_map bookings.status_ (nth_error (db_bookings (db w)) k).

(** What a step may do to the status of a row [r], giving [r']: leave it,
    or, when the server runs an update of the status that a session has
    sent for the id of [r], set it to the status that the update carries. *)
Definition lifecycle_step (w : world) (a : action) (r r' : bookings.row) : Prop :=
  bookings.status_ r' = bookings.status_ r
  \/ exists i k s n now,
       a = UpdateServed i k
       /\ nth_error (sessions w) i = Some s
       /\ nth_error (AdminDashboard.updates (admin_ s)) k
          = Some (AdminDashboard.StatusUpdate (bookings.id r) n now, None)
       /\ bookings.status_ r' = AdminDashboard.status_of n.

(** The update [u] leaves session [s] by the click [a]: "Confirm Booking"
    or "Upload Receipts" or "Clear Event" on a booking that the list of
    [s] shows, with the status that the button requires. *)
Definition sent_by (a : action) (i : nat) (s : session) (u : AdminDashboard.update) : Prop :=
  exists j b,
    nth_error (AdminDashboard.bookings_ (admin_ s)) j = Some b
    /\ AdminDashboard.loading (admin_ s) = false
    /\ types.role_ (user s) <> client
    /\ ((exists now,
           a = ConfirmBooking i j now
           /\ bookings.status_ b = inquiry
           /\ u = AdminDashboard.StatusUpdate (bookings.id b) AdminDashboard.to_confirmed now)
        \/ (exists now,
              a = ClearEvent i j now
              /\ bookings.status_ b = confirmed
              /\ types.role_ (user s) = super_admin
              /\ u = AdminDashboard.StatusUpdate (bookings.id b) AdminDashboard.to_cleared now)
        \/ (exists totalSpend now,
              a = UploadReceipts i j totalSpend now
              /\ bookings.status_ b = confirmed
              /\ u = AdminDashboard.ReceiptsUpdate (bookings.id b) totalSpend now)).

End App.

(** ** Sample data *)

Module Examples.

Definition sam : profiles.row :=
  profiles.mk 1 "sam@yourcompany.com" "Sam" None super_admin None (Some 0%Z) (Some 0%Z).
Definition sol : profiles.row :=
  profiles.mk 2 "sol@yourcompany.com" "Sol" None super_admin None (Some 0%Z) (Some 0%Z).
Definition ann : profiles.row :=
  profiles.mk 3 "ann@example.org" "Ann" None client None (Some 0%Z) (Some 0%Z).
Definition ada : profiles.row :=
  profiles.mk 4 "ada@yourcompany.com" "Ada" None admin (Some "#10B981")
    (Some 0%Z) (Some 0%Z).

(** Two super admins, a client and an admin; no booking yet. *)
Definition office : database := mkdb [sam; sol; ann; ada] [] [].

(** A booking that names the client Ann as owner and as assigned admin. *)
Definition self_assigned : bookings.row :=
  bookings.mk 9 (Some 3%N) "Ann" "ann@example.org" "0123456789" "2025-10-01"
    "9:00 AM - 12:00 PM" "Banquet Room" "Basic Package - $500" None
    inquiry (Some 3%N) None (Some false) (Some false) (Some 10%Z) (Some 10%Z).

(** The request that creates it, sent by Ann's own session. *)
Definition self_assigned_request : Dml.payload :=
  [ ("client_id", Sql.VUuid 3); ("client_name", Sql.VText "Ann");
    ("email", Sql.VText "ann@example.org"); ("phone_number", Sql.VText "0123456789");
    ("event_date", Sql.VText "2025-10-01");
    ("time_slot", Sql.VText "9:00 AM - 12:00 PM");
    ("facility", Sql.VText "Banquet Room");
    ("package", Sql.VText "Basic Package - $500");
    ("assigned_admin_id", Sql.VUuid 3) ].

Definition as_user (p : profiles.row) : types.User :=
  types.mk (profiles.id p) (profiles.email p) (profiles.name p) (profiles.phone p)
    (profiles.role_ p) (profiles.admin_color p) "2025-01-01T00:00:00Z".

(** A booking owned by Ann and assigned to the admin Ada. *)
Definition anns_booking : bookings.row :=
  bookings.mk 8 (Some 3%N) "Ann" "ann@example.org" "0123456789" "2025-10-01"
    "9:00 AM - 12:00 PM" "Banquet Room" "Basic Package - $500" None
    confirmed (Some 4%N) None (Some false) (Some false) (Some 10%Z) (Some 20%Z).

(** Four bookings assigned to Ada: one inquiry, two confirmed, one
    cleared, each updated two hours after its creation; and one booking
    assigned to nobody. *)
Definition assigned (i : uuid) (s : status) (a : option uuid) : bookings.row :=
  bookings.mk i (Some 3%N) "Ann" "ann@example.org" "0123456789" "2025-10-01"
    "9:00 AM - 12:00 PM" "Banquet Room" "Basic Package - $500" None
    s a None (Some false) (Some false) (Some 0%Z) (Some 7200000000%Z).

Definition busy : database :=
  mkdb [sam; sol; ann; ada]
    [ assigned 11 inquiry (Some 4%N); assigned 12 confirmed (Some 4%N);
      assigned 13 cleared (Some 4%N); assigned 14 confirmed (Some 4%N);
      assigned 15 inquiry None ]
    [].

(** Three bookings assigned to Ada, updated one, two and four seconds
    after their creation. *)
Definition answered (i : uuid) (after : Z) : bookings.row :=
  bookings.mk i (Some 3%N) "Ann" "ann@example.org" "0123456789" "2025-10-01"
    "9:00 AM - 12:00 PM" "Banquet Room" "Basic Package - $500" None
    confirmed (Some 4%N) None (Some false) (Some false) (Some 0%Z) (Some after).

Definition prompt : database :=
  mkdb [sam; sol; ann; ada]
    [ answered 21 1000000; answered 22 2000000; answered 23 4000000 ]
    [].

Definition form : BookingForm.BookingFormData :=
  BookingForm.mk "Ann" "ann@example.org" "0123456789" "2025-10-01"
    "9:00 AM - 12:00 PM" "Banquet Room" "Basic Package - $500" None.

(** Two super admins both have the dashboard open.  A client submits an
    inquiry; both dashboards load it.  Sol confirms it, switches to the
    confirmed tab and clears it.  Sam's dashboard still lists it as an
    inquiry. *)
Definition two_dashboards : App.world :=
  App.start office [as_user sam; as_user sol].

(** A fetch or an update of session [i], the only one in flight, is run
    by the server and its response arrives. *)
Definition fetched (i : nat) : list App.action :=
  [App.FetchBookingsServed i 0; App.FetchBookingsDone i 0].

Definition updated (i : nat) : list App.action :=
  [App.UpdateServed i 0; App.UpdateDone i 0].

Definition sol_clears : list App.action :=
  [App.Submit (Rls.Authenticated 3) form 100 1000]
  ++ fetched 0 ++ fetched 1
  ++ [App.ConfirmBooking 1 0 2000] ++ updated 1 ++ fetched 1
  ++ [App.SetActiveTab 1 confirmed] ++ fetched 1
  ++ [App.ClearEvent 1 0 3000] ++ updated 1 ++ fetched 1.

(** Sam then clicks "Confirm Booking" on the listed inquiry, and the
    server runs the update. *)
Definition sam_confirms : list App.action :=
  [App.ConfirmBooking 0 0 4000; App.UpdateServed 0 0].

(** Sam alone: an inquiry arrives, Sam loads it, confirms it, and opens
    the confirmed tab; then clicks "Clear Event". *)
Definition one_dashboard : database * types.User := (office, as_user sam).

Definition sam_works : list App.action :=
  [App.Submit (Rls.Authenticated 3) form 100 1000]
  ++ fetched 0
  ++ [App.ConfirmBooking 0 0 2000] ++ updated 0 ++ fetched 0
  ++ [App.SetActiveTab 0 confirmed] ++ fetched 0
  ++ [App.ClearEvent 0 0 3000].

Definition sam_worked : App.world :=
  App.run Ddl.migrated sam_works
    (App.start (fst one_dashboard) [snd one_dashboard]).

(** The server runs the update of Sam's last click. *)
Definition sam_clears : App.action := App.UpdateServed 0 0.

(** Sam alone again, clicking "Confirm Booking" twice: the first update is
    answered, Sam opens the confirmed tab and clears the booking; the
    second update is still on its way. *)
Definition sam_clicks_twice : list App.action :=
  [App.Submit (Rls.Authenticated 3) form 100 1000]
  ++ fetched 0
  ++ [App.ConfirmBooking 0 0 2000; App.ConfirmBooking 0 0 2001]
  ++ updated 0 ++ fetched 0
  ++ [App.SetActiveTab 0 confirmed] ++ fetched 0
  ++ [App.ClearEvent 0 0 3000; App.UpdateServed 0 1].

(** It arrives at the server. *)
Definition late_update : App.action := App.UpdateServed 0 0.

(** Ann's booking, assigned to Ada, in the table. *)
Definition booked : database := mkdb [sam; sol; ann; ada] [anns_booking] [].

End Examples.

(** ** App.tsx *)

Module AppRoutes.

Definition getDashboardRoute (r : role) : string :=
  match r with
  | super_admin => "/super-admin"
  | admin => "/admin"
  | client => "/booking"
  end.

Inductive view := BookingFormView | AdminDashboardView | SuperAdminDashboardView.

(** The guarded routes: path, [allowedRoles] and the element shown. *)
Definition routes : list (string * list role * view) :=
  [ ("/booking", [client], BookingFormView);
    ("/admin", [admin], AdminDashboardView);
    ("/super-admin", [super_admin], SuperAdminDashboardView) ].

End AppRoutes.

(** The fields of a booking that no request of the application writes. *)
Definition never_rewritten (b b' : bookings.row) : Prop :=
  bookings.id b' = bookings.id b
  /\ bookings.client_id b' = bookings.client_id b
  /\ bookings.client_name b' = bookings.client_name b
  /\ bookings.email b' = bookings.email b
  /\ bookings.phone_number b' = bookings.phone_number b
  /\ bookings.event_date b' = bookings.event_date b
  /\ bookings.time_slot b' = bookings.time_slot b
  /\ bookings.facility b' = bookings.facility b
  /\ bookings.package b' = bookings.package b
  /\ bookings.special_requests b' = bookings.special_requests b
  /\ bookings.receipts_approved b' = bookings.receipts_approved b
  /\ bookings.created_at b' = bookings.created_at b.

(** [created_at] of [a] is not older than that of [b], NULL counting as
    newest: the order of [ORDER BY created_at DESC]. *)
Definition not_older (a b : bookings.row) : Prop :=
  AdminDashboard.newer_first a b = true.

(** ** The dashboard requests after the migration *)

(** The caller may read, and may update, a booking after the migration. *)
Definition may_read (db : database) (uid : uuid) (r : bookings.row) : bool :=
  owns uid r || caller_role_in db uid ["admin"; "super_admin"].

Definition may_write (db : database) (uid : uuid) (r : bookings.row) : bool :=
  is_assigned uid r || caller_role_in db uid ["super_admin"].

(** What the action [a] may do to a row [r] of bookings, giving [r']:
    leave it, or rewrite the columns that the request of [a] sets. *)
Definition rewritten_by (a : App.action) (r r' : bookings.row) : Prop :=
  r' = r
  \/ match a with
     | App.UpdateServed _ _ =>
         (exists n now, r' = with_status r (AdminDashboard.status_of n) now)
         \/ (exists totalSpend now, r' = with_receipts r (stored_spend totalSpend) now)
     | App.AssignInquiry _ _ _ now => exists adminId, r' = with_admin r adminId now
     | _ => False
     end.

(** The bookings with the account each is assigned to. *)
Definition assignments (rows : list bookings.row) : list (uuid * option uuid) :=
  map (fun r => (bookings.id r, bookings.assigned_admin_id r)) rows.

(** The lists of a super-admin dashboard against the database [d]: the
    admins are profiles of the session's own user, and the unassigned
    inquiries are assigned to nobody in [d]. *)
Definition lists_own_profile (d : database) (s : App.session) : Prop :=
  forall a, In a (SuperAdminDashboard.admins (App.super_ s)) ->
    In a (db_profiles d) /\ profiles.id a = types.id (App.user s).

Definition lists_unassigned (d : database) (s : App.session) : Prop :=
  forall v o, In v (SuperAdminDashboard.unassignedInquiries (App.super_ s)) ->
    In (bookings.id v, o) (assignments (db_bookings d)) -> o = None.

Definition settled (w : App.world) : Prop :=
  NoDup (map profiles.id (db_profiles (App.db w)))
  /\ NoDup (map bookings.id (db_bookings (App.db w)))
  /\ forall s, In s (App.sessions w) ->
       lists_own_profile (App.db w) s /\ lists_unassigned (App.db w) s.

(** * Properties *)

(** ** Row-level security after the migration *)

Section RlsFacts.
Import Ddl Rls.

Lemma any_of_pointwise {A} (f : A -> outcome bool) (g : A -> bool) (l : list A) :
  (forall x, In x l -> f x = Val (g x)) -> any_of f l = Val (existsb g l).
Proof.
  induction l as [|x l IH]; intros H; simpl.
  - reflexivity.
  - rewrite (H x) by (left; reflexivity). simpl.
    rewrite IH by (intros y Hy; apply H; right; exact Hy). reflexivity.
Qed.

Lemma any_of_map {A B} (h : A -> B) (f : B -> outcome bool) (l : list A) :
  any_of f (map h l) = any_of (fun x => f (h x)) l.
Proof. induction l as [|x l IH]; simpl; [reflexivity | rewrite IH; reflexivity]. Qed.

Lemma in3_texts (s : string) (l : list string) :
  Sql.in3 (Sql.VText s) (map Sql.VText l) = Some (existsb (String.eqb s) l).
Proof.
  unfold Sql.in3. induction l as [|x l IH]; cbn [map fold_right]; [reflexivity|].
  rewrite IH. cbn. destruct (s =? x), (existsb (String.eqb s) l); reflexivity.
Qed.

Lemma migrated_ok : run quiet_union after_schema = Ok migrated.
Proof. vm_compute. reflexivity. Qed.

Lemma after_schema_ok : run schema platform = Ok after_schema.
Proof. vm_compute. reflexivity. Qed.

Lemma rls_on_migrated tbl :
  In tbl ["profiles"; "bookings"; "notifications"] -> rls_on migrated tbl = true.
Proof. simpl. intros [<-|[<-|[<-|[]]]]; vm_compute; reflexivity. Qed.

Lemma profiles_select_policies :
  policies_for migrated "profiles" CmdSelect =
  [mkpolicy "Users can read their own profile" "profiles" CmdSelect
     (Some (EEq AuthUid (Col "id"))) None].
Proof. vm_compute. reflexivity. Qed.

Lemma profiles_update_policies :
  policies_for migrated "profiles" CmdUpdate =
  [mkpolicy "Users can update their own profile" "profiles" CmdUpdate
     (Some (EEq AuthUid (Col "id"))) None].
Proof. vm_compute. reflexivity. Qed.

Lemma bookings_select_policies :
  policies_for migrated "bookings" CmdSelect =
  [mkpolicy "Clients can read their own bookings" "bookings" CmdSelect
     (Some (EOr (EEq (Col "client_id") AuthUid)
                (EExists "profiles"
                   (EAnd (EEq (Col "id") AuthUid)
                         (EIn (Col "role") (map TextLit ["admin"; "super_admin"]))))))
     None].
Proof. vm_compute. reflexivity. Qed.

Lemma bookings_update_policies :
  policies_for migrated "bookings" CmdUpdate =
  [mkpolicy "Admins can update assigned bookings" "bookings" CmdUpdate
     (Some (EOr (EEq (Col "assigned_admin_id") AuthUid)
                (EExists "profiles"
                   (EAnd (EEq (Col "id") AuthUid)
                         (EEq (Col "role") (TextLit "super_admin"))))))
     None].
Proof. vm_compute. reflexivity. Qed.

Lemma bookings_insert_policies :
  policies_for migrated "bookings" CmdInsert =
  [mkpolicy "Anyone can create bookings" "bookings" CmdInsert None (Some ETrue)].
Proof. vm_compute. reflexivity. Qed.

Variable db : database.
Variable uid : uuid.
Local Abbreviation who := (Authenticated uid).

Lemma profile_visible fuel (p : profiles.row) :
  visible_at migrated db who (S fuel) "profiles" (profiles.col p)
  = Val (N.eqb uid (profiles.id p)).
Proof.
  cbn [visible_at]. rewrite rls_on_migrated by (simpl; auto).
  rewrite profiles_select_policies.
  cbn. destruct (N.eqb uid (profiles.id p)); reflexivity.
Qed.

Lemma where_role_eq vis p r :
  eval_with db who vis (profiles.col p)
    (EAnd (EEq (Col "id") AuthUid) (EEq (Col "role") (TextLit r)))
  = Val (Sql.and3 (Some (N.eqb (profiles.id p) uid))
                  (Some (existsb (String.eqb (role_text (profiles.role_ p))) [r]))).
Proof.
  cbn [existsb]. rewrite orb_false_r. reflexivity.
Qed.

Lemma where_role_in vis p rs :
  eval_with db who vis (profiles.col p)
    (EAnd (EEq (Col "id") AuthUid) (EIn (Col "role") (map TextLit rs)))
  = Val (Sql.and3 (Some (N.eqb (profiles.id p) uid))
                  (Some (existsb (String.eqb (role_text (profiles.role_ p))) rs))).
Proof.
  cbn [eval_with bind scalar_value auth_uid].
  change (profiles.col p "id") with (Sql.VUuid (profiles.id p)).
  change (profiles.col p "role") with (Sql.VText (role_text (profiles.role_ p))).
  rewrite map_map.
  change (map (fun x => scalar_value (Authenticated uid) (profiles.col p) (TextLit x)) rs)
    with (map Sql.VText rs).
  rewrite in3_texts. reflexivity.
Qed.

(** The subquery of the bookings policies: one pass over the caller's own
    profiles row, which is the only row the profiles policy shows. *)
Lemma exists_own_profile fuel row (rs : list string) w :
  (forall p, eval_with db who (visible_at migrated db who (S fuel)) (profiles.col p) w
             = Val (Sql.and3 (Some (N.eqb (profiles.id p) uid))
                      (Some (existsb (String.eqb (role_text (profiles.role_ p))) rs)))) ->
  eval_with db who (visible_at migrated db who (S fuel)) row (EExists "profiles" w)
  = Val (Some (caller_role_in db uid rs)).
Proof.
  intros Hw. cbn [eval_with].
  change (rows_of db "profiles") with (map profiles.col (db_profiles db)).
  rewrite any_of_map.
  rewrite any_of_pointwise with (g := own_role_in uid rs); [reflexivity|].
  intros p _. rewrite profile_visible, Hw. cbn.
  unfold own_role_in. rewrite (N.eqb_sym uid).
  destruct (N.eqb (profiles.id p) uid), (existsb _ rs); reflexivity.
Qed.

Lemma eval_or vis row a b :
  eval_with db who vis row (EOr a b)
  = bind (eval_with db who vis row a) (fun x =>
    bind (eval_with db who vis row b) (fun y => Val (Sql.or3 x y))).
Proof. reflexivity. Qed.

(** The select rule on bookings as a boolean. *)
Lemma bookings_select_value (b : bookings.row) :
  permits migrated db who "bookings" CmdSelect (bookings.col b)
  = Val (owns uid b || caller_role_in db uid ["admin"; "super_admin"]).
Proof.
  unfold permits. rewrite rls_on_migrated by (simpl; auto).
  rewrite bookings_select_policies.
  cbn [any_of using_holds pol_using]. change (depth migrated) with 5%nat.
  rewrite eval_or.
  rewrite (exists_own_profile 4 (bookings.col b) ["admin"; "super_admin"])
    by (intros p; apply where_role_in).
  cbn [eval_with bind scalar_value auth_uid].
  change (bookings.col b "client_id")
    with (Sql.of_option Sql.VUuid (bookings.client_id b)).
  unfold owns. destruct (bookings.client_id b) as [c|]; cbn;
    [destruct (N.eqb c uid)|]; destruct (caller_role_in _ _ _); reflexivity.
Qed.

(** The update rule on bookings as a boolean. *)
Lemma bookings_update_value (b : bookings.row) :
  permits migrated db who "bookings" CmdUpdate (bookings.col b)
  = Val (is_assigned uid b || caller_role_in db uid ["super_admin"]).
Proof.
  unfold permits. rewrite rls_on_migrated by (simpl; auto).
  rewrite bookings_update_policies.
  cbn [any_of using_holds pol_using]. change (depth migrated) with 5%nat.
  rewrite eval_or.
  rewrite (exists_own_profile 4 (bookings.col b) ["super_admin"])
    by (intros p; apply where_role_eq).
  cbn [eval_with bind scalar_value auth_uid].
  change (bookings.col b "assigned_admin_id")
    with (Sql.of_option Sql.VUuid (bookings.assigned_admin_id b)).
  unfold is_assigned. destruct (bookings.assigned_admin_id b) as [c|]; cbn;
    [destruct (N.eqb c uid)|]; destruct (caller_role_in _ _ _); reflexivity.
Qed.

(** The same on the values of a new row, whatever they are. *)
Lemma bookings_update_check (row : string -> Sql.value) :
  accepts migrated db who "bookings" CmdUpdate row
  = Val (Sql.holds (Sql.eq (row "assigned_admin_id") (Sql.VUuid uid))
         || caller_role_in db uid ["super_admin"]).
Proof.
  unfold accepts. rewrite rls_on_migrated by (simpl; auto).
  rewrite bookings_update_policies.
  cbn [any_of check_holds pol_check using_holds pol_using].
  change (depth migrated) with 5%nat.
  rewrite eval_or.
  rewrite (exists_own_profile 4 row ["super_admin"])
    by (intros p; apply where_role_eq).
  cbn [eval_with bind scalar_value auth_uid].
  destruct (Sql.eq (row "assigned_admin_id") (Sql.VUuid uid)) as [[|]|];
    destruct (caller_role_in _ _ _); reflexivity.
Qed.

Lemma bookings_insert_accepts (row : string -> Sql.value) :
  accepts migrated db who "bookings" CmdInsert row = Val true.
Proof.
  unfold accepts. rewrite rls_on_migrated by (simpl; auto).
  rewrite bookings_insert_policies. reflexivity.
Qed.

Lemma profiles_select_value (p : profiles.row) :
  permits migrated db who "profiles" CmdSelect (profiles.col p)
  = Val (N.eqb uid (profiles.id p)).
Proof.
  unfold permits. rewrite rls_on_migrated by (simpl; auto).
  rewrite profiles_select_policies. cbn.
  destruct (N.eqb uid (profiles.id p)); reflexivity.
Qed.

Lemma profiles_update_value (p : profiles.row) :
  permits migrated db who "profiles" CmdUpdate (profiles.col p)
  = Val (N.eqb uid (profiles.id p)).
Proof.
  unfold permits. rewrite rls_on_migrated by (simpl; auto).
  rewrite profiles_update_policies. cbn.
  destruct (N.eqb uid (profiles.id p)); reflexivity.
Qed.

Lemma owns_iff b : owns uid b = true <-> bookings.client_id b = Some uid.
Proof.
  unfold owns. destruct (bookings.client_id b) as [c|]; simpl.
  - rewrite N.eqb_eq. split; congruence.
  - split; discriminate.
Qed.

Lemma is_assigned_iff b : is_assigned uid b = true <-> bookings.assigned_admin_id b = Some uid.
Proof.
  unfold is_assigned. destruct (bookings.assigned_admin_id b) as [c|]; simpl.
  - rewrite N.eqb_eq. split; congruence.
  - split; discriminate.
Qed.

Lemma role_text_inj r r' : role_text r = role_text r' -> r = r'.
Proof. destruct r, r'; simpl; intros H; try reflexivity; discriminate H. Qed.

Lemma caller_role_in_iff (rs : list role) :
  caller_role_in db uid (map role_text rs) = true <->
  exists p, In p (db_profiles db) /\ profiles.id p = uid /\ In (profiles.role_ p) rs.
Proof.
  unfold caller_role_in. rewrite existsb_exists. split.
  - intros (p & Hin & Hp). exists p. unfold own_role_in in Hp.
    apply andb_true_iff in Hp as [Hid Hr]. apply N.eqb_eq in Hid.
    apply existsb_exists in Hr as (t & Ht & He). apply String.eqb_eq in He.
    apply in_map_iff in Ht as (r & <- & Hr). apply role_text_inj in He. subst r.
    auto.
  - intros (p & Hin & Hid & Hr). exists p. split; [exact Hin|].
    unfold own_role_in. apply andb_true_iff. split; [apply N.eqb_eq; exact Hid|].
    apply existsb_exists. exists (role_text (profiles.role_ p)).
    split; [apply in_map; exact Hr | apply String.eqb_refl].
Qed.

End RlsFacts.

(** C1: after the migration, the select rule on bookings lets an
    authenticated caller read a row exactly when the row's client_id is the
    caller's id or the caller's own profiles row has role admin or
    super_admin.  The lookup of that row never fails with a recursion
    error.  Hence a caller whose profile has role client reads exactly the
    rows it owns, and an admin or super_admin reads every row. *)
Theorem bookings_select_rule (db : database) (uid : uuid) (b : bookings.row) :
  let permitted :=
    Rls.permits Ddl.migrated db (Rls.Authenticated uid) "bookings" Ddl.CmdSelect
      (bookings.col b) in
  let privileged :=
    exists p, In p (db_profiles db) /\ profiles.id p = uid
              /\ In (profiles.role_ p) [admin; super_admin] in
  (exists v, permitted = Rls.Val v)
  /\ (permitted = Rls.Val true <-> bookings.client_id b = Some uid \/ privileged)
  /\ ((forall p, In p (db_profiles db) -> profiles.id p = uid -> profiles.role_ p = client)
      -> (permitted = Rls.Val true <-> bookings.client_id b = Some uid))
  /\ (privileged -> permitted = Rls.Val true).
Proof.
  cbv zeta. rewrite bookings_select_value.
  assert (Hval : forall x, Rls.Val x = Rls.Val true <-> x = true)
    by (intros x; split; [intros H; injection H; auto | intros ->; reflexivity]).
  rewrite Hval, orb_true_iff, owns_iff.
  change ["admin"; "super_admin"] with (map role_text [admin; super_admin]).
  rewrite caller_role_in_iff.
  split; [eexists; reflexivity|].
  split; [reflexivity|].
  split.
  - intros Hclient. split; [|auto].
    intros [H|(p & Hin & Hid & Hr)]; [exact H|].
    rewrite (Hclient p Hin Hid) in Hr. simpl in Hr.
    destruct Hr as [Hr|[Hr|[]]]; discriminate Hr.
  - intros H. right. exact H.
Qed.

Lemma bookings_select_rule_witness :
  Rls.permits Ddl.migrated
    (mkdb (db_profiles Examples.office) [Examples.anns_booking] [])
    (Rls.Authenticated 3) "bookings" Ddl.CmdSelect (bookings.col Examples.anns_booking)
  = Rls.Val true
  <-> bookings.client_id Examples.anns_booking = Some 3%N.
Proof.
  apply (proj1 (proj2 (proj2
           (bookings_select_rule
              (mkdb (db_profiles Examples.office) [Examples.anns_booking] [])
              3%N Examples.anns_booking)))).
  simpl. intros p [<-|[<-|[<-|[<-|[]]]]]; simpl; intros H;
    solve [reflexivity | discriminate H].
Defined.

(** C2, as the code has it: the update rule on bookings lets an
    authenticated caller write a row exactly when the caller's id is the
    row's assigned_admin_id or the caller's own profiles row has role
    super_admin.  An admin who is not the assigned admin cannot update; a
    super_admin can, whatever the assignment; a caller with role client can
    update exactly the rows whose assigned_admin_id is its own id. *)
Theorem bookings_update_rule (db : database) (uid : uuid) (b : bookings.row) :
  let permitted :=
    Rls.permits Ddl.migrated db (Rls.Authenticated uid) "bookings" Ddl.CmdUpdate
      (bookings.col b) in
  let is_super :=
    exists p, In p (db_profiles db) /\ profiles.id p = uid
              /\ profiles.role_ p = super_admin in
  (exists v, permitted = Rls.Val v)
  /\ (permitted = Rls.Val true <-> bookings.assigned_admin_id b = Some uid \/ is_super)
  /\ ((forall p, In p (db_profiles db) -> profiles.id p = uid -> profiles.role_ p = admin)
      -> bookings.assigned_admin_id b <> Some uid -> permitted = Rls.Val false)
  /\ (is_super -> permitted = Rls.Val true)
  /\ ((forall p, In p (db_profiles db) -> profiles.id p = uid -> profiles.role_ p = client)
      -> (permitted = Rls.Val true <-> bookings.assigned_admin_id b = Some uid)).
Proof.
  cbv zeta. rewrite bookings_update_value.
  assert (Hval : forall x, Rls.Val x = Rls.Val true <-> x = true)
    by (intros x; split; [intros H; injection H; auto | intros ->; reflexivity]).
  assert (Hsuper : caller_role_in db uid ["super_admin"] = true <->
                   exists p, In p (db_profiles db) /\ profiles.id p = uid
                             /\ profiles.role_ p = super_admin).
  { change ["super_admin"] with (map role_text [super_admin]).
    rewrite caller_role_in_iff. split.
    - intros (p & Hin & Hid & [Hr|[]]). exists p. auto.
    - intros (p & Hin & Hid & Hr). exists p. simpl. auto. }
  rewrite Hval, orb_true_iff, is_assigned_iff, Hsuper.
  split; [eexists; reflexivity|].
  split; [reflexivity|].
  split; [|split].
  - intros Hadmin Hnot.
    destruct (is_assigned uid b) eqn:Ea.
    + apply is_assigned_iff in Ea. contradiction.
    + destruct (caller_role_in db uid ["super_admin"]); [|reflexivity].
      destruct (proj1 Hsuper eq_refl) as (p & Hin & Hid & Hr).
      rewrite (Hadmin p Hin Hid) in Hr. discriminate Hr.
  - intros H. right. exact H.
  - intros Hclient. split; [|auto].
    intros [H|(p & Hin & Hid & Hr)]; [exact H|].
    rewrite (Hclient p Hin Hid) in Hr. discriminate Hr.
Qed.

Lemma bookings_update_rule_witness :
  Rls.permits Ddl.migrated
    (mkdb (db_profiles Examples.office) [Examples.anns_booking] [])
    (Rls.Authenticated 4) "bookings" Ddl.CmdUpdate (bookings.col Examples.self_assigned)
  = Rls.Val false.
Proof.
  apply (proj1 (proj2 (proj2
           (bookings_update_rule
              (mkdb (db_profiles Examples.office) [Examples.anns_booking] [])
              4%N Examples.self_assigned)))).
  - simpl. intros p [<-|[<-|[<-|[<-|[]]]]]; simpl; intros H;
      solve [reflexivity | discriminate H].
  - simpl. intros H. discriminate H.
Defined.

(** C2 as stated fails: a caller whose profile has role client is let to
    update a booking that names it as assigned admin.  Ann, a client,
    creates such a booking through the insert rule and then clears it. *)
Lemma client_updates_a_booking :
  let ann := Examples.as_user Examples.ann in
  (forall p, In p (db_profiles Examples.office) ->
             profiles.id p = types.id ann -> profiles.role_ p = client)
  /\ Dml.insert_booking Ddl.migrated Examples.office (AdminDashboard.session_of ann)
       9 10 Examples.self_assigned_request
     = Dml.Done (Dml.set_bookings Examples.office [Examples.self_assigned])
  /\ Rls.permits Ddl.migrated (Dml.set_bookings Examples.office [Examples.self_assigned])
       (AdminDashboard.session_of ann) "bookings" Ddl.CmdUpdate
       (bookings.col Examples.self_assigned)
     = Rls.Val true
  /\ option_map (fun d => map bookings.status_ (db_bookings d))
       (match AdminDashboard.updateBookingStatus Ddl.migrated
                (Dml.set_bookings Examples.office [Examples.self_assigned])
                ann 9 AdminDashboard.to_cleared 20 with
        | Dml.Done d => Some d
        | Dml.Raise _ => None
        end)
     = Some [cleared].
Proof.
  cbv zeta. split; [|split; [|split]].
  - simpl. intros p [<-|[<-|[<-|[<-|[]]]]]; simpl; intros H;
      solve [reflexivity | discriminate H].
  - vm_compute. reflexivity.
  - vm_compute. reflexivity.
  - vm_compute. reflexivity.
Qed.

(** C5: the schema script and then the migration run without error, and
    in the resulting catalog an authenticated caller may select, and may
    update, a profiles row exactly when the row's id is the caller's id.
    The only select policy left on profiles is the own-row one, so a
    super_admin is not let to read another account's row. *)
Theorem profiles_rules (db : database) (uid : uuid) (p : profiles.row) :
  let may cmd :=
    Rls.permits Ddl.migrated db (Rls.Authenticated uid) "profiles" cmd (profiles.col p) in
  Ddl.run Ddl.schema Ddl.platform = Ddl.Ok Ddl.after_schema
  /\ Ddl.run Ddl.quiet_union Ddl.after_schema = Ddl.Ok Ddl.migrated
  /\ (may Ddl.CmdSelect = Rls.Val true <-> profiles.id p = uid)
  /\ (may Ddl.CmdUpdate = Rls.Val true <-> profiles.id p = uid)
  /\ (exists v, may Ddl.CmdSelect = Rls.Val v) /\ (exists v, may Ddl.CmdUpdate = Rls.Val v)
  /\ map Ddl.pol_name (Rls.policies_for Ddl.migrated "profiles" Ddl.CmdSelect)
     = ["Users can read their own profile"]
  /\ ((exists q, In q (db_profiles db) /\ profiles.id q = uid
                 /\ profiles.role_ q = super_admin)
      -> profiles.id p <> uid -> may Ddl.CmdSelect = Rls.Val false).
Proof.
  cbv beta zeta. rewrite profiles_select_value, profiles_update_value.
  assert (Hval : Rls.Val (N.eqb uid (profiles.id p)) = Rls.Val true <-> profiles.id p = uid).
  { split.
    - intros H. injection H as H. apply N.eqb_eq in H. auto.
    - intros ->. rewrite N.eqb_refl. reflexivity. }
  split; [apply after_schema_ok|].
  split; [apply migrated_ok|].
  split; [exact Hval|]. split; [exact Hval|].
  split; [eexists; reflexivity|]. split; [eexists; reflexivity|].
  split; [rewrite profiles_select_policies; reflexivity|].
  intros _ Hne. destruct (N.eqb uid (profiles.id p)) eqn:E; [|reflexivity].
  apply N.eqb_eq in E. congruence.
Qed.

Lemma profiles_rules_witness :
  Rls.permits Ddl.migrated Examples.office (Rls.Authenticated 1) "profiles"
    Ddl.CmdSelect (profiles.col Examples.ann)
  = Rls.Val false.
Proof.
  apply (proj2 (proj2 (proj2 (proj2 (proj2 (proj2 (proj2
           (profiles_rules Examples.office 1%N Examples.ann)))))))).
  - exists Examples.sam. simpl. auto.
  - simpl. intros H. discriminate H.
Defined.

(** Before the migration the third profiles policy reads profiles from
    inside a policy on profiles: with a row to look at, neither the
    profiles rules nor the bookings rules, which read profiles, can be
    evaluated. *)
Lemma schema_alone_recurses :
  Rls.permits Ddl.after_schema Examples.office (Rls.Authenticated 1) "profiles"
    Ddl.CmdSelect (profiles.col Examples.sam)
  = Rls.InfiniteRecursion "profiles"
  /\ Rls.permits Ddl.after_schema Examples.booked (Rls.Authenticated 1) "bookings"
       Ddl.CmdSelect (bookings.col Examples.anns_booking)
     = Rls.InfiniteRecursion "profiles".
Proof. vm_compute. split; reflexivity. Qed.

(** ** Arithmetic on numeric *)

Section NumericFacts.
Import Numeric.
Local Open Scope Z_scope.

(** [nearest num den] is within a half of [num / den]. *)
Lemma nearest_close (num den : Z) :
  0 < den -> 2 * Z.abs (nearest num den * den - num) <= den.
Proof.
  intros Hd. unfold nearest.
  rewrite (Z.sgn_pos den Hd), (Z.abs_eq den) by lia. rewrite Z.mul_1_r.
  pose proof (Z.div_mod (2 * Z.abs num + den) (2 * den) ltac:(lia)) as Hdm.
  pose proof (Z.mod_pos_bound (2 * Z.abs num + den) (2 * den) ltac:(lia)) as Hm.
  set (k := (2 * Z.abs num + den) / (2 * den)) in *.
  clearbody k.
  destruct (Z.sgn_spec num) as [[Hn ->]|[[Hn ->]|[Hn ->]]].
  - rewrite (Z.abs_eq num) in Hdm, Hm by lia.
    replace (1 * k * den - num) with (k * den - num) by ring. nia.
  - subst num. cbn [Z.abs] in *. replace (0 * k * den - 0) with 0 by ring. cbn. lia.
  - rewrite (Z.abs_neq num) in Hdm, Hm by lia.
    replace (-1 * k * den - num) with (- (k * den) - num) by ring. nia.
Qed.

Lemma nearest_nonneg (num den : Z) :
  0 <= num -> 0 < den -> nearest num den = (2 * num + den) / (2 * den).
Proof.
  intros Hn Hd. unfold nearest.
  rewrite (Z.sgn_pos den Hd), (Z.abs_eq den), (Z.abs_eq num) by lia.
  destruct (Z.eq_dec num 0) as [->|Hne].
  - replace (2 * 0 + den) with den by ring. rewrite Z.div_small by lia. reflexivity.
  - rewrite Z.sgn_pos by lia. lia.
Qed.

Lemma pow10_pos (n : nat) : 0 < 10 ^ Z.of_nat n.
Proof. apply Z.pow_pos_nonneg; lia. Qed.

Local Close Scope Z_scope.

(** Quotients of integers as rationals. *)
Lemma Qdiv_Z_le (a b c d : Z) :
  (0 < b)%Z -> (0 < d)%Z -> (a * d <= c * b)%Z ->
  (inject_Z a / inject_Z b <= inject_Z c / inject_Z d)%Q.
Proof.
  intros Hb Hd H.
  apply Qle_shift_div_l; [change 0%Q with (inject_Z 0); rewrite <- Zlt_Qlt; exact Hd|].
  unfold Qdiv. rewrite <- Qmult_assoc, (Qmult_comm (/ inject_Z b)), Qmult_assoc.
  apply Qle_shift_div_r; [change 0%Q with (inject_Z 0); rewrite <- Zlt_Qlt; exact Hb|].
  rewrite <- !inject_Z_mult, <- Zle_Qle. exact H.
Qed.

Lemma value_of_Z z : (value (of_Z z) == inject_Z z)%Q.
Proof. unfold value, of_Z. cbn. field. Qed.

Local Open Scope Z_scope.

(** With fuel for the binary length of [n], [leading] gives the first
    base-10000 digit of [n] and the number of digits after it. *)
Lemma leading_spec (fuel : nat) : forall n,
  0 < n < 2 ^ (Z.of_nat fuel + 1) ->
  0 <= fst (leading fuel n)
  /\ 1 <= snd (leading fuel n) < 10000
  /\ snd (leading fuel n) * 10000 ^ fst (leading fuel n) <= n
     < (snd (leading fuel n) + 1) * 10000 ^ fst (leading fuel n).
Proof.
  induction fuel as [|fuel IH]; intros n Hn.
  - cbn in Hn. cbn [leading fst snd]. change (10000 ^ 0) with 1. lia.
  - cbn [leading]. destruct (n <? 10000) eqn:E.
    + apply Z.ltb_lt in E. cbn [fst snd]. change (10000 ^ 0) with 1. lia.
    + apply Z.ltb_ge in E.
      assert (Hq : 0 < n / 10000 < 2 ^ (Z.of_nat fuel + 1)).
      { split; [apply Z.div_str_pos; lia|].
        apply Z.div_lt_upper_bound; [lia|].
        replace (Z.of_nat (S fuel) + 1) with (Z.succ (Z.of_nat fuel + 1)) in Hn by lia.
        rewrite Z.pow_succ_r in Hn by lia.
        assert (0 < 2 ^ (Z.of_nat fuel + 1)) by (apply Z.pow_pos_nonneg; lia). lia. }
      specialize (IH _ Hq).
      destruct (leading fuel (n / 10000)) as [w d]. cbn [fst snd] in *.
      destruct IH as (Hw & Hd & Hlo & Hhi).
      split; [lia|]. split; [exact Hd|].
      replace (w + 1) with (Z.succ w) by lia. rewrite Z.pow_succ_r by exact Hw.
      pose proof (Z.mul_div_le n 10000 ltac:(lia)) as Hle.
      pose proof (Z.mul_succ_div_gt n 10000 ltac:(lia)) as Hgt.
      set (P := 10000 ^ w) in *. clearbody P. lia.
Qed.

Lemma log2_fuel (n : Z) : 0 < n -> 0 < n < 2 ^ (Z.of_nat (Z.to_nat (Z.log2 n)) + 1).
Proof.
  intros Hn. split; [exact Hn|].
  rewrite Z2Nat.id by apply Z.log2_nonneg.
  replace (Z.log2 n + 1) with (Z.succ (Z.log2 n)) by lia.
  apply Z.log2_spec. exact Hn.
Qed.

Lemma weight_digit_of_Z (z : Z) :
  0 < z -> weight_digit (of_Z z) = leading (Z.to_nat (Z.log2 z)) z.
Proof.
  intros Hz. unfold weight_digit, of_Z. cbn [dscale unscaled].
  change (Z.of_nat ((0 + 3) / 4)) with 0. change (4 * 0 - Z.of_nat 0) with 0.
  change (10 ^ 0) with 1. rewrite Z.mul_1_r, Z.abs_eq by lia.
  replace (z =? 0) with false by (symmetry; apply Z.eqb_neq; lia).
  destruct (leading (Z.to_nat (Z.log2 z)) z) as [w d]. f_equal. lia.
Qed.

(** The leading digit and its weight grow with the number. *)
Lemma leading_mono (a b : Z) :
  0 < a <= b ->
  let la := leading (Z.to_nat (Z.log2 a)) a in
  let lb := leading (Z.to_nat (Z.log2 b)) b in
  fst la < fst lb \/ (fst la = fst lb /\ snd la <= snd lb).
Proof.
  intros Hab. cbv zeta.
  pose proof (leading_spec _ a (log2_fuel a ltac:(lia))) as (Hwa & Hda & Hlo & _).
  pose proof (leading_spec _ b (log2_fuel b ltac:(lia))) as (Hwb & Hdb & _ & Hhi).
  destruct (leading (Z.to_nat (Z.log2 a)) a) as [wa da].
  destruct (leading (Z.to_nat (Z.log2 b)) b) as [wb db]. cbn [fst snd] in *.
  destruct (Z.lt_trichotomy wa wb) as [Hlt|[Heq|Hgt]]; [left; exact Hlt| |].
  - right. split; [exact Heq|]. subst wb.
    assert (HP : 0 < 10000 ^ wa) by (apply Z.pow_pos_nonneg; lia).
    set (P := 10000 ^ wa) in *. clearbody P. nia.
  - exfalso.
    replace wa with (Z.succ wb + (wa - wb - 1)) in Hlo by lia.
    rewrite Z.pow_add_r, Z.pow_succ_r in Hlo by lia.
    assert (HP : 0 < 10000 ^ wb) by (apply Z.pow_pos_nonneg; lia).
    assert (HQ : 0 < 10000 ^ (wa - wb - 1)) by (apply Z.pow_pos_nonneg; lia).
    set (P := 10000 ^ wb) in *. set (Q := 10000 ^ (wa - wb - 1)) in *.
    clearbody P Q.
    assert (H1 : P <= P * Q) by nia.
    assert (H2 : 10000 * P * Q <= da * (10000 * P * Q)) by nia.
    assert (H3 : (db + 1) * P <= 10000 * P) by nia.
    lia.
Qed.

(** The quotient of two counts, the first at most the second, is computed
    to 20 decimals or more. *)
Lemma select_div_scale_counts (w t : Z) :
  0 <= w <= t -> 0 < t ->
  (20 <= select_div_scale (of_Z w) (of_Z t) <= 1000)%nat.
Proof.
  intros Hw Ht. unfold select_div_scale.
  rewrite (weight_digit_of_Z t Ht).
  pose proof (leading_spec _ t (log2_fuel t Ht)) as (Hwt & Hdt & _).
  destruct (Z.eq_dec w 0) as [->|Hne].
  - change (weight_digit (of_Z 0)) with (0, 0).
    destruct (leading (Z.to_nat (Z.log2 t)) t) as [w2 d2]. cbn [fst snd dscale of_Z] in *.
    replace (0 <=? d2) with true by (symmetry; apply Z.leb_le; lia). lia.
  - rewrite (weight_digit_of_Z w ltac:(lia)).
    pose proof (leading_mono w t ltac:(lia)) as Hm. cbv zeta in Hm.
    destruct (leading (Z.to_nat (Z.log2 w)) w) as [w1 d1].
    destruct (leading (Z.to_nat (Z.log2 t)) t) as [w2 d2]. cbn [fst snd dscale of_Z] in *.
    destruct Hm as [Hlt|[Heq Hle]].
    + destruct (d1 <=? d2); lia.
    + replace (d1 <=? d2) with true by (symmetry; apply Z.leb_le; lia). lia.
Qed.

(** A quotient has at most 1000 decimals and no fewer than its dividend. *)
Lemma select_div_scale_bounds (a b : t) :
  (select_div_scale a b <= 1000)%nat
  /\ ((dscale a <= 1000)%nat -> (dscale a <= select_div_scale a b)%nat).
Proof.
  unfold select_div_scale.
  destruct (weight_digit a) as [w1 d1]. destruct (weight_digit b) as [w2 d2].
  lia.
Qed.

Lemma nearest_bounds (num den k : Z) :
  0 < den -> 0 <= num <= k * den -> 0 <= nearest num den <= k.
Proof.
  intros Hd Hn. rewrite nearest_nonneg by lia.
  split.
  - apply Z.div_pos; lia.
  - apply Z.lt_succ_r. apply Z.div_lt_upper_bound; lia.
Qed.

(** A share of a whole in percent, rounded to one decimal: the rounding of
    the quotient to 20 decimals or more leaves the result as if the exact
    quotient had been rounded, for a whole below 10^17. *)
Lemma nearest_twice (w t P : Z) :
  0 <= w <= t -> 0 < t -> 1000 * t < P -> (2000 | P) ->
  nearest (100 * nearest (w * P) t * 10) P = (2000 * w + t) / (2 * t).
Proof.
  intros Hw Ht HP [P' HP'].
  assert (Hu : 0 <= nearest (w * P) t <= P).
  { apply nearest_bounds; [exact Ht|]. nia. }
  rewrite (nearest_nonneg (100 * _ * 10)) by lia.
  pose proof (nearest_nonneg (w * P) t ltac:(nia) Ht) as Hue.
  set (u := nearest (w * P) t) in *. clearbody u.
  pose proof (Z.div_mod (2 * (w * P) + t) (2 * t) ltac:(lia)) as Hdm.
  pose proof (Z.mod_pos_bound (2 * (w * P) + t) (2 * t) ltac:(lia)) as Hmb.
  rewrite <- Hue in Hdm. clear Hue.
  set (ru := (2 * (w * P) + t) mod (2 * t)) in *. clearbody ru.
  pose proof (Z.div_mod (2000 * w + t) (2 * t) ltac:(lia)) as Hdm'.
  pose proof (Z.mod_pos_bound (2000 * w + t) (2 * t) ltac:(lia)) as Hmb'.
  set (m := (2000 * w + t) / (2 * t)) in *. clearbody m.
  set (rm := (2000 * w + t) mod (2 * t)) in *. clearbody rm.
  symmetry. apply Z.div_unique with (r := 2 * (100 * u * 10) + P - 2 * P * m).
  - left. subst P.
    assert (H1 : (2 * m - 1) * P' - u < 1) by nia.
    assert (H2 : u < (2 * m + 1) * P') by nia.
    nia.
  - ring.
Qed.

Local Close Scope Z_scope.

Lemma inject_Z_pos (z : Z) : (0 < z)%Z -> (0 < inject_Z z)%Q.
Proof. intros H. change 0%Q with (inject_Z 0). rewrite <- Zlt_Qlt. exact H. Qed.

Lemma pow10_Q (n : nat) : (0 < inject_Z (10 ^ Z.of_nat n))%Q.
Proof. apply inject_Z_pos, pow10_pos. Qed.

Lemma pow10_add (n m : nat) :
  (inject_Z (10 ^ Z.of_nat (n + m)) == inject_Z (10 ^ Z.of_nat n) * inject_Z (10 ^ Z.of_nat m))%Q.
Proof.
  rewrite Nat2Z.inj_add, Z.pow_add_r by lia. rewrite inject_Z_mult. reflexivity.
Qed.

Lemma half_ulp_mono (r s : nat) : (r <= s)%nat -> (half_ulp s <= half_ulp r)%Q.
Proof.
  intros H. unfold half_ulp.
  change (1 # 2)%Q with (inject_Z 1 / inject_Z 2)%Q.
  unfold Qdiv. rewrite <- !Qmult_assoc, <- !Qinv_mult_distr, <- !inject_Z_mult.
  apply Qdiv_Z_le.
  - pose proof (pow10_pos s). lia.
  - pose proof (pow10_pos r). lia.
  - assert (10 ^ Z.of_nat r <= 10 ^ Z.of_nat s)%Z by (apply Z.pow_le_mono_r; lia). lia.
Qed.

Lemma half_ulp_6 : (half_ulp 6 == 1 # 2000000)%Q.
Proof. reflexivity. Qed.

(** Division gives the quotient to within half a unit of its last decimal. *)
Lemma div_close (a b : t) :
  (0 < unscaled b)%Z ->
  (Qabs (value (div a b) - value a / value b) <= half_ulp (dscale (div a b)))%Q.
Proof.
  intros Hb. unfold div. cbv zeta. cbn [dscale]. set (r := select_div_scale a b).
  unfold value at 1. cbn [unscaled dscale].
  set (num := (unscaled a * 10 ^ Z.of_nat (r + dscale b))%Z).
  set (den := (unscaled b * 10 ^ Z.of_nat (dscale a))%Z).
  assert (Hden : (0 < den)%Z) by (pose proof (pow10_pos (dscale a)); unfold den; nia).
  pose proof (nearest_close num den Hden) as Hn.
  set (n := nearest num den) in *. clearbody n.
  pose proof (pow10_Q r) as Hr. pose proof (pow10_Q (dscale a)) as Hda.
  pose proof (pow10_Q (dscale b)) as Hdb. pose proof (inject_Z_pos _ Hb) as Hb'.
  pose proof (inject_Z_pos _ Hden) as Hden'.
  assert (E : (inject_Z n / inject_Z (10 ^ Z.of_nat r) - value a / value b
               == inject_Z (n * den - num) / inject_Z (2 * den) * (2 # 1) / inject_Z (10 ^ Z.of_nat r))%Q).
  { unfold value, num, den.
    unfold Z.sub. rewrite inject_Z_plus, inject_Z_opp, !inject_Z_mult, pow10_add.
    change (inject_Z 2) with 2%Q.
    field. repeat split; apply Qnot_eq_sym, Qlt_not_eq; assumption. }
  rewrite E. unfold half_ulp.
  set (P := inject_Z (10 ^ Z.of_nat r)) in *.
  assert (Hq : (- (1 # 2) <= inject_Z (n * den - num) / inject_Z (2 * den) * (2 # 1) <= 1 # 2)%Q).
  { assert (H2 : (0 < 2 * den)%Z) by lia.
    change (1 # 2)%Q with (inject_Z 1 / inject_Z 2 * (1 # 1))%Q.
    assert (Hlo : (inject_Z (-1) / inject_Z 4 <= inject_Z (n * den - num) / inject_Z (2 * den))%Q)
      by (apply Qdiv_Z_le; lia).
    assert (Hhi : (inject_Z (n * den - num) / inject_Z (2 * den) <= inject_Z 1 / inject_Z 4)%Q)
      by (apply Qdiv_Z_le; lia).
    set (x := (inject_Z (n * den - num) / inject_Z (2 * den))%Q) in *. clearbody x.
    change (inject_Z (-1) / inject_Z 4)%Q with (- (1 # 4))%Q in Hlo.
    change (inject_Z 1 / inject_Z 4)%Q with (1 # 4)%Q in Hhi.
    change (inject_Z 1 / inject_Z 2 * (1 # 1))%Q with (1 # 2)%Q.
    split; lra. }
  set (y := (inject_Z (n * den - num) / inject_Z (2 * den) * (2 # 1))%Q) in *. clearbody y.
  apply Qabs_Qle_condition. destruct Hq as [Hlo Hhi].
  assert (Hinv : (0 < / P)%Q) by (apply Qinv_lt_0_compat; exact Hr).
  unfold Qdiv. split.
  - setoid_replace (- ((1 # 2) * / P))%Q with ((- (1 # 2)) * / P)%Q by ring.
    apply Qmult_le_compat_r; [exact Hlo | apply Qlt_le_weak; exact Hinv].
  - apply Qmult_le_compat_r; [exact Hhi | apply Qlt_le_weak; exact Hinv].
Qed.

(** Sums are exact, at the larger of the scales. *)
Lemma value_add (a b : t) : (value (add a b) == value a + value b)%Q.
Proof.
  unfold add, value. cbv zeta. cbn [unscaled dscale].
  set (m := Nat.max (dscale a) (dscale b)).
  assert (Ha : (inject_Z (10 ^ Z.of_nat m)
                == inject_Z (10 ^ Z.of_nat (m - dscale a)) * inject_Z (10 ^ Z.of_nat (dscale a)))%Q).
  { rewrite <- pow10_add. replace (m - dscale a + dscale a)%nat with m by lia. reflexivity. }
  assert (Hb : (inject_Z (10 ^ Z.of_nat m)
                == inject_Z (10 ^ Z.of_nat (m - dscale b)) * inject_Z (10 ^ Z.of_nat (dscale b)))%Q).
  { rewrite <- pow10_add. replace (m - dscale b + dscale b)%nat with m by lia. reflexivity. }
  pose proof (pow10_Q (m - dscale a)) as H1. pose proof (pow10_Q (dscale a)) as H2.
  pose proof (pow10_Q (m - dscale b)) as H3. pose proof (pow10_Q (dscale b)) as H4.
  pose proof (pow10_Q m) as H5.
  rewrite inject_Z_plus, !inject_Z_mult.
  set (A := inject_Z (10 ^ Z.of_nat (m - dscale a))) in *.
  set (B := inject_Z (10 ^ Z.of_nat (m - dscale b))) in *.
  set (PA := inject_Z (10 ^ Z.of_nat (dscale a))) in *.
  set (PB := inject_Z (10 ^ Z.of_nat (dscale b))) in *.
  set (M := inject_Z (10 ^ Z.of_nat m)) in *.
  assert (E : (inject_Z (unscaled a) / PA == inject_Z (unscaled a) * A / M)%Q).
  { rewrite Ha. field. split; apply Qnot_eq_sym, Qlt_not_eq; assumption. }
  assert (E' : (inject_Z (unscaled b) / PB == inject_Z (unscaled b) * B / M)%Q).
  { rewrite Hb. field. split; apply Qnot_eq_sym, Qlt_not_eq; assumption. }
  rewrite E, E'. field. apply Qnot_eq_sym, Qlt_not_eq; assumption.
Qed.

Lemma fold_add_value (l : list t) : forall acc,
  (value (fold_left add l acc) == value acc + sumQ (map value l))%Q.
Proof.
  induction l as [|x l IH]; intros acc; cbn [fold_left].
  - cbn. ring.
  - rewrite IH, value_add. unfold sumQ. cbn [map fold_right]. ring.
Qed.

Lemma value_sum (l : list t) : (value (sum l) == sumQ (map value l))%Q.
Proof.
  unfold sum. rewrite fold_add_value. rewrite value_of_Z. change (inject_Z 0) with 0%Q. ring.
Qed.

Lemma fold_add_dscale (l : list t) (lo hi : nat) : forall acc,
  (dscale acc <= hi)%nat -> (forall x, In x l -> (lo <= dscale x <= hi)%nat) ->
  (dscale acc <= dscale (fold_left add l acc) <= hi)%nat
  /\ (l <> [] -> (lo <= dscale (fold_left add l acc))%nat).
Proof.
  induction l as [|x l IH]; intros acc Hacc Hl; cbn [fold_left].
  - split; [lia | intros H; contradiction].
  - destruct (IH (add acc x)) as [[H1 H2] _].
    + unfold add. cbn [dscale]. pose proof (Hl x (or_introl eq_refl)). lia.
    + intros y Hy. apply Hl. right. exact Hy.
    + unfold add in H1 at 1. cbn [dscale] in H1.
      pose proof (Hl x (or_introl eq_refl)). split; [lia|]. intros _. lia.
Qed.

Lemma dscale_sum (l : list t) (lo hi : nat) :
  l <> [] -> (forall x, In x l -> (lo <= dscale x <= hi)%nat) ->
  (lo <= dscale (sum l) <= hi)%nat.
Proof.
  intros Hne Hl. unfold sum.
  destruct (fold_add_dscale l lo hi (of_Z 0)) as [[_ H2] H3]; [cbn; lia | exact Hl |].
  split; [apply H3; exact Hne | exact H2].
Qed.

End NumericFacts.


(** ** The conversion statistics *)

Section StatsFacts.
Import Stats.

Lemma filter_flat_map {A B} (f : B -> bool) (g : A -> list B) (l : list A) :
  filter f (flat_map g l) = flat_map (fun x => filter f (g x)) l.
Proof.
  induction l as [|x l IH]; simpl; [reflexivity|].
  rewrite filter_app, IH. reflexivity.
Qed.

Lemma filter_all {A} (f : A -> bool) (l : list A) :
  (forall x, In x l -> f x = true) -> filter f l = l.
Proof.
  induction l as [|x l IH]; intros H; simpl; [reflexivity|].
  rewrite (H x) by (left; reflexivity).
  rewrite IH by (intros y Hy; apply H; right; exact Hy). reflexivity.
Qed.

Lemma filter_none {A} (f : A -> bool) (l : list A) :
  (forall x, In x l -> f x = false) -> filter f l = [].
Proof.
  induction l as [|x l IH]; intros H; simpl; [reflexivity|].
  rewrite (H x) by (left; reflexivity).
  apply IH. intros y Hy. apply H. right. exact Hy.
Qed.

Variable bs : list bookings.row.

Lemma left_join_blocks ps : left_join ps bs = flat_map (block bs) ps.
Proof. reflexivity. Qed.

Lemma block_fst p j : In j (block bs p) -> fst j = p.
Proof.
  unfold block. destruct (filter (on_assigned p) bs) as [|b m].
  - intros [<-|[]]. reflexivity.
  - intros H. apply in_map_iff in H as (x & <- & _). reflexivity.
Qed.

Lemma block_nonempty p : block bs p <> [].
Proof.
  unfold block. destruct (filter (on_assigned p) bs); discriminate.
Qed.

Lemma key_eqb_refl k : key_eqb k k = true.
Proof.
  destruct k as [[i n] c]. simpl. rewrite N.eqb_refl, String.eqb_refl. simpl.
  destruct c; [apply String.eqb_refl | reflexivity].
Qed.

Lemma key_eqb_id a b : key_eqb a b = true -> fst (fst a) = fst (fst b).
Proof.
  destruct a as [[i n] c], b as [[i' n'] c']. simpl. intros H.
  apply andb_true_iff in H as [H _]. apply andb_true_iff in H as [H _].
  apply N.eqb_eq. exact H.
Qed.

Lemma admin_rows ps :
  filter is_admin_row (left_join ps bs) = flat_map (block bs) (filter is_admin ps).
Proof.
  rewrite left_join_blocks, filter_flat_map.
  induction ps as [|p ps IH]; simpl; [reflexivity|].
  rewrite IH. destruct (is_admin p) eqn:E.
  - simpl. f_equal. apply filter_all. intros j Hj.
    unfold is_admin_row. rewrite (block_fst p j Hj).
    unfold is_admin in E. destruct (profiles.role_ p); try discriminate E. reflexivity.
  - rewrite filter_none; [reflexivity|]. intros j Hj.
    unfold is_admin_row. rewrite (block_fst p j Hj).
    unfold is_admin in E. destruct (profiles.role_ p); try discriminate E; reflexivity.
Qed.

Lemma distinct_subset l k : In k (distinct l) -> In k l.
Proof.
  revert k. induction l as [|x l IH]; simpl; intros k H; [exact H|].
  destruct H as [H|H]; [left; exact H|].
  apply filter_In in H as [H _]. right. apply IH. exact H.
Qed.

(** Keys of a run of rows with one key, followed by other rows. *)
Lemma distinct_run k (l1 l2 : list key) :
  l1 <> [] -> (forall x, In x l1 -> x = k) ->
  distinct (l1 ++ l2) = k :: filter (fun k' => negb (key_eqb k k')) (distinct l2).
Proof.
  induction l1 as [|x l1 IH]; intros Hne Hall; [contradiction|].
  assert (x = k) by (apply Hall; left; reflexivity). subst x.
  simpl. f_equal. destruct l1 as [|y l1].
  - reflexivity.
  - rewrite IH; [|discriminate|intros z Hz; apply Hall; right; exact Hz].
    simpl. rewrite key_eqb_refl. simpl.
    apply filter_all. intros z Hz. apply filter_In in Hz as [_ Hz]. exact Hz.
Qed.

Lemma block_keys p : forall x, In x (map key_of (block bs p)) -> x = key_of_profile p.
Proof.
  intros x H. apply in_map_iff in H as (j & <- & Hj).
  unfold key_of. rewrite (block_fst p j Hj). reflexivity.
Qed.

Lemma keys_of_blocks qs k :
  In k (map key_of (flat_map (block bs) qs)) -> In (fst (fst k)) (map profiles.id qs).
Proof.
  intros H. apply in_map_iff in H as (j & <- & Hj).
  apply in_flat_map in Hj as (q & Hq & Hj).
  unfold key_of. rewrite (block_fst q j Hj). simpl.
  apply in_map. exact Hq.
Qed.

Lemma distinct_keys qs :
  NoDup (map profiles.id qs) ->
  distinct (map key_of (flat_map (block bs) qs)) = map key_of_profile qs.
Proof.
  induction qs as [|q qs IH]; intros Hnd; [reflexivity|].
  simpl in Hnd. inversion Hnd as [|? ? Hnotin Hnd']; subst.
  simpl. rewrite map_app.
  rewrite (distinct_run (key_of_profile q)).
  - rewrite IH by exact Hnd'. f_equal.
    apply filter_all. intros k Hk. apply negb_true_iff.
    destruct (key_eqb (key_of_profile q) k) eqn:E; [|reflexivity].
    exfalso. apply Hnotin. apply key_eqb_id in E. simpl in E. rewrite E.
    apply in_map_iff in Hk as (p & <- & Hp). simpl. apply in_map. exact Hp.
  - intros H. apply map_eq_nil in H. exact (block_nonempty q H).
  - apply block_keys.
Qed.

Lemma rows_of_key qs p :
  NoDup (map profiles.id qs) -> In p qs ->
  filter (fun j => key_eqb (key_of_profile p) (key_of j)) (flat_map (block bs) qs) = block bs p.
Proof.
  induction qs as [|q qs IH]; intros Hnd Hin; [contradiction|].
  simpl in Hnd. inversion Hnd as [|? ? Hnotin Hnd']; subst.
  cbn [flat_map]. rewrite filter_app. destruct Hin as [->|Hin].
  - rewrite filter_all, filter_none.
    + apply app_nil_r.
    + intros j Hj. apply in_flat_map in Hj as (q & Hq & Hj).
      apply not_true_is_false. intros E. apply Hnotin. apply key_eqb_id in E. simpl in E. rewrite E.
      rewrite (block_fst q j Hj). apply in_map. exact Hq.
    + intros j Hj. unfold key_of. rewrite (block_fst p j Hj). apply key_eqb_refl.
  - rewrite IH by assumption. rewrite filter_none; [reflexivity|].
    intros j Hj.
    apply not_true_is_false. intros E. apply Hnotin. apply key_eqb_id in E. simpl in E.
    rewrite (block_fst q j Hj) in E. rewrite <- E. apply in_map. exact Hin.
Qed.

Lemma groups_of_blocks qs :
  NoDup (map profiles.id qs) ->
  groups (flat_map (block bs) qs) = map (fun p => (key_of_profile p, block bs p)) qs.
Proof.
  intros Hnd. unfold groups. rewrite distinct_keys by exact Hnd.
  rewrite map_map. apply map_ext_in. intros p Hp.
  rewrite rows_of_key by assumption. reflexivity.
Qed.

Lemma NoDup_map_filter {A B} (f : A -> B) (g : A -> bool) (l : list A) :
  NoDup (map f l) -> NoDup (map f (filter g l)).
Proof.
  induction l as [|x l IH]; simpl; intros H; [constructor|].
  inversion H as [|? ? Hnotin Hnd]; subst.
  destruct (g x); [|apply IH; exact Hnd].
  simpl. constructor; [|apply IH; exact Hnd].
  intros Hin. apply Hnotin. apply in_map_iff in Hin as (y & Hy & Hin).
  apply filter_In in Hin as [Hin _]. rewrite <- Hy. apply in_map. exact Hin.
Qed.

Lemma on_assigned_spec p :
  filter (on_assigned p) bs = StatsSpec.assigned_to p bs.
Proof.
  unfold StatsSpec.assigned_to. apply filter_ext. intros b.
  unfold on_assigned. destruct (bookings.assigned_admin_id b) as [a|]; simpl.
  - rewrite N.eqb_sym. destruct (N.eqb a (profiles.id p)); reflexivity.
  - reflexivity.
Qed.

Lemma count_block (f : joined -> bool) (g : bookings.row -> bool) p :
  (forall b, f (p, Some b) = g b) -> f (p, None) = false ->
  count_where f (block bs p) = Z.of_nat (List.length (filter g (StatsSpec.assigned_to p bs))).
Proof.
  intros Hfg Hnone. unfold count_where, block. rewrite on_assigned_spec.
  destruct (StatsSpec.assigned_to p bs) as [|b m] eqn:E.
  - simpl. rewrite Hnone. reflexivity.
  - f_equal. generalize (b :: m). intros l.
    induction l as [|x l IH]; simpl; [reflexivity|].
    rewrite Hfg. destruct (g x); simpl; rewrite IH; reflexivity.
Qed.

Lemma hours_block p :
  non_null (map joined_hours (block bs p))
  = non_null (map response_hours (StatsSpec.assigned_to p bs)).
Proof.
  unfold block. rewrite on_assigned_spec.
  destruct (StatsSpec.assigned_to p bs) as [|b m]; [reflexivity|].
  rewrite map_map. reflexivity.
Qed.

Lemma filter_true {A} (l : list A) : filter (fun _ => true) l = l.
Proof. apply filter_all. reflexivity. Qed.

(** The aggregate of the group of one profile, from the bookings assigned
    to it. *)
Lemma of_admin_row p :
  let mine := StatsSpec.assigned_to p bs in
  let won := Z.of_nat (List.length (StatsSpec.with_status [confirmed; cleared] mine)) in
  let total := Z.of_nat (List.length mine) in
  of_admin bs p
  = mk (profiles.id p) (profiles.name p) (profiles.admin_color p)
       (Z.of_nat (List.length (StatsSpec.with_status [inquiry] mine)))
       won
       (Numeric.value (if (total >? 0)%Z then rate won total else Numeric.of_Z 0))
       (Numeric.value (coalesce (avg (map response_hours mine)) (Numeric.of_Z 0))).
Proof.
  cbv zeta. unfold of_admin, aggregate. cbn [fst snd key_of_profile].
  rewrite (count_block has_booking (fun _ => true)) by reflexivity.
  rewrite !(count_block (has_status [confirmed; cleared])
             (fun b => existsb (status_eqb (bookings.status_ b)) [confirmed; cleared]))
    by reflexivity.
  rewrite (count_block (has_status [inquiry])
             (fun b => existsb (status_eqb (bookings.status_ b)) [inquiry]))
    by reflexivity.
  rewrite filter_true. unfold StatsSpec.with_status.
  f_equal. unfold avg. rewrite hours_block. reflexivity.
Qed.

End StatsFacts.

(** The plan returns the rows of the admins in table order, provided ids
    are unique in profiles (the primary key). *)
Lemma get_admin_conversion_stats_rows (db : database) :
  NoDup (map profiles.id (db_profiles db)) ->
  Stats.get_admin_conversion_stats db
  = map (Stats.of_admin (db_bookings db)) (filter Stats.is_admin (db_profiles db)).
Proof.
  intros Hnd. unfold Stats.get_admin_conversion_stats.
  change (fun j : Stats.joined =>
            (role_text (profiles.role_ (fst j)) =? "admin")%string) with Stats.is_admin_row.
  rewrite admin_rows.
  rewrite groups_of_blocks by (apply NoDup_map_filter; exact Hnd).
  rewrite map_map. reflexivity.
Qed.

(** [round_numeric q d] is a multiple of [10^-d] within half a unit of the
    last kept digit from [q]. *)
Lemma round_numeric_nearest (q : Q) (d : nat) :
  exists n : Z,
    round_numeric q d = (inject_Z n / inject_Z (10 ^ Z.of_nat d))%Q
    /\ (Qabs (q * inject_Z (10 ^ Z.of_nat d) - inject_Z n) <= 1 # 2)%Q.
Proof.
  unfold round_numeric. cbv zeta.
  set (t := (q * inject_Z (10 ^ Z.of_nat d))%Q).
  destruct (Qle_bool 0 t) eqn:E.
  - exists (Qfloor (t + (1 # 2))). split; [reflexivity|].
    pose proof (Qfloor_le (t + (1 # 2))) as Hlo.
    pose proof (Qlt_floor (t + (1 # 2))) as Hhi.
    rewrite inject_Z_plus in Hhi. change (inject_Z 1) with 1%Q in Hhi.
    apply Qabs_Qle_condition. split; lra.
  - exists (- Qfloor (- t + (1 # 2)))%Z. split; [reflexivity|].
    pose proof (Qfloor_le (- t + (1 # 2))) as Hlo.
    pose proof (Qlt_floor (- t + (1 # 2))) as Hhi.
    rewrite inject_Z_plus in Hhi. change (inject_Z 1) with 1%Q in Hhi.
    rewrite inject_Z_opp.
    apply Qabs_Qle_condition. split; lra.
Qed.

Lemma admin_id_of_admin bs p : Stats.admin_id (Stats.of_admin bs p) = profiles.id p.
Proof. reflexivity. Qed.

Lemma row_of_admin bs (qs : list profiles.row) (p : profiles.row) :
  NoDup (map profiles.id qs) -> In p qs ->
  filter (fun r => N.eqb (Stats.admin_id r) (profiles.id p)) (map (Stats.of_admin bs) qs)
  = [Stats.of_admin bs p].
Proof.
  induction qs as [|q qs IH]; intros Hnd Hin; [contradiction|].
  simpl in Hnd. inversion Hnd as [|? ? Hnotin Hnd']; subst.
  cbn [map filter]. rewrite admin_id_of_admin.
  destruct Hin as [->|Hin].
  - rewrite N.eqb_refl. f_equal. apply filter_none.
    intros r Hr. apply in_map_iff in Hr as (x & <- & Hx).
    rewrite admin_id_of_admin.
    apply N.eqb_neq. intros Heq. apply Hnotin. rewrite <- Heq. apply in_map. exact Hx.
  - replace (N.eqb (profiles.id q) (profiles.id p)) with false.
    + apply IH; assumption.
    + symmetry. apply N.eqb_neq. intros Heq. apply Hnotin. rewrite Heq.
      apply in_map. exact Hin.
Qed.

Lemma filter_Permutation {A} (f : A -> bool) (l l' : list A) :
  Permutation l l' -> Permutation (filter f l) (filter f l').
Proof.
  induction 1 as [|x l l' _ IH|x y l|l l' l'' _ IH1 _ IH2]; cbn [filter].
  - constructor.
  - destruct (f x); [constructor|]; exact IH.
  - destruct (f x), (f y); try apply Permutation_refl.
    + apply perm_swap.
  - eapply Permutation_trans; eassumption.
Qed.

(** Whatever the order of the rows returned, one of them is the row of the
    admin [p]. *)
Lemma returned_row_of_admin (db : database) (p : profiles.row) (rows : list Stats.row) :
  NoDup (map profiles.id (db_profiles db)) ->
  In p (db_profiles db) -> profiles.role_ p = admin ->
  Stats.returns db rows ->
  filter (fun r => N.eqb (Stats.admin_id r) (profiles.id p)) rows
  = [Stats.of_admin (db_bookings db) p].
Proof.
  intros Hnd Hin Hrole Hret. unfold Stats.returns in Hret.
  rewrite get_admin_conversion_stats_rows in Hret by exact Hnd.
  apply (filter_Permutation (fun r => N.eqb (Stats.admin_id r) (profiles.id p))) in Hret.
  rewrite row_of_admin in Hret.
  - apply Permutation_sym, Permutation_length_1_inv in Hret. exact Hret.
  - apply NoDup_map_filter. exact Hnd.
  - apply filter_In. split; [exact Hin|]. unfold Stats.is_admin. rewrite Hrole. reflexivity.
Qed.

(** *** The conversion rate *)

Lemma rate_unscaled (w t : Z) :
  Numeric.unscaled (Stats.rate w t)
  = Numeric.nearest
      (100 * Numeric.nearest
               (w * 10 ^ Z.of_nat (Numeric.select_div_scale (Numeric.of_Z w) (Numeric.of_Z t)))
               t * 10)
      (10 ^ Z.of_nat (Numeric.select_div_scale (Numeric.of_Z w) (Numeric.of_Z t)))
  /\ Numeric.dscale (Stats.rate w t) = 1%nat.
Proof.
  unfold Stats.rate, Numeric.round, Numeric.mul, Numeric.div.
  cbn [Numeric.unscaled Numeric.dscale Numeric.of_Z].
  rewrite !Nat.add_0_r. change (10 ^ Z.of_nat 0)%Z with 1%Z. change (10 ^ Z.of_nat 1)%Z with 10%Z.
  rewrite Z.mul_1_r. split; [|reflexivity].
  f_equal. ring.
Qed.

(** Between 0 and 100, whatever the counts. *)
Lemma rate_bounds (w t : Z) :
  (0 <= w <= t)%Z -> (0 < t)%Z -> (0 <= Numeric.value (Stats.rate w t) <= 100)%Q.
Proof.
  intros Hw Ht. unfold Numeric.value.
  destruct (rate_unscaled w t) as [-> ->].
  set (r := Numeric.select_div_scale (Numeric.of_Z w) (Numeric.of_Z t)).
  pose proof (pow10_pos r) as HP. set (P := (10 ^ Z.of_nat r)%Z) in *. clearbody P.
  assert (Hu : (0 <= Numeric.nearest (w * P) t <= P)%Z)
    by (apply nearest_bounds; [exact Ht | nia]).
  assert (Hn : (0 <= Numeric.nearest (100 * Numeric.nearest (w * P) t * 10) P <= 1000)%Z)
    by (apply nearest_bounds; [exact HP | lia]).
  set (n := Numeric.nearest (100 * Numeric.nearest (w * P) t * 10) P) in *. clearbody n.
  change (10 ^ Z.of_nat 1)%Z with 10%Z.
  split.
  - change 0%Q with (inject_Z 0 / inject_Z 1)%Q. apply Qdiv_Z_le; lia.
  - change 100%Q with (inject_Z 100 / inject_Z 1)%Q. apply Qdiv_Z_le; lia.
Qed.

(** For fewer than 10^17 bookings the rate is the exact share in percent,
    rounded to one decimal. *)
Lemma rate_rounded (w t : Z) :
  (0 <= w <= t)%Z -> (0 < t < 10 ^ 17)%Z ->
  Numeric.value (Stats.rate w t)
  = round_numeric (inject_Z w / inject_Z t * inject_Z 100) 1.
Proof.
  intros Hw Ht. unfold Numeric.value.
  destruct (rate_unscaled w t) as [-> ->].
  pose proof (select_div_scale_counts w t Hw ltac:(lia)) as [Hr _].
  set (r := Numeric.select_div_scale (Numeric.of_Z w) (Numeric.of_Z t)) in *.
  rewrite nearest_twice; [| exact Hw | lia | |].
  - unfold round_numeric. cbv zeta. f_equal. f_equal.
    set (scaled := (inject_Z w / inject_Z t * inject_Z 100 * inject_Z (10 ^ Z.of_nat 1))%Q).
    assert (Ht' : (0 < inject_Z t)%Q) by (apply inject_Z_pos; lia).
    assert (E : (scaled + (1 # 2) == inject_Z (2000 * w + t) / inject_Z (2 * t))%Q).
    { unfold scaled. change (10 ^ Z.of_nat 1)%Z with 10%Z.
      rewrite inject_Z_plus, !inject_Z_mult.
      change (inject_Z 2000) with 2000%Q. change (inject_Z 100) with 100%Q.
      change (inject_Z 10) with 10%Q. change (inject_Z 2) with 2%Q.
      field. apply Qnot_eq_sym, Qlt_not_eq. exact Ht'. }
    assert (H0 : (0 <= scaled)%Q).
    { assert (H : (0 <= inject_Z (2000 * w) / inject_Z (2 * t))%Q).
      { change 0%Q with (inject_Z 0 / inject_Z 1)%Q. apply Qdiv_Z_le; lia. }
      assert (E' : (scaled == inject_Z (2000 * w) / inject_Z (2 * t))%Q).
      { unfold scaled. change (10 ^ Z.of_nat 1)%Z with 10%Z. rewrite !inject_Z_mult.
        change (inject_Z 2000) with 2000%Q. change (inject_Z 100) with 100%Q.
        change (inject_Z 10) with 10%Q. change (inject_Z 2) with 2%Q.
        field. apply Qnot_eq_sym, Qlt_not_eq. exact Ht'. }
      rewrite E'. exact H. }
    apply Qle_bool_iff in H0. rewrite H0.
    rewrite (Qfloor_comp _ _ E). rewrite <- Zdiv_Qdiv. reflexivity.
  - assert (H20 : (10 ^ 20 <= 10 ^ Z.of_nat r)%Z) by (apply Z.pow_le_mono_r; lia).
    lia.
  - exists (5 * 10 ^ (Z.of_nat r - 4))%Z.
    replace (Z.of_nat r) with (4 + (Z.of_nat r - 4))%Z at 1 by lia.
    rewrite Z.pow_add_r by lia. change (10 ^ 4)%Z with 10000%Z. ring.
Qed.

(** *** The average response time *)

Lemma Forall2_In_l {A B} (R : A -> B -> Prop) (l : list A) (l' : list B) (x : A) :
  Forall2 R l l' -> In x l -> exists y, In y l' /\ R x y.
Proof.
  induction 1 as [|a b l l' Hab _ IH]; intros Hin; [contradiction|].
  destruct Hin as [->|Hin].
  - exists b. split; [left; reflexivity | exact Hab].
  - destruct (IH Hin) as (y & Hy & Hr). exists y. split; [right; exact Hy | exact Hr].
Qed.

Lemma elapsed_hours_close (b : bookings.row) (h : Numeric.t) :
  Stats.response_hours b = Some h ->
  exists e, StatsSpec.elapsed_hours b = Some e
            /\ (Qabs (Numeric.value h - e) <= 1 # 2000000)%Q
            /\ (6 <= Numeric.dscale h <= 1000)%nat.
Proof.
  unfold Stats.response_hours, StatsSpec.elapsed_hours.
  destruct (bookings.updated_at b) as [u|]; [|discriminate].
  destruct (bookings.created_at b) as [c|]; [|discriminate].
  intros H. injection H as <-. eexists. split; [reflexivity|].
  set (a := Numeric.mk (u - c) 6). set (d := Numeric.of_Z 3600).
  pose proof (select_div_scale_bounds a d) as [Hhi Hlo].
  specialize (Hlo ltac:(cbn; lia)). cbn [Numeric.dscale a] in Hlo.
  change (Numeric.dscale (Numeric.div a d)) with (Numeric.select_div_scale a d).
  split; [|lia].
  pose proof (div_close a d ltac:(cbn; lia)) as Hc.
  change (Numeric.dscale (Numeric.div a d)) with (Numeric.select_div_scale a d) in Hc.
  pose proof (half_ulp_mono 6 _ Hlo) as Hm. rewrite half_ulp_6 in Hm.
  assert (E : (Numeric.value a / Numeric.value d
               == inject_Z (u - c) / inject_Z 3600000000)%Q).
  { unfold Numeric.value, a, d. cbn [Numeric.unscaled Numeric.dscale Numeric.of_Z].
    change (inject_Z (10 ^ Z.of_nat 6)) with 1000000%Q.
    change (inject_Z (10 ^ Z.of_nat 0)) with 1%Q.
    change (inject_Z 3600) with 3600%Q. change (inject_Z 3600000000) with 3600000000%Q.
    field. }
  rewrite E in Hc. eapply Qle_trans; [exact Hc | exact Hm].
Qed.

(** The hours of the bookings that carry both timestamps, as computed and
    as they are, side by side. *)
Lemma hours_close (bs : list bookings.row) :
  Forall2 (fun h e => (Qabs (Numeric.value h - e) <= 1 # 2000000)%Q
                      /\ (6 <= Numeric.dscale h <= 1000)%nat)
          (non_null (map Stats.response_hours bs)) (StatsSpec.hours bs).
Proof.
  unfold StatsSpec.hours.
  induction bs as [|b bs IH]; cbn [map non_null]; [constructor|].
  destruct (Stats.response_hours b) as [h|] eqn:E.
  - destruct (elapsed_hours_close b h E) as (e & -> & He). constructor; assumption.
  - replace (StatsSpec.elapsed_hours b) with (@None Q); [exact IH|].
    unfold Stats.response_hours in E. unfold StatsSpec.elapsed_hours.
    destruct (bookings.updated_at b), (bookings.created_at b);
      try reflexivity; discriminate E.
Qed.

Lemma sum_close (hs : list Numeric.t) (es : list Q) :
  Forall2 (fun h e => (Qabs (Numeric.value h - e) <= 1 # 2000000)%Q
                      /\ (6 <= Numeric.dscale h <= 1000)%nat) hs es ->
  (Qabs (sumQ (map Numeric.value hs) - sumQ es)
   <= inject_Z (Z.of_nat (List.length es)) * (1 # 2000000))%Q.
Proof.
  induction 1 as [|h e hs es [Hhe _] _ IH]; unfold sumQ in *; cbn [map fold_right List.length].
  - cbn. discriminate.
  - rewrite Nat2Z.inj_succ, <- Z.add_1_r, inject_Z_plus. change (inject_Z 1) with 1%Q.
    apply Qabs_Qle_condition in Hhe. apply Qabs_Qle_condition in IH.
    apply Qabs_Qle_condition.
    set (x := Numeric.value h) in *. set (S1 := fold_right Qplus 0 (map Numeric.value hs)) in *.
    set (S2 := fold_right Qplus 0 es) in *.
    set (N := inject_Z (Z.of_nat (List.length es))) in *.
    clearbody x S1 S2 N. destruct Hhe, IH. split; lra.
Qed.

(** The average that the function returns is within 10^-6 of the mean of
    the hours. *)
Lemma avg_close (bs : list bookings.row) :
  (Qabs (Numeric.value (coalesce (avg (map Stats.response_hours bs)) (Numeric.of_Z 0))
         - StatsSpec.mean (StatsSpec.hours bs))
   <= 1 # 1000000)%Q.
Proof.
  pose proof (hours_close bs) as H. pose proof (sum_close _ _ H) as Hs.
  pose proof (Forall2_length H) as Hlen.
  unfold avg, StatsSpec.mean.
  destruct (non_null (map Stats.response_hours bs)) as [|h hs] eqn:Eh.
  - inversion H. cbn. discriminate.
  - destruct (StatsSpec.hours bs) as [|e es] eqn:Ee; [inversion H|].
    cbn [coalesce]. rewrite Hlen.
    set (l := h :: hs) in *. set (m := e :: es) in *.
    assert (Hn : (0 < Z.of_nat (List.length m))%Z) by (unfold m; cbn [List.length]; lia).
    set (n := Z.of_nat (List.length m)) in *.
    assert (Hd : (6 <= Numeric.dscale (Numeric.sum l) <= 1000)%nat).
    { apply dscale_sum; [discriminate|]. intros x Hx.
      destruct (Forall2_In_l _ _ _ x H Hx) as (y & _ & _ & Hy). exact Hy. }
    pose proof (div_close (Numeric.sum l) (Numeric.of_Z n) Hn) as Hc.
    pose proof (select_div_scale_bounds (Numeric.sum l) (Numeric.of_Z n)) as [_ Hlo].
    specialize (Hlo ltac:(lia)).
    change (Numeric.dscale (Numeric.div (Numeric.sum l) (Numeric.of_Z n)))
      with (Numeric.select_div_scale (Numeric.sum l) (Numeric.of_Z n)) in Hc.
    assert (Hr : (6 <= Numeric.select_div_scale (Numeric.sum l) (Numeric.of_Z n))%nat) by lia.
    pose proof (half_ulp_mono 6 _ Hr) as Hm.
    rewrite half_ulp_6 in Hm.
    rewrite value_sum, value_of_Z in Hc.
    assert (Hn' : (0 < inject_Z n)%Q) by (apply inject_Z_pos; exact Hn).
    set (q := Numeric.value (Numeric.div (Numeric.sum l) (Numeric.of_Z n))) in *.
    set (S1 := sumQ (map Numeric.value l)) in *. set (S2 := sumQ m) in *.
    set (N := inject_Z n) in *.
    clearbody q S1 S2 N.
    assert (Hmean : (Qabs (S1 / N - S2 / N) <= 1 # 2000000)%Q).
    { apply Qabs_Qle_condition in Hs. destruct Hs as [Hs1 Hs2].
      apply Qabs_Qle_condition.
      assert (E : (S1 / N - S2 / N == (S1 - S2) / N)%Q)
        by (field; apply Qnot_eq_sym, Qlt_not_eq; exact Hn').
      rewrite E. split.
      - apply Qle_shift_div_l; [exact Hn'|]. lra.
      - apply Qle_shift_div_r; [exact Hn'|]. lra. }
    apply Qabs_Qle_condition in Hmean. destruct Hmean.
    assert (Hc' : (Qabs (q - S1 / N) <= 1 # 2000000)%Q)
      by (eapply Qle_trans; [exact Hc | exact Hm]).
    apply Qabs_Qle_condition in Hc'. destruct Hc'.
    apply Qabs_Qle_condition.
    set (a := (S1 / N)%Q) in *. set (b := (S2 / N)%Q) in *. clearbody a b.
    split; lra.
Qed.

Lemma hours_all_timed (bs : list bookings.row) :
  (forall b, In b bs -> bookings.created_at b <> None /\ bookings.updated_at b <> None) ->
  List.length (StatsSpec.hours bs) = List.length bs.
Proof.
  unfold StatsSpec.hours.
  induction bs as [|b bs IH]; intros H; [reflexivity|].
  cbn [map]. destruct (H b (or_introl eq_refl)) as [Hc Hu].
  unfold StatsSpec.elapsed_hours at 1.
  destruct (bookings.created_at b); [|contradiction].
  destruct (bookings.updated_at b); [|contradiction].
  cbn [non_null List.length]. f_equal. apply IH. intros x Hx. apply H. right. exact Hx.
Qed.

(** C3, as the code has it.  With unique ids in profiles, a call of the
    function returns, in whatever order the rows come, exactly one row for
    an account [p] of role admin.  Writing [mine] for the bookings whose
    assigned_admin_id is [p]: inquiries_assigned counts those of status
    inquiry; confirmed_bookings counts those of status confirmed or
    cleared; conversion_rate is that count divided by the size of [mine],
    times 100, rounded to one decimal (for fewer than 10^17 bookings, as
    the quotient is itself rounded to 20 decimals or more), and 0 when
    [mine] is empty (4 assigned with 3 confirmed or cleared give 75.0);
    avg_response_time is 0 when [mine] is empty and otherwise within 10^-6
    of the mean of (updated_at - created_at) in hours over the bookings of
    [mine] that carry both timestamps, which is all of them when none is
    NULL: each quotient by 3600 and the quotient of AVG are rounded to the
    scale of a numeric division. *)
Theorem conversion_stats_of_admin (db : database) (p : profiles.row) (rows : list Stats.row) :
  NoDup (map profiles.id (db_profiles db)) ->
  In p (db_profiles db) ->
  profiles.role_ p = admin ->
  Stats.returns db rows ->
  let mine := StatsSpec.assigned_to p (db_bookings db) in
  let won := StatsSpec.with_status [confirmed; cleared] mine in
  let size l := inject_Z (Z.of_nat (List.length l)) in
  exists r : Stats.row,
    filter (fun r => N.eqb (Stats.admin_id r) (profiles.id p)) rows = [r]
    /\ Stats.admin_id r = profiles.id p
    /\ Stats.admin_name r = profiles.name p
    /\ Stats.admin_color r = profiles.admin_color p
    /\ Stats.inquiries_assigned r
       = Z.of_nat (List.length (StatsSpec.with_status [inquiry] mine))
    /\ Stats.confirmed_bookings r = Z.of_nat (List.length won)
    /\ (mine <> [] -> (Z.of_nat (List.length mine) < 10 ^ 17)%Z ->
        Stats.conversion_rate r = round_numeric ((size won / size mine) * inject_Z 100)%Q 1)
    /\ (List.length mine = 4%nat -> List.length won = 3%nat ->
        (Stats.conversion_rate r == 75)%Q)
    /\ (mine = [] -> Stats.conversion_rate r = 0%Q /\ Stats.avg_response_time r = 0%Q)
    /\ (Qabs (Stats.avg_response_time r - StatsSpec.mean (StatsSpec.hours mine))
        <= 1 # 1000000)%Q
    /\ ((forall b, In b mine ->
           bookings.created_at b <> None /\ bookings.updated_at b <> None) ->
        List.length (StatsSpec.hours mine) = List.length mine).
Proof.
  intros Hnd Hin Hrole Hret. cbv zeta.
  exists (Stats.of_admin (db_bookings db) p).
  split; [apply returned_row_of_admin; assumption|].
  rewrite of_admin_row.
  cbn [Stats.admin_id Stats.admin_name Stats.admin_color
    Stats.inquiries_assigned Stats.confirmed_bookings Stats.conversion_rate
    Stats.avg_response_time].
  repeat (split; [reflexivity|]).
  assert (Hwon : (0 <= Z.of_nat (List.length
                         (StatsSpec.with_status [confirmed; cleared]
                            (StatsSpec.assigned_to p (db_bookings db))))
                  <= Z.of_nat (List.length (StatsSpec.assigned_to p (db_bookings db))))%Z).
  { split; [lia|]. apply Nat2Z.inj_le. unfold StatsSpec.with_status. apply filter_length_le. }
  split.
  { intros Hne Hsmall.
    assert (Hpos : (0 < Z.of_nat (List.length (StatsSpec.assigned_to p (db_bookings db))))%Z).
    { destruct (StatsSpec.assigned_to p (db_bookings db)); [contradiction|].
      cbn [List.length]. lia. }
    replace (Z.of_nat (List.length (StatsSpec.assigned_to p (db_bookings db))) >? 0)%Z
      with true by (symmetry; apply Z.gtb_lt; exact Hpos).
    apply rate_rounded; [exact Hwon | lia]. }
  split.
  { intros H4 H3. rewrite H4, H3. vm_compute. reflexivity. }
  split.
  { intros ->. split; reflexivity. }
  split; [apply avg_close|].
  apply hours_all_timed.
Qed.

Lemma conversion_stats_of_admin_witness :
  exists r : Stats.row,
    filter (fun r => N.eqb (Stats.admin_id r) 4)
           (Stats.get_admin_conversion_stats Examples.busy) = [r]
    /\ Stats.inquiries_assigned r = 1%Z
    /\ Stats.confirmed_bookings r = 3%Z
    /\ (Stats.conversion_rate r == 75)%Q
    /\ (Qabs (Stats.avg_response_time r - 2) <= 1 # 1000000)%Q.
Proof.
  destruct (conversion_stats_of_admin Examples.busy Examples.ada
              (Stats.get_admin_conversion_stats Examples.busy)) as (r & Hr & H).
  - simpl. repeat constructor; simpl; intuition discriminate.
  - simpl. auto.
  - reflexivity.
  - apply Permutation_refl.
  - exists r. split; [exact Hr|].
    destruct H as (_ & _ & _ & Hi & Hc & _ & H75 & _ & Ha & _).
    split; [rewrite Hi; reflexivity|].
    split; [rewrite Hc; reflexivity|].
    split; [apply H75; reflexivity|].
    assert (E : (StatsSpec.mean
                   (StatsSpec.hours
                      (StatsSpec.assigned_to Examples.ada (db_bookings Examples.busy)))
                 == 2)%Q) by (vm_compute; reflexivity).
    rewrite E in Ha. exact Ha.
Defined.

(** C3 as stated fails for the average: Ada's three bookings were updated
    1 s, 2 s and 4 s after their creation; the mean of the hours is
    7/10800, the function returns 0.00064814814814814815. *)
Lemma average_is_rounded :
  let mine := StatsSpec.assigned_to Examples.ada (db_bookings Examples.prompt) in
  exists r : Stats.row,
    Stats.get_admin_conversion_stats Examples.prompt = [r]
    /\ Stats.admin_id r = profiles.id Examples.ada
    /\ (StatsSpec.mean (StatsSpec.hours mine) == 7 # 10800)%Q
    /\ (Stats.avg_response_time r == 64814814814814815 # 100000000000000000000)%Q
    /\ ~ (Stats.avg_response_time r == StatsSpec.mean (StatsSpec.hours mine))%Q.
Proof.
  cbv zeta. eexists. split; [vm_compute; reflexivity|].
  split; [reflexivity|]. split; [vm_compute; reflexivity|].
  split; [vm_compute; reflexivity|]. vm_compute. discriminate.
Qed.

(** ** Provisioning of accounts *)

Lemma split_nonempty sep s : split sep s <> [].
Proof.
  destruct s as [|c s]; simpl; [discriminate|].
  destruct (Ascii.eqb c sep); [discriminate|].
  destruct (split sep s); discriminate.
Qed.

Lemma split_part_local (e : string) : split_part e "@" 1 = local_part e.
Proof.
  unfold split_part. cbn [pred].
  induction e as [|c e IH]; [reflexivity|].
  cbn [split local_part]. destruct (Ascii.eqb c "@"); [reflexivity|].
  destruct (split "@" e) as [|h t] eqn:E.
  - exfalso. exact (split_nonempty _ _ E).
  - cbn [nth] in *. rewrite IH. reflexivity.
Qed.

Lemma split_second_field (e : string) : nth_error (split "@" e) 1 = domain_part e.
Proof.
  induction e as [|c e IH]; [reflexivity|].
  cbn [split domain_part]. destruct (Ascii.eqb c "@").
  - cbn [nth_error]. rewrite <- split_part_local. unfold split_part. cbn [pred].
    destruct (split "@" e) as [|h t] eqn:E; [exfalso; exact (split_nonempty _ _ E)|].
    reflexivity.
  - destruct (split "@" e) as [|h t] eqn:E; [exfalso; exact (split_nonempty _ _ E)|].
    cbn [nth_error] in *. exact IH.
Qed.

Lemma role_of_text_sound t r : role_of_text t = Some r -> role_text r = t.
Proof.
  unfold role_of_text.
  destruct (t =? "client") eqn:E1; [apply String.eqb_eq in E1; intros [= <-]; auto|].
  destruct (t =? "admin") eqn:E2; [apply String.eqb_eq in E2; intros [= <-]; auto|].
  destruct (t =? "super_admin") eqn:E3; [apply String.eqb_eq in E3; intros [= <-]; auto|].
  discriminate.
Qed.

Lemma existsb_false_iff {A} (f : A -> bool) (l : list A) :
  existsb f l = false <-> forall x, In x l -> f x = false.
Proof.
  split.
  - intros H x Hx. apply not_true_is_false. intros Hf.
    assert (existsb f l = true) by (apply existsb_exists; exists x; auto). congruence.
  - intros H. apply not_true_is_false. intros E.
    apply existsb_exists in E as (x & Hx & Hf). rewrite (H x Hx) in Hf. discriminate.
Qed.

(** C6: for a new identity with an email, whose role text (the metadata's
    role, or 'client' without one) passes the CHECK on role, and whose id
    and email are not yet in profiles, the trigger function adds exactly one
    profiles row: keyed by the identity's id, named by the metadata's name
    when it has one and by the text before the '@' of the email otherwise,
    with that role.  (A JSON null counts as an absent field.) *)
Theorem handle_new_user_row (db : database) (NEW : Auth.users_row) (now : timestamptz)
        (e : string) (r : role) :
  Auth.email NEW = Some e ->
  role_of_text (match Auth.get_text (Auth.raw_user_meta_data NEW) "role" with
                | Some t => t
                | None => "client"
                end) = Some r ->
  (forall p, In p (db_profiles db) -> profiles.id p <> Auth.id NEW) ->
  (forall p, In p (db_profiles db) -> profiles.email p <> e) ->
  let name := match Auth.get_text (Auth.raw_user_meta_data NEW) "name" with
              | Some n => n
              | None => local_part e
              end in
  Auth.handle_new_user db NEW now
  = Dml.Done (mkdb (db_profiles db ++
                    [profiles.mk (Auth.id NEW) e name None r None (Some now) (Some now)])
                   (db_bookings db) (db_notifications db))
  /\ role_text r = match Auth.get_text (Auth.raw_user_meta_data NEW) "role" with
                   | Some t => t
                   | None => "client"
                   end
  /\ (Auth.get_text (Auth.raw_user_meta_data NEW) "role" = None -> r = client).
Proof.
  intros He Hr Hid Hem. cbv zeta.
  split; [|split].
  - unfold Auth.handle_new_user, Auth.insert_profile. rewrite He.
    cbn [Dml.not_null Dml.bind option_map].
    rewrite split_part_local.
    destruct (Auth.get_text (Auth.raw_user_meta_data NEW) "name") as [n|];
      destruct (Auth.get_text (Auth.raw_user_meta_data NEW) "role") as [t|];
      cbn [Auth.coalesce2 Dml.not_null Dml.bind]; rewrite Hr; cbn [Dml.bind];
      (replace (existsb (fun p => N.eqb (profiles.id p) (Auth.id NEW)) (db_profiles db))
         with false
         by (symmetry; apply existsb_false_iff; intros p Hp; apply N.eqb_neq; auto));
      (replace (existsb (fun p => profiles.email p =? e) (db_profiles db)) with false
         by (symmetry; apply existsb_false_iff; intros p Hp; apply String.eqb_neq; auto));
      reflexivity.
  - apply role_of_text_sound. exact Hr.
  - intros Hnone. rewrite Hnone in Hr. cbn in Hr. congruence.
Qed.

Lemma handle_new_user_row_witness :
  Auth.handle_new_user Examples.office (Auth.mk 5 (Some "a@x.com") None) 7
  = Dml.Done (mkdb (db_profiles Examples.office ++
                    [profiles.mk 5 "a@x.com" "a" None client None (Some 7%Z) (Some 7%Z)])
                   [] []).
Proof.
  apply (proj1 (handle_new_user_row Examples.office (Auth.mk 5 (Some "a@x.com") None) 7
                  "a@x.com" client eq_refl eq_refl
                  ltac:(simpl; intros p [<-|[<-|[<-|[<-|[]]]]]; simpl; discriminate)
                  ltac:(simpl; intros p [<-|[<-|[<-|[<-|[]]]]]; simpl; discriminate))).
Defined.

(** Whenever the trigger function succeeds it has added one row of that
    shape; a role text that fails the CHECK makes it raise, which aborts
    the creation of the identity. *)
Lemma handle_new_user_done (db db' : database) (NEW : Auth.users_row) (now : timestamptz) :
  Auth.handle_new_user db NEW now = Dml.Done db' ->
  exists e r,
    Auth.email NEW = Some e
    /\ role_of_text (match Auth.get_text (Auth.raw_user_meta_data NEW) "role" with
                     | Some t => t
                     | None => "client"
                     end) = Some r
    /\ db' = mkdb (db_profiles db ++
                   [profiles.mk (Auth.id NEW) e
                      (match Auth.get_text (Auth.raw_user_meta_data NEW) "name" with
                       | Some n => n
                       | None => local_part e
                       end) None r None (Some now) (Some now)])
                  (db_bookings db) (db_notifications db).
Proof.
  unfold Auth.handle_new_user, Auth.insert_profile.
  destruct (Auth.email NEW) as [e|]; [|discriminate].
  cbn [Dml.not_null Dml.bind option_map]. rewrite split_part_local.
  intros H. exists e.
  destruct (Auth.get_text (Auth.raw_user_meta_data NEW) "name") as [n|];
    destruct (Auth.get_text (Auth.raw_user_meta_data NEW) "role") as [t|];
    cbn [Auth.coalesce2 Dml.not_null Dml.bind] in H;
    match type of H with
    | context [role_of_text ?x] => destruct (role_of_text x) as [r|] eqn:Er
    end; try discriminate H; cbn [Dml.bind] in H;
    exists r; (split; [reflexivity|]); (split; [reflexivity|]);
    destruct (existsb (fun p => N.eqb (profiles.id p) (Auth.id NEW)) (db_profiles db));
    try discriminate H; cbn in H;
    destruct (existsb (fun p => profiles.email p =? e) (db_profiles db));
    try discriminate H; cbn in H; injection H as <-; reflexivity.
Qed.

Lemma handle_new_user_bad_role :
  Auth.handle_new_user Examples.office
    (Auth.mk 5 (Some "a@x.com") (Some [("role", Auth.JString "owner")])) 7
  = Dml.Raise (Dml.CheckViolation "role").
Proof. reflexivity. Qed.

(** ** The authentication form *)

(** With a single [@], the domain is all the text after it. *)
Lemma domain_part_single (l d : string) :
  local_part l = l -> local_part d = d ->
  domain_part (l ++ String "@" d) = Some d.
Proof.
  intros Hl Hd. induction l as [|c l IH]; cbn [append domain_part].
  - cbn. rewrite Hd. reflexivity.
  - cbn [local_part] in Hl. destruct (Ascii.eqb c "@"); [discriminate Hl|].
    apply IH. injection Hl as Hl. exact Hl.
Qed.

Lemma isOrganizationEmail_spec (email : string) :
  AuthForm.isOrganizationEmail email = true <->
  exists d, domain_part email = Some d /\ In (toLowerCase d) AuthForm.ALLOWED_DOMAINS.
Proof.
  unfold AuthForm.isOrganizationEmail. rewrite split_second_field.
  destruct (domain_part email) as [d|].
  - rewrite existsb_exists. split.
    + intros (x & Hx & He). apply String.eqb_eq in He. subst x. exists d. auto.
    + intros (d' & [= <-] & Hin). exists (toLowerCase d).
      split; [exact Hin | apply String.eqb_refl].
  - split; [discriminate | intros (d & H & _); discriminate H].
Qed.

(** C9: when the domain of the submitted email (the text after the '@',
    lower-cased) is not in the list of allowed domains, which includes the
    case of an email without '@', the handler issues neither signIn nor
    signUp, whether it is in login or sign-up mode. *)
Theorem foreign_email_sends_no_request
        (toast_bound isLogin auth_rejects : bool) (formData : AuthForm.FormData) :
  (forall d, domain_part (AuthForm.email formData) = Some d ->
             ~ In (toLowerCase d) AuthForm.ALLOWED_DOMAINS) ->
  existsb AuthForm.is_auth_request
    (fst (AuthForm.handleSubmit toast_bound isLogin auth_rejects formData)) = false.
Proof.
  intros Hforeign. unfold AuthForm.handleSubmit.
  destruct (AuthForm.isOrganizationEmail (AuthForm.email formData)) eqn:E.
  - apply isOrganizationEmail_spec in E as (d & Hd & Hin).
    exfalso. exact (Hforeign d Hd Hin).
  - cbn [negb]. destruct toast_bound; reflexivity.
Qed.

Lemma foreign_email_sends_no_request_witness :
  existsb AuthForm.is_auth_request
    (fst (AuthForm.handleSubmit true false false
            (AuthForm.mk "eve@Evil.example" "secret" "Eve" "super_admin"))) = false.
Proof.
  apply (foreign_email_sends_no_request true false false
           (AuthForm.mk "eve@Evil.example" "secret" "Eve" "super_admin")).
  intros d Hd. vm_compute in Hd. injection Hd as <-.
  vm_compute. intros [H|[H|[]]]; discriminate H.
Defined.

(** An allowed domain does reach the authentication call, so the guard is
    what stops the others. *)
Lemma organization_email_sends_request :
  fst (AuthForm.handleSubmit true true false
         (AuthForm.mk "Sam@YourCompany.com" "secret" "Sam" "client"))
  = [AuthForm.PreventDefault; AuthForm.SetLoading true;
     AuthForm.SignIn "Sam@YourCompany.com" "secret"; AuthForm.SetLoading false].
Proof. reflexivity. Qed.

(** ** The booking form *)

Lemma status_of_text_text s : status_of_text (status_text s) = Some s.
Proof. destruct s; reflexivity. Qed.

Lemma stored_inserted data : Dml.stored (BookingForm.inserted data) = Dml.Done (BookingForm.inserted data).
Proof.
  unfold BookingForm.inserted, BookingForm.entries.
  destruct (BookingForm.special_requests data); reflexivity.
Qed.

Lemma bookings_row_inserted g now data :
  Dml.bookings_row (Dml.overlay (BookingForm.inserted data) (Dml.bookings_defaults g now))
  = Dml.Done (submitted_row g now data).
Proof.
  unfold BookingForm.inserted, BookingForm.entries, submitted_row.
  destruct data as [n e ph d t f p sr]. cbn [BookingForm.special_requests
    BookingForm.client_name BookingForm.email BookingForm.phone_number
    BookingForm.event_date BookingForm.time_slot BookingForm.facility BookingForm.package].
  destruct sr; reflexivity.
Qed.

Lemma known_inserted data : Dml.known_columns (BookingForm.inserted data) = Dml.Done tt.
Proof.
  unfold BookingForm.inserted, BookingForm.entries.
  destruct (BookingForm.special_requests data); reflexivity.
Qed.

Lemma dated_inserted data :
  Dml.dated (BookingForm.inserted data)
  = match calendar_date (BookingForm.event_date data) with
    | Some true => Dml.Done tt
    | Some false => Dml.Raise (Dml.DatetimeFieldOverflow "event_date")
    | None => Dml.Raise (Dml.InvalidInput "event_date")
    end.
Proof.
  unfold BookingForm.inserted, BookingForm.entries.
  destruct (BookingForm.special_requests data); reflexivity.
Qed.

(** What the insert of the form's request comes to: row security on the
    new values, the date, the key. *)
Lemma insert_inserted cat db who g now data :
  Dml.insert_booking cat db who g now (BookingForm.inserted data)
  = Dml.bind
      (Dml.of_policy "bookings"
         (Rls.accepts cat db who "bookings" Ddl.CmdInsert
            (Dml.overlay (BookingForm.inserted data) (Dml.bookings_defaults g now))))
      (fun ok =>
         Dml.bind (Dml.guard ok (Dml.RlsViolation "bookings")) (fun _ =>
         Dml.bind (Dml.dated (BookingForm.inserted data)) (fun _ =>
         Dml.bind (Dml.guard (negb (Dml.has_booking_id db g))
                     (Dml.UniqueViolation "bookings_pkey")) (fun _ =>
         Dml.Done (Dml.set_bookings db (db_bookings db ++ [submitted_row g now data])))))).
Proof.
  unfold Dml.insert_booking. rewrite known_inserted, stored_inserted. cbn [Dml.bind].
  destruct (Dml.of_policy "bookings" _) as [ok|]; [|reflexivity]. cbn [Dml.bind].
  destruct (Dml.guard ok _); [|reflexivity]. cbn [Dml.bind].
  destruct (Dml.dated _); [|reflexivity]. cbn [Dml.bind].
  rewrite bookings_row_inserted. cbn [Dml.bind].
  change (bookings.id (submitted_row g now data)) with g.
  destruct (Dml.guard (negb (Dml.has_booking_id db g)) _); reflexivity.
Qed.

(** C8: the request of the booking form carries status 'inquiry' and both
    receipt flags false, and no client_id and no assigned_admin_id key.  A
    submission either is refused, and then the form reports the failure
    and the database is as before; or it is accepted, and then the form
    reports success and the table has grown by exactly one row, which
    holds the fields of the form, status inquiry, both flags false and
    NULL for client_id, assigned_admin_id and total_spend: the row does
    not refer to the submitting account.  After the migration the
    submission of a signed-in user is accepted whenever the event date is
    a date of the calendar and the generated id is new. *)
Theorem submission_is_an_unowned_inquiry
        (cat : Ddl.catalog) (db : database) (who : Rls.caller)
        (gen_random_uuid : uuid) (now : timestamptz)
        (data : BookingForm.BookingFormData) :
  let request := BookingForm.inserted data in
  let out := BookingForm.onSubmit cat db who gen_random_uuid now data in
  let refused := [BookingForm.SetIsSubmitting true;
                  BookingForm.ConsoleError "Error submitting booking:";
                  BookingForm.ToastError "Failed to submit booking inquiry";
                  BookingForm.SetIsSubmitting false] in
  let accepted := [BookingForm.SetIsSubmitting true;
                   BookingForm.ToastSuccess "Booking inquiry submitted successfully!";
                   BookingForm.ResetForm;
                   BookingForm.SetIsSubmitting false] in
  Dml.lookup "status" request = Some (Sql.VText "inquiry")
  /\ Dml.lookup "receipts_uploaded" request = Some (Sql.VBool false)
  /\ Dml.lookup "receipts_approved" request = Some (Sql.VBool false)
  /\ Dml.lookup "client_id" request = None
  /\ Dml.lookup "assigned_admin_id" request = None
  /\ ((snd out = refused /\ fst out = db)
      \/ (snd out = accepted
          /\ db_profiles (fst out) = db_profiles db
          /\ db_notifications (fst out) = db_notifications db
          /\ exists r,
               db_bookings (fst out) = db_bookings db ++ [r]
               /\ bookings.id r = gen_random_uuid
               /\ bookings.client_name r = BookingForm.client_name data
               /\ bookings.email r = BookingForm.email data
               /\ bookings.phone_number r = BookingForm.phone_number data
               /\ bookings.event_date r = BookingForm.event_date data
               /\ bookings.time_slot r = BookingForm.time_slot data
               /\ bookings.facility r = BookingForm.facility data
               /\ bookings.package r = BookingForm.package data
               /\ bookings.special_requests r = BookingForm.special_requests data
               /\ bookings.status_ r = inquiry
               /\ bookings.receipts_uploaded r = Some false
               /\ bookings.receipts_approved r = Some false
               /\ bookings.client_id r = None
               /\ bookings.assigned_admin_id r = None
               /\ bookings.total_spend r = None))
  /\ (forall uid,
        calendar_date (BookingForm.event_date data) = Some true ->
        Dml.has_booking_id db gen_random_uuid = false ->
        snd (BookingForm.onSubmit Ddl.migrated db (Rls.Authenticated uid)
               gen_random_uuid now data) = accepted).
Proof.
  cbv zeta.
  assert (Hreq : forall k,
             In k ["status"; "receipts_uploaded"; "receipts_approved"; "client_id";
                   "assigned_admin_id"] ->
             Dml.lookup k (BookingForm.inserted data)
             = Dml.lookup k [("status", Sql.VText "inquiry");
                             ("receipts_uploaded", Sql.VBool false);
                             ("receipts_approved", Sql.VBool false)]).
  { intros k Hk. unfold BookingForm.inserted, BookingForm.entries.
    destruct (BookingForm.special_requests data);
      simpl in Hk; destruct Hk as [<-|[<-|[<-|[<-|[<-|[]]]]]]; reflexivity. }
  repeat (split; [rewrite Hreq by (simpl; auto 6); reflexivity|]).
  split.
  - unfold BookingForm.onSubmit. rewrite insert_inserted.
    destruct (Dml.of_policy "bookings" _) as [[|]|]; cbn [Dml.bind Dml.guard fst snd];
      [|left; split; reflexivity | left; split; reflexivity].
    destruct (Dml.dated _); cbn [Dml.bind fst snd]; [|left; split; reflexivity].
    destruct (negb (Dml.has_booking_id db gen_random_uuid));
      cbn [Dml.bind Dml.guard fst snd]; [|left; split; reflexivity].
    right. split; [reflexivity|]. split; [reflexivity|]. split; [reflexivity|].
    exists (submitted_row gen_random_uuid now data). repeat split.
  - intros uid Hdate Hnew. unfold BookingForm.onSubmit. rewrite insert_inserted.
    rewrite bookings_insert_accepts. cbn [Dml.of_policy Dml.bind Dml.guard].
    rewrite dated_inserted, Hdate, Hnew. reflexivity.
Qed.

Lemma submission_is_an_unowned_inquiry_witness :
  snd (BookingForm.onSubmit Ddl.migrated Examples.office
         (Rls.Authenticated 3) 21 5 Examples.form)
  = [BookingForm.SetIsSubmitting true;
     BookingForm.ToastSuccess "Booking inquiry submitted successfully!";
     BookingForm.ResetForm;
     BookingForm.SetIsSubmitting false].
Proof.
  apply (proj2 (proj2 (proj2 (proj2 (proj2 (proj2
           (submission_is_an_unowned_inquiry Ddl.migrated Examples.office
              (Rls.Authenticated 3) 21 5 Examples.form))))))); reflexivity.
Defined.

(** A date that the calendar does not have is refused, whoever submits
    it. *)
Lemma submission_of_no_date :
  BookingForm.onSubmit Ddl.migrated Examples.office (Rls.Authenticated 3) 21 5
    (BookingForm.mk "Ann" "ann@example.org" "0123456789" "2025-02-30"
       "9:00 AM - 12:00 PM" "Banquet Room" "Basic Package - $500" None)
  = (Examples.office,
     [BookingForm.SetIsSubmitting true;
      BookingForm.ConsoleError "Error submitting booking:";
      BookingForm.ToastError "Failed to submit booking inquiry";
      BookingForm.SetIsSubmitting false]).
Proof. vm_compute. reflexivity. Qed.

(** ** Updates of bookings *)

Lemma Forall2_same {A} (R : A -> A -> Prop) (l : list A) :
  (forall x, R x x) -> Forall2 R l l.
Proof. intros H. induction l; constructor; auto. Qed.

Section UpdateFacts.
Variable cat : Ddl.catalog.
Variable db : database.
Variable who : Rls.caller.
Variable cond : bookings.row -> bool.
Variable o : Dml.payload.
Variable f : bookings.row -> bookings.row.

Hypothesis rewritten :
  forall o' r, Dml.stored o = Dml.Done o' ->
               Dml.bookings_row (Dml.overlay o' (bookings.col r)) = Dml.Done (f r).

(** A row comes out of the update as it was, or rewritten when the
    condition selects it. *)
Lemma update_row_cases r r' :
  Dml.update_row cat db who cond o r = Dml.Done r' ->
  r' = r \/ (cond r = true /\ r' = f r).
Proof.
  unfold Dml.update_row. destruct (cond r); [|intros [= <-]; auto].
  destruct (Dml.of_policy "bookings" (Rls.permits cat db who "bookings" Ddl.CmdSelect _))
    as [can_read|]; [|discriminate].
  cbn [Dml.bind].
  destruct (Dml.of_policy "bookings" (Rls.permits cat db who "bookings" Ddl.CmdUpdate _))
    as [can_write|]; [|discriminate].
  cbn [Dml.bind].
  destruct (can_read && can_write); [|intros [= <-]; auto].
  destruct (Dml.stored o) as [o'|] eqn:Ho; [|discriminate]. cbn [Dml.bind].
  destruct (Dml.of_policy "bookings" _) as [[|]|]; cbn [Dml.bind Dml.guard];
    try discriminate.
  destruct (Dml.dated o'); [|discriminate]. cbn [Dml.bind].
  rewrite (rewritten o' r eq_refl). cbn [Dml.bind].
  repeat match goal with
         | |- context [Dml.guard ?c ?e] =>
             destruct c; cbn [Dml.bind Dml.guard]; try discriminate
         end.
  intros [= <-]. auto.
Qed.

Lemma update_rows_cases rows rows' :
  Dml.update_rows cat db who cond o rows = Dml.Done rows' ->
  Forall2 (fun r r' => r' = r \/ (cond r = true /\ r' = f r)) rows rows'.
Proof.
  revert rows'. induction rows as [|r rows IH]; intros rows'; cbn [Dml.update_rows].
  - intros [= <-]. constructor.
  - destruct (Dml.update_row cat db who cond o r) as [r1|] eqn:E1; [|discriminate].
    cbn [Dml.bind].
    destruct (Dml.update_rows cat db who cond o rows) as [rest|]; [|discriminate].
    cbn [Dml.bind]. intros [= <-]. constructor.
    + apply update_row_cases. exact E1.
    + apply IH. reflexivity.
Qed.

End UpdateFacts.

Lemma has_id_iff (bookingId : uuid) (b : bookings.row) :
  AdminDashboard.has_id bookingId b = true <-> bookings.id b = bookingId.
Proof.
  unfold AdminDashboard.has_id.
  change (bookings.col b "id") with (Sql.VUuid (bookings.id b)). cbn.
  destruct (N.eqb (bookings.id b) bookingId) eqn:E.
  - apply N.eqb_eq in E. split; auto.
  - apply N.eqb_neq in E. split; [discriminate | contradiction].
Qed.

Lemma has_id_eqb (bookingId : uuid) (b : bookings.row) :
  AdminDashboard.has_id bookingId b = N.eqb (bookings.id b) bookingId.
Proof.
  unfold AdminDashboard.has_id.
  change (bookings.col b "id") with (Sql.VUuid (bookings.id b)).
  cbn. destruct (N.eqb (bookings.id b) bookingId); reflexivity.
Qed.

Lemma upload_rewrites (spend : option Q) (now : timestamptz) (r : bookings.row) :
  Dml.bookings_row
    (Dml.overlay [("receipts_uploaded", Sql.VBool true);
                  ("total_spend", Sql.of_option Sql.VNum spend);
                  ("updated_at", Sql.VTime now)] (bookings.col r))
  = Dml.Done (with_receipts r spend now).
Proof.
  destruct r as [i ci cn e ph d t fa p sr st aa ts ru ra ca ua].
  destruct st, spend, ci, sr, aa, ra, ca; reflexivity.
Qed.

Lemma upload_stored (totalSpend : types.number) (now : timestamptz) :
  Dml.stored [("receipts_uploaded", Sql.VBool true);
              ("total_spend", types.json_number totalSpend);
              ("updated_at", Sql.VTime now)]
  = match totalSpend with
    | types.Finite q =>
        if Qle_bool (100000000 # 1) (Qabs (round_numeric q 2))
        then Dml.Raise (Dml.NumericOverflow "total_spend")
        else Dml.Done [("receipts_uploaded", Sql.VBool true);
                       ("total_spend", Sql.of_option Sql.VNum (stored_spend totalSpend));
                       ("updated_at", Sql.VTime now)]
    | types.NotFinite =>
        Dml.Done [("receipts_uploaded", Sql.VBool true);
                  ("total_spend", Sql.of_option Sql.VNum (stored_spend totalSpend));
                  ("updated_at", Sql.VTime now)]
    end.
Proof.
  destruct totalSpend as [q|]; [|reflexivity].
  cbn [Dml.stored types.json_number Dml.bind Dml.guard existsb Dml.bookings_columns].
  change (existsb (String.eqb "receipts_uploaded") Dml.bookings_columns) with true.
  change (existsb (String.eqb "total_spend") Dml.bookings_columns) with true.
  change (existsb (String.eqb "updated_at") Dml.bookings_columns) with true.
  cbn [Dml.guard Dml.bind]. 
  change ("receipts_uploaded" =? "total_spend") with false.
  change ("total_spend" =? "total_spend") with true.
  change ("updated_at" =? "total_spend") with false.
  cbn iota. unfold Dml.decimal_10_2.
  destruct (Qle_bool (100000000 # 1) (Qabs (round_numeric q 2))); reflexivity.
Qed.

Lemma Done_inj {A} (a b : A) : Dml.Done a = Dml.Done b -> a = b.
Proof. intros H. injection H as H. exact H. Qed.

Lemma update_bookings_cases cat db who cond o db' :
  Dml.update_bookings cat db who cond o = Dml.Done db' ->
  exists rows,
    Dml.update_rows cat db who cond o (db_bookings db) = Dml.Done rows
    /\ db' = Dml.set_bookings db rows.
Proof.
  unfold Dml.update_bookings.
  destruct (Dml.known_columns o); [|discriminate]. cbn [Dml.bind].
  destruct (Dml.update_rows cat db who cond o (db_bookings db)) as [rows|] eqn:Hrows;
    [|discriminate]. cbn [Dml.bind].
  intros H. apply Done_inj in H. exists rows. subst db'. auto.
Qed.

Lemma upload_rewritten (totalSpend : types.number) (now : timestamptz) o' r :
  Dml.stored [("receipts_uploaded", Sql.VBool true);
              ("total_spend", types.json_number totalSpend);
              ("updated_at", Sql.VTime now)] = Dml.Done o' ->
  Dml.bookings_row (Dml.overlay o' (bookings.col r))
  = Dml.Done (with_receipts r (stored_spend totalSpend) now).
Proof.
  rewrite upload_stored. intros Ho.
  assert (o' = [("receipts_uploaded", Sql.VBool true);
                ("total_spend", Sql.of_option Sql.VNum (stored_spend totalSpend));
                ("updated_at", Sql.VTime now)]) as ->.
  { destruct totalSpend as [q|].
    - destruct (Qle_bool (100000000 # 1) (Qabs (round_numeric q 2))); [discriminate Ho|].
      apply Done_inj in Ho. symmetry. exact Ho.
    - apply Done_inj in Ho. symmetry. exact Ho. }
  apply upload_rewrites.
Qed.

(** The rows after a receipts upload that succeeded. *)
Lemma uploadReceipts_cases cat db user bookingId totalSpend now db' :
  AdminDashboard.uploadReceipts cat db user bookingId totalSpend now = Dml.Done db' ->
  db_profiles db' = db_profiles db
  /\ db_notifications db' = db_notifications db
  /\ Forall2 (fun r r' =>
                r' = r \/ (bookings.id r = bookingId
                           /\ r' = with_receipts r (stored_spend totalSpend) now))
             (db_bookings db) (db_bookings db').
Proof.
  intros H. apply update_bookings_cases in H as (rows & Hrows & ->).
  split; [reflexivity|]. split; [reflexivity|].
  cbn [Dml.set_bookings db_bookings].
  apply (update_rows_cases _ _ _ _ _
           (fun r => with_receipts r (stored_spend totalSpend) now)
           (fun o' r => upload_rewritten totalSpend now o' r)) in Hrows.
  eapply Forall2_impl; [|exact Hrows].
  intros r r' [->|[Hid ->]]; [left; reflexivity|].
  right. split; [apply has_id_iff; exact Hid | reflexivity].
Qed.



(** The row formed from column values has the assigned admin they
    give. *)
Lemma bookings_row_assigned get r :
  Dml.bookings_row get = Dml.Done r ->
  get "assigned_admin_id" = Sql.of_option Sql.VUuid (bookings.assigned_admin_id r).
Proof.
  unfold Dml.bookings_row. intros H.
  repeat match type of H with
         | Dml.bind ?a _ = Dml.Done _ =>
             let E := fresh "E" in
             destruct a eqn:E; [cbn [Dml.bind] in H | discriminate H]
         end.
  apply Done_inj in H. subst r. cbn [bookings.assigned_admin_id].
  match goal with
  | E : Dml.as_uuid "assigned_admin_id" _ = Dml.Done _ |- _ =>
      destruct (get "assigned_admin_id"); cbn in E; try discriminate E;
        apply Done_inj in E; subst; reflexivity
  end.
Qed.

(** On the migrated catalog an update rewrites exactly the rows that the
    condition selects and that the caller may read and update, provided the
    rewriting keeps the id and the two references. *)
Section MigratedUpdates.
Variable db : database.
Variable uid : uuid.
Variable cond : bookings.row -> bool.
Variable o o' : Dml.payload.
Variable f : bookings.row -> bookings.row.

Hypothesis converted : Dml.stored o = Dml.Done o'.
Hypothesis undated : Dml.dated o' = Dml.Done tt.
Hypothesis rewritten :
  forall r, Dml.bookings_row (Dml.overlay o' (bookings.col r)) = Dml.Done (f r).
Hypothesis keeps_id : forall r, bookings.id (f r) = bookings.id r.
Hypothesis keeps_owner : forall r, bookings.client_id (f r) = bookings.client_id r.
Hypothesis keeps_admin :
  forall r, bookings.assigned_admin_id (f r) = bookings.assigned_admin_id r.

Lemma option_uuid_eqb_refl a : Dml.option_uuid_eqb a a = true.
Proof. destruct a; simpl; [apply N.eqb_refl | reflexivity]. Qed.

Lemma update_row_migrated r :
  Dml.update_row Ddl.migrated db (Rls.Authenticated uid) cond o r
  = Dml.Done (if cond r
                 && (owns uid r || caller_role_in db uid ["admin"; "super_admin"])
                 && (is_assigned uid r || caller_role_in db uid ["super_admin"])
              then f r else r).
Proof.
  unfold Dml.update_row. destruct (cond r); [|reflexivity].
  rewrite bookings_select_value, bookings_update_value. cbn [Dml.of_policy Dml.bind andb].
  destruct (owns uid r || caller_role_in db uid ["admin"; "super_admin"]);
    [|reflexivity].
  destruct (is_assigned uid r || caller_role_in db uid ["super_admin"]) eqn:Ew;
    [|reflexivity].
  cbn [andb]. rewrite converted. cbn [Dml.bind].
  rewrite bookings_update_check, (bookings_row_assigned _ _ (rewritten r)), keeps_admin.
  replace (Sql.holds (Sql.eq (Sql.of_option Sql.VUuid (bookings.assigned_admin_id r))
                             (Sql.VUuid uid)))
    with (is_assigned uid r)
    by (unfold is_assigned; destruct (bookings.assigned_admin_id r) as [a|];
        [cbn; destruct (N.eqb a uid)|]; reflexivity).
  rewrite Ew. cbn [Dml.of_policy Dml.bind Dml.guard].
  rewrite undated. cbn [Dml.bind]. rewrite rewritten. cbn [Dml.bind].
  rewrite keeps_id, N.eqb_refl. cbn [orb Dml.bind Dml.guard].
  rewrite keeps_owner, option_uuid_eqb_refl. cbn [orb Dml.bind Dml.guard].
  rewrite keeps_admin, option_uuid_eqb_refl. reflexivity.
Qed.

Lemma update_rows_migrated rows :
  Dml.update_rows Ddl.migrated db (Rls.Authenticated uid) cond o rows
  = Dml.Done
      (map (fun r =>
              if cond r
                 && (owns uid r || caller_role_in db uid ["admin"; "super_admin"])
                 && (is_assigned uid r || caller_role_in db uid ["super_admin"])
              then f r else r) rows).
Proof.
  induction rows as [|r rows IH]; [reflexivity|].
  cbn [Dml.update_rows map]. rewrite update_row_migrated, IH. reflexivity.
Qed.

End MigratedUpdates.

(** On the migrated catalog, with an amount the column can hold, the
    receipts upload rewrites the bookings of the given id that the caller
    may read and update, and only those. *)
Lemma uploadReceipts_writes (db : database) (user : types.User) (bookingId : uuid)
      (totalSpend : types.number) (now : timestamptz) :
  match totalSpend with
  | types.Finite q => Qle_bool (100000000 # 1) (Qabs (round_numeric q 2)) = false
  | types.NotFinite => True
  end ->
  AdminDashboard.uploadReceipts Ddl.migrated db user bookingId totalSpend now
  = Dml.Done
      (Dml.set_bookings db
         (map (fun r =>
                 if N.eqb (bookings.id r) bookingId
                    && (owns (types.id user) r
                        || caller_role_in db (types.id user) ["admin"; "super_admin"])
                    && (is_assigned (types.id user) r
                        || caller_role_in db (types.id user) ["super_admin"])
                 then with_receipts r (stored_spend totalSpend) now else r)
              (db_bookings db))).
Proof.
  intros Hfits.
  unfold AdminDashboard.uploadReceipts, Dml.update_bookings, AdminDashboard.session_of.
  replace (Dml.known_columns [("receipts_uploaded", Sql.VBool true);
                              ("total_spend", types.json_number totalSpend);
                              ("updated_at", Sql.VTime now)])
    with (Dml.Done tt) by reflexivity.
  cbn [Dml.bind].
  rewrite (update_rows_migrated db (types.id user) (AdminDashboard.has_id bookingId) _
             [("receipts_uploaded", Sql.VBool true);
              ("total_spend", Sql.of_option Sql.VNum (stored_spend totalSpend));
              ("updated_at", Sql.VTime now)]
             (fun r => with_receipts r (stored_spend totalSpend) now)).
  - cbn [Dml.bind]. do 2 f_equal. apply map_ext. intros r.
    rewrite has_id_eqb. reflexivity.
  - rewrite upload_stored. destruct totalSpend as [q|]; [rewrite Hfits|]; reflexivity.
  - reflexivity.
  - apply upload_rewrites.
  - reflexivity.
  - reflexivity.
  - reflexivity.
Qed.

(** An amount with at most two decimals below 10^8 is stored as it is. *)
Lemma stored_spend_cents (cents : Z) :
  exists q, stored_spend (types.Finite (inject_Z cents / inject_Z 100)) = Some q
            /\ (q == inject_Z cents / inject_Z 100)%Q.
Proof.
  eexists. split; [reflexivity|].
  destruct (round_numeric_nearest (inject_Z cents / inject_Z 100) 2) as (n & -> & Hn).
  change (10 ^ Z.of_nat 2)%Z with 100%Z in *.
  assert (Hq : (inject_Z cents / inject_Z 100 * inject_Z 100 == inject_Z cents)%Q)
    by (field; discriminate).
  rewrite Hq in Hn.
  rewrite Qabs_Qle_condition in Hn. destruct Hn as [Hlo Hhi].
  assert (cents - n = 0)%Z.
  { unfold Qle, Qminus, Qplus, Qopp, inject_Z in Hlo, Hhi. simpl in Hlo, Hhi. lia. }
  replace n with cents by lia. reflexivity.
Qed.

(** ** The lifecycle of a booking *)

Lemma status_rewrites (s : status) (now : timestamptz) (r : bookings.row) :
  Dml.bookings_row
    (Dml.overlay [("status", Sql.VText (status_text s)); ("updated_at", Sql.VTime now)]
                 (bookings.col r))
  = Dml.Done (with_status r s now).
Proof.
  destruct r as [i ci cn e ph d t fa p sr st aa ts ru ra ca ua].
  destruct s, ci, sr, aa, ts, ru, ra, ca; reflexivity.
Qed.

Lemma admin_rewrites (a : uuid) (now : timestamptz) (r : bookings.row) :
  Dml.bookings_row
    (Dml.overlay [("assigned_admin_id", Sql.VUuid a); ("updated_at", Sql.VTime now)]
                 (bookings.col r))
  = Dml.Done (with_admin r a now).
Proof.
  destruct r as [i ci cn e ph d t fa p sr st aa ts ru ra ca ua].
  destruct st, ci, sr, ts, ru, ra, ca; reflexivity.
Qed.

(** The rows after a request of [updateBookingStatus] that succeeded. *)
Lemma status_rewritten (s : status) (now : timestamptz) o' r :
  Dml.stored [("status", Sql.VText (status_text s)); ("updated_at", Sql.VTime now)]
  = Dml.Done o' ->
  Dml.bookings_row (Dml.overlay o' (bookings.col r)) = Dml.Done (with_status r s now).
Proof.
  intros H. apply Done_inj in H. subst o'. apply status_rewrites.
Qed.

Lemma admin_rewritten (a : uuid) (now : timestamptz) o' r :
  Dml.stored [("assigned_admin_id", Sql.VUuid a); ("updated_at", Sql.VTime now)]
  = Dml.Done o' ->
  Dml.bookings_row (Dml.overlay o' (bookings.col r)) = Dml.Done (with_admin r a now).
Proof.
  intros H. apply Done_inj in H. subst o'. apply admin_rewrites.
Qed.

Lemma updateBookingStatus_cases cat db user bookingId n now db' :
  AdminDashboard.updateBookingStatus cat db user bookingId n now = Dml.Done db' ->
  db_profiles db' = db_profiles db
  /\ db_notifications db' = db_notifications db
  /\ Forall2 (fun r r' =>
                r' = r \/ (bookings.id r = bookingId
                           /\ r' = with_status r (AdminDashboard.status_of n) now))
             (db_bookings db) (db_bookings db').
Proof.
  intros H. apply update_bookings_cases in H as (rows & Hrows & ->).
  split; [reflexivity|]. split; [reflexivity|].
  apply (update_rows_cases _ _ _ _ _ (fun r => with_status r (AdminDashboard.status_of n) now)
           (status_rewritten (AdminDashboard.status_of n) now)) in Hrows.
  cbn [Dml.set_bookings db_bookings].
  eapply Forall2_impl; [|exact Hrows].
  intros r r' [->|[Hid ->]]; [left; reflexivity|].
  right. split; [apply has_id_iff; exact Hid | reflexivity].
Qed.

Lemma assignInquiry_cases cat db user inquiryId adminId now db' :
  SuperAdminDashboard.assignInquiry cat db user inquiryId adminId now = Dml.Done db' ->
  db_profiles db' = db_profiles db
  /\ db_notifications db' = db_notifications db
  /\ Forall2 (fun r r' => r' = r \/ r' = with_admin r adminId now)
             (db_bookings db) (db_bookings db').
Proof.
  intros H. apply update_bookings_cases in H as (rows & Hrows & ->).
  split; [reflexivity|]. split; [reflexivity|].
  apply (update_rows_cases _ _ _ _ _ (fun r => with_admin r adminId now)
           (admin_rewritten adminId now)) in Hrows.
  cbn [Dml.set_bookings db_bookings].
  eapply Forall2_impl; [|exact Hrows].
  intros r r' [->|[_ ->]]; [left|right]; reflexivity.
Qed.

Lemma updateBookingStatus_rows cat db user bookingId n now db' :
  AdminDashboard.updateBookingStatus cat db user bookingId n now = Dml.Done db' ->
  db_profiles db' = db_profiles db
  /\ Forall2 (fun r r' =>
                r' = r \/ (bookings.id r = bookingId
                           /\ r' = with_status r (AdminDashboard.status_of n) now))
             (db_bookings db) (db_bookings db').
Proof.
  intros H. apply updateBookingStatus_cases in H as (Hp & _ & Hrows). auto.
Qed.

(** The rows after a receipts upload or an assignment that succeeded keep
    their ids and statuses. *)
Lemma uploadReceipts_rows cat db user bookingId totalSpend now db' :
  AdminDashboard.uploadReceipts cat db user bookingId totalSpend now = Dml.Done db' ->
  Forall2 (fun r r' => bookings.id r' = bookings.id r
                       /\ bookings.status_ r' = bookings.status_ r)
          (db_bookings db) (db_bookings db').
Proof.
  intros H. apply uploadReceipts_cases in H as (_ & _ & Hrows).
  eapply Forall2_impl; [|exact Hrows].
  intros r r' [->|[_ ->]]; split; reflexivity.
Qed.

Lemma assignInquiry_rows cat db user inquiryId adminId now db' :
  SuperAdminDashboard.assignInquiry cat db user inquiryId adminId now = Dml.Done db' ->
  Forall2 (fun r r' => bookings.id r' = bookings.id r
                       /\ bookings.status_ r' = bookings.status_ r)
          (db_bookings db) (db_bookings db').
Proof.
  intros H. apply assignInquiry_cases in H as (_ & _ & Hrows).
  eapply Forall2_impl; [|exact Hrows].
  intros r r' [-> | ->]; split; reflexivity.
Qed.

(** A submission appends the expected row, under an id that is new, or
    changes nothing. *)
Lemma onSubmit_rows cat db who g now data :
  let db' := fst (BookingForm.onSubmit cat db who g now data) in
  db' = db
  \/ (Dml.has_booking_id db g = false
      /\ db' = Dml.set_bookings db (db_bookings db ++ [submitted_row g now data])).
Proof.
  cbv zeta. unfold BookingForm.onSubmit. rewrite insert_inserted.
  destruct (Dml.of_policy "bookings" _) as [[|]|]; cbn [Dml.bind Dml.guard fst]; auto.
  destruct (Dml.dated _); cbn [Dml.bind fst]; auto.
  destruct (Dml.has_booking_id db g); cbn [negb Dml.bind Dml.guard fst]; auto.
Qed.

(** The rows that a query of bookings returns are rows of the table. *)
Lemma readable_subset cat db who rows rows' :
  Dml.readable cat db who rows = Dml.Done rows' -> forall v, In v rows' -> In v rows.
Proof.
  revert rows'. induction rows as [|r rows IH]; intros rows'; cbn [Dml.readable].
  - intros [= <-] v [].
  - destruct (Dml.of_policy "bookings" _) as [ok|]; [|discriminate]. cbn [Dml.bind].
    destruct (Dml.readable cat db who rows) as [rest|]; [|discriminate]. cbn [Dml.bind].
    intros [= <-] v Hv. destruct ok.
    + destruct Hv as [<-|Hv]; [left; reflexivity | right; apply (IH rest eq_refl); exact Hv].
    + right. apply (IH rest eq_refl). exact Hv.
Qed.

Lemma insert_by_In r l v :
  In v (AdminDashboard.insert_by r l) <-> v = r \/ In v l.
Proof.
  induction l as [|h t IH]; cbn [AdminDashboard.insert_by].
  - simpl. intuition.
  - destruct (AdminDashboard.newer_first r h); simpl in *; intuition.
Qed.

Lemma order_created_desc_In l v :
  In v (AdminDashboard.order_created_desc l) <-> In v l.
Proof.
  unfold AdminDashboard.order_created_desc.
  induction l as [|h t IH]; cbn [fold_right]; [reflexivity|].
  rewrite insert_by_In, IH. simpl. intuition.
Qed.

Lemma fetchBookings_subset cat db user tab data :
  AdminDashboard.fetchBookings_query cat db user tab = Dml.Done data ->
  forall v, In v data -> In v (db_bookings db).
Proof.
  unfold AdminDashboard.fetchBookings_query, Dml.select_bookings.
  destruct (Dml.readable _ _ _ _) as [rows|] eqn:E; [|discriminate].
  cbn [Dml.bind]. intros [= <-] v Hv.
  apply (proj1 (order_created_desc_In _ _)) in Hv. apply filter_In in Hv as [Hv _].
  eapply readable_subset; eauto.
Qed.

Lemma status_eqb_eq a b : status_eqb a b = true <-> a = b.
Proof. destruct a, b; simpl; split; intros H; try reflexivity; discriminate H. Qed.

Lemma role_eqb_eq a b : role_eqb a b = true <-> a = b.
Proof. destruct a, b; simpl; split; intros H; try reflexivity; discriminate H. Qed.

Lemma on_session_db i f w :
  App.db (App.on_session i f w)
  = match nth_error (App.sessions w) i with
    | Some s => fst (f s)
    | None => App.db w
    end.
Proof.
  unfold App.on_session. destruct (nth_error (App.sessions w) i) as [s|]; [|reflexivity].
  destruct (f s); reflexivity.
Qed.

Lemma on_session_sessions i f w :
  App.sessions (App.on_session i f w)
  = match nth_error (App.sessions w) i with
    | Some s => App.replace i (snd (f s)) (App.sessions w)
    | None => App.sessions w
    end.
Proof.
  unfold App.on_session. destruct (nth_error (App.sessions w) i) as [s|]; [|reflexivity].
  destruct (f s); reflexivity.
Qed.

(** A click leaves the session as it is or sends one update, for a listed
    booking whose button is shown. *)
Lemma click_sends s k shown u :
  App.click s k shown u = s
  \/ exists b,
       nth_error (AdminDashboard.bookings_ (App.admin_ s)) k = Some b
       /\ shown (App.user s) (App.admin_ s) b = true
       /\ App.click s k shown u
          = App.mk (App.user s) (AdminDashboard.send (u b) (App.admin_ s)) (App.super_ s).
Proof.
  unfold App.click.
  destruct (nth_error (AdminDashboard.bookings_ (App.admin_ s)) k) as [b|]; [|left; reflexivity].
  destruct (shown (App.user s) (App.admin_ s) b) eqn:Es; [|left; reflexivity].
  right. exists b. auto.
Qed.

(** The server changes the table only by a request that has not been run
    yet and that succeeds. *)
Lemma update_serve_db cat db user k s :
  fst (AdminDashboard.update_serve cat db user k s) = db
  \/ exists u db',
       nth_error (AdminDashboard.updates s) k = Some (u, None)
       /\ AdminDashboard.request cat db user u = Dml.Done db'
       /\ fst (AdminDashboard.update_serve cat db user k s) = db'.
Proof.
  unfold AdminDashboard.update_serve.
  destruct (nth_error (AdminDashboard.updates s) k) as [[u [e|]]|]; try (left; reflexivity).
  cbv zeta.
  destruct (AdminDashboard.request cat db user u) as [db'|e] eqn:Er; [|left; reflexivity].
  right. exists u, db'. auto.
Qed.

Lemma set_nth_last {A} (l : list A) (x y : A) :
  AdminDashboard.set_nth (List.length l) y (l ++ [x]) = l ++ [y].
Proof. induction l as [|h t IH]; cbn; [reflexivity | rewrite IH; reflexivity]. Qed.

Lemma remove_nth_last {A} (l : list A) (x : A) :
  AdminDashboard.remove_nth (List.length l) (l ++ [x]) = l.
Proof. induction l as [|h t IH]; cbn; [reflexivity | rewrite IH; reflexivity]. Qed.

Lemma nth_error_last {A} (l : list A) (x : A) :
  nth_error (l ++ [x]) (List.length l) = Some x.
Proof. induction l as [|h t IH]; cbn; [reflexivity | exact IH]. Qed.

(** When nothing comes between, sending an update, the server running it
    and the arrival of its response do what [after_request] says. *)
Lemma update_uninterrupted (cat : Ddl.catalog) (db : database) (user : types.User)
      (u : AdminDashboard.update) (s : AdminDashboard.state) :
  let k := List.length (AdminDashboard.updates s) in
  let served := AdminDashboard.update_serve cat db user k (AdminDashboard.send u s) in
  (fst served, AdminDashboard.update_finish k (snd served))
  = AdminDashboard.after_request db (AdminDashboard.request cat db user u) s.
Proof.
  cbv zeta. destruct s as [tab rows load fetches sent].
  unfold AdminDashboard.update_serve, AdminDashboard.send, AdminDashboard.after_request.
  cbn [AdminDashboard.updates AdminDashboard.activeTab AdminDashboard.bookings_
       AdminDashboard.loading AdminDashboard.pending].
  rewrite nth_error_last. cbv zeta.
  destruct (AdminDashboard.request cat db user u) as [db'|e]; cbn [fst snd];
    rewrite set_nth_last; unfold AdminDashboard.update_finish;
    cbn [AdminDashboard.updates AdminDashboard.activeTab AdminDashboard.bookings_
         AdminDashboard.loading AdminDashboard.pending];
    rewrite nth_error_last, remove_nth_last; reflexivity.
Qed.

Lemma Forall2_keep (w : App.world) (a : App.action) (rows : list bookings.row) :
  Forall2 (fun r r' => bookings.id r' = bookings.id r /\ App.lifecycle_step w a r r')
          rows rows.
Proof. apply Forall2_same. intros r. split; [reflexivity | left; reflexivity]. Qed.

Lemma Forall2_same_status (w : App.world) (a : App.action) (rows rows' : list bookings.row) :
  Forall2 (fun r r' => bookings.id r' = bookings.id r
                       /\ bookings.status_ r' = bookings.status_ r) rows rows' ->
  Forall2 (fun r r' => bookings.id r' = bookings.id r /\ App.lifecycle_step w a r r')
          rows rows'.
Proof.
  intros H. eapply Forall2_impl; [|exact H].
  intros r r' [Hid Hs]. split; [exact Hid | left; exact Hs].
Qed.

(** What one step does to the table: each row keeps its place and its id
    and moves as [lifecycle_step] allows; a submission may add one row, an
    inquiry under a new id, at the end. *)
Lemma step_bookings (cat : Ddl.catalog) (a : App.action) (w : App.world) :
  exists rows' extra,
    db_bookings (App.db (App.step cat a w)) = rows' ++ extra
    /\ Forall2 (fun r r' => bookings.id r' = bookings.id r /\ App.lifecycle_step w a r r')
               (db_bookings (App.db w)) rows'
    /\ (extra = []
        \/ exists g r, extra = [r] /\ bookings.id r = g /\ bookings.status_ r = inquiry
                       /\ Dml.has_booking_id (App.db w) g = false).
Proof.
  assert (Hkeep : forall d, db_bookings d = db_bookings (App.db w) ->
            exists rows' extra,
              db_bookings d = rows' ++ extra
              /\ Forall2 (fun r r' => bookings.id r' = bookings.id r
                                      /\ App.lifecycle_step w a r r')
                         (db_bookings (App.db w)) rows'
              /\ (extra = []
                  \/ exists g r, extra = [r] /\ bookings.id r = g
                                 /\ bookings.status_ r = inquiry
                                 /\ Dml.has_booking_id (App.db w) g = false)).
  { intros d Hd. exists (db_bookings (App.db w)), []. rewrite Hd, app_nil_r.
    split; [reflexivity|]. split; [apply Forall2_keep | left; reflexivity]. }
  assert (Hsame : forall d,
            Forall2 (fun r r' => bookings.id r' = bookings.id r
                                 /\ bookings.status_ r' = bookings.status_ r)
                    (db_bookings (App.db w)) (db_bookings d) ->
            exists rows' extra,
              db_bookings d = rows' ++ extra
              /\ Forall2 (fun r r' => bookings.id r' = bookings.id r
                                      /\ App.lifecycle_step w a r r')
                         (db_bookings (App.db w)) rows'
              /\ (extra = []
                  \/ exists g r, extra = [r] /\ bookings.id r = g
                                 /\ bookings.status_ r = inquiry
                                 /\ Dml.has_booking_id (App.db w) g = false)).
  { intros d Hd. exists (db_bookings d), []. rewrite app_nil_r.
    split; [reflexivity|]. split; [apply Forall2_same_status; exact Hd | left; reflexivity]. }
  assert (Hsession : forall i (f : App.session -> App.session),
            exists rows' extra,
              db_bookings (App.db (App.on_session i (fun s => (App.db w, f s)) w))
              = rows' ++ extra
              /\ Forall2 (fun r r' => bookings.id r' = bookings.id r
                                      /\ App.lifecycle_step w a r r')
                         (db_bookings (App.db w)) rows'
              /\ (extra = []
                  \/ exists g r, extra = [r] /\ bookings.id r = g
                                 /\ bookings.status_ r = inquiry
                                 /\ Dml.has_booking_id (App.db w) g = false)).
  { intros i f. apply Hkeep. rewrite on_session_db.
    destruct (nth_error (App.sessions w) i); reflexivity. }
  destruct a as [who data g now | NEW now | i tab | i k | i k | i k now | i k spend now
                 | i k now | i k | i k | i | i k j now]; cbn [App.step];
    try apply Hsession.
  - (* Submit *)
    cbn [App.db].
    destruct (onSubmit_rows cat (App.db w) who g now data) as [->|[Hnew ->]].
    + apply Hkeep. reflexivity.
    + exists (db_bookings (App.db w)), [submitted_row g now data].
      split; [reflexivity|]. split; [apply Forall2_keep|].
      right. exists g, (submitted_row g now data). auto.
  - (* Provision *)
    destruct (Auth.handle_new_user (App.db w) NEW now) as [db'|] eqn:E;
      [|apply Hkeep; reflexivity].
    apply Hkeep. cbn [App.db].
    apply handle_new_user_done in E as (e & r & _ & _ & ->). reflexivity.
  - (* UpdateServed *)
    rewrite on_session_db.
    destruct (nth_error (App.sessions w) i) as [s|] eqn:Es; [|apply Hkeep; reflexivity].
    unfold App.with_admin. cbn [fst].
    destruct (update_serve_db cat (App.db w) (App.user s) k (App.admin_ s))
      as [->|(u & db' & Hu & Hreq & ->)]; [apply Hkeep; reflexivity|].
    destruct u as [bookingId n now | bookingId spend now]; cbn [AdminDashboard.request] in Hreq.
    + apply updateBookingStatus_rows in Hreq as [_ Hrows].
      exists (db_bookings db'), []. rewrite app_nil_r.
      split; [reflexivity|]. split; [|left; reflexivity].
      eapply Forall2_impl; [|exact Hrows].
      intros r r' [->|[Hid ->]]; [split; [reflexivity | left; reflexivity]|].
      split; [reflexivity|]. right. exists i, k, s, n, now.
      split; [reflexivity|]. split; [exact Es|]. split; [rewrite Hid; exact Hu | reflexivity].
    + apply Hsame. eapply uploadReceipts_rows. exact Hreq.
  - (* AssignInquiry *)
    rewrite on_session_db.
    destruct (nth_error (App.sessions w) i) as [s|] eqn:Es; [|apply Hkeep; reflexivity].
    destruct (SuperAdminDashboard.loading (App.super_ s)); [apply Hkeep; reflexivity|].
    destruct (nth_error (SuperAdminDashboard.unassignedInquiries (App.super_ s)) k)
      as [q|]; [|apply Hkeep; reflexivity].
    destruct (nth_error (SuperAdminDashboard.options (App.super_ s)) j)
      as [p|]; [|apply Hkeep; reflexivity].
    unfold App.with_super, SuperAdminDashboard.after_request. cbn [fst].
    destruct (SuperAdminDashboard.assignInquiry cat (App.db w) (App.user s)
                (bookings.id q) (profiles.id p) now) as [db'|] eqn:Ea;
      cbn [fst]; [|apply Hkeep; reflexivity].
    apply Hsame. eapply assignInquiry_rows. exact Ea.
Qed.

Lemma NoDup_map_inj {A B} (f : A -> B) (l : list A) (a b : A) :
  NoDup (map f l) -> In a l -> In b l -> f a = f b -> a = b.
Proof.
  induction l as [|x l IH]; intros Hnd Ha Hb Hf; [contradiction|].
  simpl in Hnd. inversion Hnd as [|? ? Hnotin Hnd']; subst.
  destruct Ha as [->|Ha], Hb as [->|Hb].
  - reflexivity.
  - exfalso. apply Hnotin. rewrite Hf. apply in_map. exact Hb.
  - exfalso. apply Hnotin. rewrite <- Hf. apply in_map. exact Ha.
  - apply IH; assumption.
Qed.

Lemma Forall2_nth {A B} (R : A -> B -> Prop) (l : list A) (l' : list B) (k : nat) (x : A) :
  Forall2 R l l' -> nth_error l k = Some x ->
  exists y, nth_error l' k = Some y /\ R x y.
Proof.
  intros H. revert k. induction H as [|a b l l' Hab _ IH]; intros k Hk.
  - destruct k; discriminate Hk.
  - destruct k as [|k]; cbn [nth_error] in *.
    + injection Hk as <-. exists b. auto.
    + apply IH. exact Hk.
Qed.

Lemma nth_error_replace {A} (j i : nat) (x y : A) (l : list A) :
  nth_error (App.replace j x l) i = Some y ->
  exists z, nth_error l i = Some z /\ ((i = j /\ y = x) \/ y = z).
Proof.
  revert j i. induction l as [|h t IH]; intros j i H.
  - destruct j; cbn [App.replace] in H; destruct i; discriminate H.
  - destruct j as [|j]; cbn [App.replace] in H.
    + destruct i as [|i]; cbn [nth_error] in *.
      * injection H as <-. exists h. auto.
      * exists y. auto.
    + destruct i as [|i]; cbn [nth_error] in *.
      * exists y. split; [congruence | right; reflexivity].
      * destruct (IH j i H) as (z & Hz & [[-> ->] | ->]); exists z; auto.
Qed.

(** The session at a place after an event in session [j]: the one that
    was there, changed when the place is [j]. *)
Lemma on_session_nth (i j : nat) f (w : App.world) (s' : App.session) :
  nth_error (App.sessions (App.on_session j f w)) i = Some s' ->
  exists s, nth_error (App.sessions w) i = Some s
            /\ ((i = j /\ s' = snd (f s)) \/ s' = s).
Proof.
  rewrite on_session_sessions.
  destruct (nth_error (App.sessions w) j) as [sj|] eqn:Ej.
  - intros H. apply nth_error_replace in H as (z & Hz & [[-> ->] | ->]).
    + exists z. split; [exact Hz|]. left. split; [reflexivity|]. congruence.
    + exists z. auto.
  - intros H. exists s'. auto.
Qed.

Lemma In_set_nth {A} (k : nat) (y x : A) (l : list A) :
  In x (AdminDashboard.set_nth k y l) -> x = y \/ In x l.
Proof.
  revert k. induction l as [|h t IH]; intros k; destruct k; cbn [AdminDashboard.set_nth];
    intros H; try contradiction.
  - destruct H as [<-|H]; [left; reflexivity | right; right; exact H].
  - destruct H as [<-|H]; [right; left; reflexivity|].
    destruct (IH k H) as [->|Hin]; [left; reflexivity | right; right; exact Hin].
Qed.

Lemma In_remove_nth {A} (k : nat) (x : A) (l : list A) :
  In x (AdminDashboard.remove_nth k l) -> In x l.
Proof.
  revert k. induction l as [|h t IH]; intros k; destruct k; cbn [AdminDashboard.remove_nth];
    intros H; try contradiction.
  - right. exact H.
  - destruct H as [<-|H]; [left; reflexivity | right; apply (IH k); exact H].
Qed.

(** The updates that a session awaits after a click are those it awaited
    and, when the button is shown, the one of the click. *)
Lemma click_updates (s : App.session) (k : nat) shown mk_update u o :
  In (u, o) (AdminDashboard.updates (App.admin_ (App.click s k shown mk_update))) ->
  In (u, o) (AdminDashboard.updates (App.admin_ s))
  \/ exists b,
       nth_error (AdminDashboard.bookings_ (App.admin_ s)) k = Some b
       /\ shown (App.user s) (App.admin_ s) b = true
       /\ u = mk_update b.
Proof.
  destruct (click_sends s k shown mk_update) as [->|(b & Hb & Hshown & ->)]; [auto|].
  cbn [App.admin_ AdminDashboard.send AdminDashboard.updates]. intros H.
  apply in_app_or in H as [H|[H|[]]]; [left; exact H|].
  right. exists b. split; [exact Hb|]. split; [exact Hshown|]. congruence.
Qed.

Lemma click_user (s : App.session) (k : nat) shown mk_update :
  App.user (App.click s k shown mk_update) = App.user s.
Proof.
  destruct (click_sends s k shown mk_update) as [->|(b & _ & _ & ->)]; reflexivity.
Qed.

Lemma shows_upload_true (user : types.User) (s : AdminDashboard.state) (b : bookings.row) :
  AdminDashboard.shows_upload user s b = true ->
  AdminDashboard.loading s = false /\ bookings.status_ b = confirmed
  /\ types.role_ user <> client.
Proof.
  unfold AdminDashboard.shows_upload. intros H.
  apply andb_true_iff in H as [H Hrole]. apply andb_true_iff in H as [Hload Hst].
  split; [apply negb_true_iff; exact Hload|]. split; [apply status_eqb_eq; exact Hst|].
  intros Hc. rewrite Hc in Hrole. discriminate Hrole.
Qed.

Lemma shows_confirm_true (user : types.User) (s : AdminDashboard.state) (b : bookings.row) :
  AdminDashboard.shows_confirm user s b = true ->
  AdminDashboard.loading s = false /\ bookings.status_ b = inquiry
  /\ types.role_ user <> client.
Proof.
  unfold AdminDashboard.shows_confirm. intros H.
  apply andb_true_iff in H as [H Hrole]. apply andb_true_iff in H as [Hload Hst].
  split; [apply negb_true_iff; exact Hload|]. split; [apply status_eqb_eq; exact Hst|].
  intros Hc. rewrite Hc in Hrole. discriminate Hrole.
Qed.

(** What one step does to the updates in flight: a session keeps its
    place and its user, and awaits no update that it did not await
    before, but for the one that a click in it has just sent. *)
Lemma step_updates (cat : Ddl.catalog) (a : App.action) (w : App.world)
      (i : nat) (s' : App.session) :
  nth_error (App.sessions (App.step cat a w)) i = Some s' ->
  exists s,
    nth_error (App.sessions w) i = Some s
    /\ App.user s' = App.user s
    /\ forall u o,
         In (u, o) (AdminDashboard.updates (App.admin_ s')) ->
         (exists o', In (u, o') (AdminDashboard.updates (App.admin_ s)))
         \/ App.sent_by a i s u.
Proof.
  assert (Hsame : nth_error (App.sessions w) i = Some s' ->
            exists s,
              nth_error (App.sessions w) i = Some s
              /\ App.user s' = App.user s
              /\ forall u o,
                   In (u, o) (AdminDashboard.updates (App.admin_ s')) ->
                   (exists o', In (u, o') (AdminDashboard.updates (App.admin_ s)))
                   \/ App.sent_by a i s u).
  { intros H. exists s'. split; [exact H|]. split; [reflexivity|]. intros u o Hu. left. eauto. }
  assert (Hone : forall j f,
            (forall s, App.user (snd (f s)) = App.user s
                       /\ forall u o,
                            In (u, o) (AdminDashboard.updates (App.admin_ (snd (f s)))) ->
                            (exists o', In (u, o') (AdminDashboard.updates (App.admin_ s)))
                            \/ (i = j -> App.sent_by a i s u)) ->
            nth_error (App.sessions (App.on_session j f w)) i = Some s' ->
            exists s,
              nth_error (App.sessions w) i = Some s
              /\ App.user s' = App.user s
              /\ forall u o,
                   In (u, o) (AdminDashboard.updates (App.admin_ s')) ->
                   (exists o', In (u, o') (AdminDashboard.updates (App.admin_ s)))
                   \/ App.sent_by a i s u).
  { intros j f Hf H. apply on_session_nth in H as (s & Hs & [[Hij ->] | ->]).
    - exists s. split; [exact Hs|]. destruct (Hf s) as [Hu Hin]. split; [exact Hu|].
      intros u o Huo. destruct (Hin u o Huo) as [H|H]; [left; exact H | right; auto].
    - exists s. split; [exact Hs|]. split; [reflexivity|]. intros u o Hu. left. eauto. }
  assert (Hkept : forall j f,
            (forall s, App.user (snd (f s)) = App.user s
                       /\ forall x, In x (AdminDashboard.updates (App.admin_ (snd (f s)))) ->
                                    In x (AdminDashboard.updates (App.admin_ s))) ->
            nth_error (App.sessions (App.on_session j f w)) i = Some s' ->
            exists s,
              nth_error (App.sessions w) i = Some s
              /\ App.user s' = App.user s
              /\ forall u o,
                   In (u, o) (AdminDashboard.updates (App.admin_ s')) ->
                   (exists o', In (u, o') (AdminDashboard.updates (App.admin_ s)))
                   \/ App.sent_by a i s u).
  { intros j f Hf. apply Hone. intros s. destruct (Hf s) as [Hu Hin]. split; [exact Hu|].
    intros u o Huo. left. exists o. apply Hin. exact Huo. }
  destruct a as [who data g now | NEW now | j tab | j k | j k | j k now | j k spend now
                 | j k now | j k | j k | j | j k q now]; cbn [App.step].
  - (* Submit *) exact Hsame.
  - (* Provision *)
    destruct (Auth.handle_new_user (App.db w) NEW now); exact Hsame.
  - (* SetActiveTab *)
    apply Hkept. intros s. cbn [snd App.user App.admin_]. split; [reflexivity|].
    unfold AdminDashboard.setActiveTab.
    destruct (status_eqb tab (AdminDashboard.activeTab (App.admin_ s))); auto.
  - (* FetchBookingsServed *)
    apply Hkept. intros s. cbn [snd App.user App.admin_]. split; [reflexivity|].
    unfold AdminDashboard.fetchBookings_serve.
    destruct (nth_error (AdminDashboard.pending (App.admin_ s)) k) as [[tab [r|]]|]; auto.
  - (* FetchBookingsDone *)
    apply Hkept. intros s. cbn [snd App.user App.admin_]. split; [reflexivity|].
    unfold AdminDashboard.fetchBookings_finish.
    destruct (nth_error (AdminDashboard.pending (App.admin_ s)) k) as [[tab [[data|e]|]]|];
      auto.
  - (* ConfirmBooking *)
    apply Hone. intros s. cbn [snd]. split; [apply click_user|].
    intros u o Hu. apply click_updates in Hu as [Hu|(b & Hb & Hshown & ->)]; [left; eauto|].
    right. intros <-. apply shows_confirm_true in Hshown as (Hload & Hst & Hrole).
    exists k, b. split; [exact Hb|]. split; [exact Hload|]. split; [exact Hrole|].
    left. exists now. auto.
  - (* UploadReceipts *)
    apply Hone. intros s. cbn [snd]. split; [apply click_user|].
    intros u o Hu. apply click_updates in Hu as [Hu|(b & Hb & Hshown & ->)]; [left; eauto|].
    right. intros <-. apply shows_upload_true in Hshown as (Hload & Hst & Hrole).
    exists k, b. split; [exact Hb|]. split; [exact Hload|]. split; [exact Hrole|].
    right. right. exists spend, now. auto.
  - (* ClearEvent *)
    apply Hone. intros s. cbn [snd]. split; [apply click_user|].
    intros u o Hu. apply click_updates in Hu as [Hu|(b & Hb & Hshown & ->)]; [left; eauto|].
    right. intros <-. unfold AdminDashboard.shows_clear in Hshown.
    apply andb_true_iff in Hshown as [Hshown Hsuper].
    apply shows_upload_true in Hshown as (Hload & Hst & Hrole).
    exists k, b. split; [exact Hb|]. split; [exact Hload|]. split; [exact Hrole|].
    right. left. exists now. split; [reflexivity|]. split; [exact Hst|].
    split; [apply role_eqb_eq; exact Hsuper | reflexivity].
  - (* UpdateServed *)
    apply Hone. intros s. unfold App.with_admin. cbn [snd App.user App.admin_].
    split; [reflexivity|]. intros u o Hu. left.
    unfold AdminDashboard.update_serve in Hu.
    destruct (nth_error (AdminDashboard.updates (App.admin_ s)) k) as [[u0 [e|]]|] eqn:Ek;
      try (exists o; exact Hu).
    cbv zeta in Hu.
    assert (Hin : forall e, In (u, o) (AdminDashboard.set_nth k (u0, Some e)
                                         (AdminDashboard.updates (App.admin_ s))) ->
                            exists o', In (u, o') (AdminDashboard.updates (App.admin_ s))).
    { intros e H. apply In_set_nth in H as [H|H]; [|eauto].
      injection H as -> _. exists None. eapply nth_error_In. exact Ek. }
    destruct (AdminDashboard.request cat (App.db w) (App.user s) u0);
      cbn [snd AdminDashboard.updates] in Hu; eapply Hin; exact Hu.
  - (* UpdateDone *)
    apply Hkept. intros s. cbn [snd App.user App.admin_]. split; [reflexivity|].
    unfold AdminDashboard.update_finish.
    destruct (nth_error (AdminDashboard.updates (App.admin_ s)) k) as [[u0 [[e|]|]]|];
      cbn [AdminDashboard.fetchBookings_start AdminDashboard.updates];
      try (intros x Hx; exact Hx); intros x Hx; eapply In_remove_nth; exact Hx.
  - (* FetchDataDone *)
    apply Hkept. intros s. cbn [snd App.user App.admin_]. auto.
  - (* AssignInquiry *)
    apply Hkept. intros s.
    destruct (SuperAdminDashboard.loading (App.super_ s)); [auto|].
    destruct (nth_error _ k); [|auto]. destruct (nth_error _ q); [|auto].
    unfold App.with_super. cbn [snd App.user App.admin_]. auto.
Qed.

(** C4, as the code has it.  A status is one of inquiry, confirmed and
    cleared.  In the application as a system of events that come in any
    order (clicks, the server running a request, the arrival of a
    response), an event leaves each booking at its place and changes the
    status of a booking only when the server runs a status update that a
    session has sent for its id, to the status that the update carries,
    confirmed or cleared: nothing sets a status back to inquiry.  A session
    awaits no update at the start, and a status update is sent only by a
    click: "Confirm Booking", for confirmed, on a booking that the
    session's list shows as an inquiry, or "Clear Event", for cleared, in a
    super_admin's session on a booking that its list shows as confirmed.
    The update is keyed by the id alone: what the table holds when the
    server runs it is not looked at. *)
Theorem booking_lifecycle (cat : Ddl.catalog) :
  (forall b : bookings.row,
      In (status_text (bookings.status_ b)) ["inquiry"; "confirmed"; "cleared"])
  /\ (forall w a k r,
         nth_error (db_bookings (App.db w)) k = Some r ->
         exists r',
           nth_error (db_bookings (App.db (App.step cat a w))) k = Some r'
           /\ bookings.id r' = bookings.id r
           /\ (bookings.status_ r' = inquiry -> bookings.status_ r = inquiry)
           /\ (bookings.status_ r' <> bookings.status_ r ->
               exists i j ses n now,
                 a = App.UpdateServed i j
                 /\ nth_error (App.sessions w) i = Some ses
                 /\ nth_error (AdminDashboard.updates (App.admin_ ses)) j
                    = Some (AdminDashboard.StatusUpdate (bookings.id r) n now, None)
                 /\ bookings.status_ r' = AdminDashboard.status_of n))
  /\ (forall w a i ses',
         nth_error (App.sessions (App.step cat a w)) i = Some ses' ->
         exists ses,
           nth_error (App.sessions w) i = Some ses
           /\ App.user ses' = App.user ses
           /\ forall bookingId n now o,
                In (AdminDashboard.StatusUpdate bookingId n now, o)
                   (AdminDashboard.updates (App.admin_ ses')) ->
                (exists o', In (AdminDashboard.StatusUpdate bookingId n now, o')
                               (AdminDashboard.updates (App.admin_ ses)))
                \/ exists j b,
                     nth_error (AdminDashboard.bookings_ (App.admin_ ses)) j = Some b
                     /\ bookings.id b = bookingId
                     /\ AdminDashboard.loading (App.admin_ ses) = false
                     /\ ((a = App.ConfirmBooking i j now
                          /\ bookings.status_ b = inquiry
                          /\ n = AdminDashboard.to_confirmed)
                         \/ (a = App.ClearEvent i j now
                             /\ bookings.status_ b = confirmed
                             /\ types.role_ (App.user ses) = super_admin
                             /\ n = AdminDashboard.to_cleared)))
  /\ (forall d users ses,
         In ses (App.sessions (App.start d users)) ->
         AdminDashboard.updates (App.admin_ ses) = []).
Proof.
  split; [|split; [|split]].
  - intros b. destruct (bookings.status_ b); simpl; auto.
  - intros w a k r Er.
    destruct (step_bookings cat a w) as (rows' & extra & Hrows & Hrel & _).
    destruct (Forall2_nth _ _ _ k r Hrel Er) as (r' & Er' & Hid & Hstep).
    rewrite Hrows, nth_error_app1 by (apply nth_error_Some; congruence).
    exists r'. split; [exact Er'|]. split; [exact Hid|].
    destruct Hstep as [Hsame|(i & j & ses & n & now & Ha & Hses & Hu & Hr')].
    + split; [congruence|]. intros Hne. congruence.
    + split.
      * rewrite Hr'. destruct n; discriminate.
      * intros _. exists i, j, ses, n, now. auto.
  - intros w a i ses' Hses'.
    destruct (step_updates cat a w i ses' Hses') as (ses & Hses & Huser & Hin).
    exists ses. split; [exact Hses|]. split; [exact Huser|].
    intros bookingId n now o Hu.
    destruct (Hin _ _ Hu) as [H|(j & b & Hb & Hload & _ & Hcase)]; [left; exact H|].
    right. exists j, b. split; [exact Hb|].
    destruct Hcase as [(now' & Ha & Hst & E)|[(now' & Ha & Hst & Hrole & E)
                                              |(spend & now' & _ & _ & E)]];
      [| |discriminate E]; injection E as <- -> <-;
      (split; [reflexivity|]); (split; [exact Hload|]); [left | right]; auto.
  - intros d users ses Hses. unfold App.start in Hses. cbn [App.sessions] in Hses.
    apply in_map_iff in Hses as (u & <- & _). reflexivity.
Qed.

Lemma booking_lifecycle_witness :
  exists r',
    nth_error (db_bookings (App.db (App.step Ddl.migrated Examples.sam_clears
                                      Examples.sam_worked))) 0
    = Some r'
    /\ bookings.id r' = 100%N
    /\ bookings.status_ r' = cleared.
Proof.
  destruct (proj1 (proj2 (booking_lifecycle Ddl.migrated))
              Examples.sam_worked Examples.sam_clears 0%nat
              (with_status (submitted_row 100 1000 Examples.form) confirmed 2000))
    as (r' & Hr' & Hid & _ & _).
  - vm_compute. reflexivity.
  - exists r'. split; [exact Hr'|]. split; [exact Hid|].
    vm_compute in Hr'. injection Hr' as <-. reflexivity.
Defined.

(** C4 as stated fails when two sessions show the same booking: Sol
    confirms and clears the inquiry while Sam's dashboard still lists it
    as an inquiry; Sam's "Confirm Booking" then sets the cleared booking
    back to confirmed. *)
Lemma stale_confirm_undoes_clearing :
  App.status_at
    (App.run Ddl.migrated Examples.sol_clears Examples.two_dashboards) 0
  = Some cleared
  /\ App.status_at
       (App.run Ddl.migrated Examples.sam_confirms
          (App.run Ddl.migrated Examples.sol_clears Examples.two_dashboards)) 0
     = Some confirmed.
Proof. vm_compute. split; reflexivity. Qed.

(** The same with one session: of two clicks on "Confirm Booking" the
    second update is run by the server after the booking has been
    cleared. *)
Lemma late_confirm_undoes_clearing :
  let w := App.run Ddl.migrated Examples.sam_clicks_twice
             (App.start (fst Examples.one_dashboard) [snd Examples.one_dashboard]) in
  App.status_at w 0 = Some cleared
  /\ App.status_at (App.step Ddl.migrated Examples.late_update w) 0 = Some confirmed.
Proof. vm_compute. split; reflexivity. Qed.

(** With Sam alone and one click at a time, the update does clear the
    booking. *)
Lemma sam_clears_booking :
  App.status_at (App.step Ddl.migrated Examples.sam_clears Examples.sam_worked) 0
  = Some cleared.
Proof. vm_compute. reflexivity. Qed.

(** The receipts upload by the assigned admin does write the three fields. *)
Lemma ada_uploads_receipts :
  option_map db_bookings
    (match AdminDashboard.uploadReceipts Ddl.migrated Examples.booked
             (Examples.as_user Examples.ada) 8 (types.Finite (125050 # 100)) 30 with
     | Dml.Done d => Some d
     | Dml.Raise _ => None
     end)
  = Some [with_receipts Examples.anns_booking (Some (125050 # 100)) 30].
Proof. vm_compute. reflexivity. Qed.

(** ** Re-running the schema script *)

(** C7 does not hold of the script: on a database where it has been
    applied, a second run stops with an error at the first CREATE POLICY,
    which has no guard; submitted one by one, each of the nine CREATE
    POLICY statements fails and every other statement leaves the catalog
    as it is.  The same happens after the migration. *)
Theorem schema_rerun_fails :
  Ddl.run Ddl.schema Ddl.platform = Ddl.Ok Ddl.after_schema
  /\ Ddl.run Ddl.schema Ddl.after_schema
     = Ddl.Err (Ddl.DuplicatePolicy "Users can read their own profile" "profiles")
  /\ map fst (Ddl.failures Ddl.schema Ddl.after_schema)
     = filter Ddl.is_create_policy Ddl.schema
  /\ Ddl.run (filter (fun s => negb (Ddl.is_create_policy s)) Ddl.schema) Ddl.after_schema
     = Ddl.Ok Ddl.after_schema
  /\ Ddl.run Ddl.schema Ddl.migrated
     = Ddl.Err (Ddl.DuplicatePolicy "Users can read their own profile" "profiles").
Proof. vm_compute. repeat split; reflexivity. Qed.

(** * Further properties *)

(** ** The other policies *)

Lemma notifications_policies :
  Rls.policies_for Ddl.migrated "notifications" Ddl.CmdSelect
  = [Ddl.mkpolicy "Users can read their own notifications" "notifications" Ddl.CmdSelect
       (Some (Ddl.EEq (Ddl.Col "user_id") Ddl.AuthUid)) None]
  /\ Rls.policies_for Ddl.migrated "notifications" Ddl.CmdUpdate
     = [Ddl.mkpolicy "Users can update their own notifications" "notifications"
          Ddl.CmdUpdate (Some (Ddl.EEq (Ddl.Col "user_id") Ddl.AuthUid)) None]
  /\ Rls.policies_for Ddl.migrated "notifications" Ddl.CmdInsert
     = [Ddl.mkpolicy "System can create notifications" "notifications" Ddl.CmdInsert
          None (Some Ddl.ETrue)].
Proof. vm_compute. repeat split; reflexivity. Qed.

(** X1.  On the migrated catalog a signed-in caller may select, and may
    update, a notification exactly when its user_id is the caller's id; any
    signed-in caller may insert a notification for any user; the anonymous
    role may do none of it. *)
Theorem notifications_rules (db : database) (uid : uuid) (n : notifications.row) :
  let may who cmd := Rls.permits Ddl.migrated db who "notifications" cmd (notifications.col n) in
  (may (Rls.Authenticated uid) Ddl.CmdSelect = Rls.Val true <-> notifications.user_id n = uid)
  /\ (may (Rls.Authenticated uid) Ddl.CmdUpdate = Rls.Val true
      <-> notifications.user_id n = uid)
  /\ Rls.accepts Ddl.migrated db (Rls.Authenticated uid) "notifications" Ddl.CmdInsert
       (notifications.col n) = Rls.Val true
  /\ may Rls.Anon Ddl.CmdSelect = Rls.Val false
  /\ may Rls.Anon Ddl.CmdUpdate = Rls.Val false
  /\ Rls.accepts Ddl.migrated db Rls.Anon "notifications" Ddl.CmdInsert
       (notifications.col n) = Rls.Val false.
Proof.
  cbv beta zeta. destruct notifications_policies as (Hs & Hu & Hi).
  assert (Hval : Rls.Val (N.eqb (notifications.user_id n) uid) = Rls.Val true
                 <-> notifications.user_id n = uid).
  { split.
    - intros H. injection H as H. apply N.eqb_eq. exact H.
    - intros ->. rewrite N.eqb_refl. reflexivity. }
  assert (Hown : forall cmd u,
             Rls.policies_for Ddl.migrated "notifications" cmd
             = [Ddl.mkpolicy u "notifications" cmd
                  (Some (Ddl.EEq (Ddl.Col "user_id") Ddl.AuthUid)) None] ->
             Rls.permits Ddl.migrated db (Rls.Authenticated uid) "notifications" cmd
               (notifications.col n)
             = Rls.Val (N.eqb (notifications.user_id n) uid)).
  { intros cmd u Hp. unfold Rls.permits.
    rewrite rls_on_migrated by (simpl; auto). rewrite Hp. cbn.
    destruct (N.eqb (notifications.user_id n) uid); reflexivity. }
  rewrite (Hown _ _ Hs), (Hown _ _ Hu).
  split; [exact Hval|]. split; [exact Hval|].
  split.
  { unfold Rls.accepts. rewrite rls_on_migrated by (simpl; auto). rewrite Hi. reflexivity. }
  repeat split; unfold Rls.permits, Rls.accepts;
    rewrite rls_on_migrated by (simpl; auto); reflexivity.
Qed.

(** X2.  On the migrated catalog the insert rule of bookings accepts every
    row from every signed-in caller, whoever the row names as client or as
    assigned admin, and no row from the anonymous role: a submission of the
    booking form without a session fails and leaves the table as it
    was. *)
Theorem bookings_insert_rule (db : database) (uid : uuid) (b : bookings.row)
        (gen_random_uuid : uuid) (now : timestamptz)
        (data : BookingForm.BookingFormData) :
  Rls.accepts Ddl.migrated db (Rls.Authenticated uid) "bookings" Ddl.CmdInsert
    (bookings.col b) = Rls.Val true
  /\ Rls.accepts Ddl.migrated db Rls.Anon "bookings" Ddl.CmdInsert (bookings.col b)
     = Rls.Val false
  /\ Dml.insert_booking Ddl.migrated db Rls.Anon gen_random_uuid now
       (BookingForm.inserted data)
     = Dml.Raise (Dml.RlsViolation "bookings")
  /\ BookingForm.onSubmit Ddl.migrated db Rls.Anon gen_random_uuid now data
     = (db, [BookingForm.SetIsSubmitting true;
             BookingForm.ConsoleError "Error submitting booking:";
             BookingForm.ToastError "Failed to submit booking inquiry";
             BookingForm.SetIsSubmitting false]).
Proof.
  assert (Hanon : forall r, Rls.accepts Ddl.migrated db Rls.Anon "bookings" Ddl.CmdInsert r
                            = Rls.Val false).
  { intros r. unfold Rls.accepts. rewrite rls_on_migrated by (simpl; auto). reflexivity. }
  assert (Hins : Dml.insert_booking Ddl.migrated db Rls.Anon gen_random_uuid now
                   (BookingForm.inserted data)
                 = Dml.Raise (Dml.RlsViolation "bookings")).
  { rewrite insert_inserted, Hanon. reflexivity. }
  split; [apply bookings_insert_accepts|]. split; [apply Hanon|].
  split; [exact Hins|].
  unfold BookingForm.onSubmit. rewrite Hins. reflexivity.
Qed.

(** ** The migration on any catalog *)

(** X3.  Whatever the catalog, the migration does not fail; it changes
    nothing but the policies, keeps every policy other than "Super admins
    can read all profiles" on profiles and adds none, leaves no policy of
    that name when profiles exists, and running it again changes
    nothing. *)
Theorem migration_is_idempotent (c : Ddl.catalog) :
  exists c',
    Ddl.run Ddl.quiet_union c = Ddl.Ok c'
    /\ Ddl.run Ddl.quiet_union c' = Ddl.Ok c'
    /\ Ddl.tables c' = Ddl.tables c
    /\ Ddl.rls_enabled c' = Ddl.rls_enabled c
    /\ Ddl.functions c' = Ddl.functions c
    /\ Ddl.triggers c' = Ddl.triggers c
    /\ Ddl.indexes c' = Ddl.indexes c
    /\ (forall p, In p (Ddl.policies c') -> In p (Ddl.policies c))
    /\ (forall p, In p (Ddl.policies c) ->
                  Ddl.is_policy "Super admins can read all profiles" "profiles" p = false ->
                  In p (Ddl.policies c'))
    /\ (Ddl.has_table c "profiles" = true ->
        Ddl.has_policy c' "Super admins can read all profiles" "profiles" = false).
Proof.
  set (n := "Super admins can read all profiles").
  unfold Ddl.quiet_union. fold n. cbn [Ddl.run Ddl.exec].
  destruct (Ddl.has_table c "profiles") eqn:Ht.
  - destruct (Ddl.has_policy c n "profiles") eqn:Hp.
    + eexists. split; [reflexivity|].
      assert (Hgone : Ddl.has_policy
                        (Ddl.set_policies c
                           (filter (fun p => negb (Ddl.is_policy n "profiles" p))
                                   (Ddl.policies c))) n "profiles" = false).
      { unfold Ddl.has_policy. cbn [Ddl.set_policies Ddl.policies].
        apply existsb_false_iff. intros p Hin. apply filter_In in Hin as [_ Hin].
        apply negb_true_iff. exact Hin. }
      split.
      { unfold Ddl.has_table in *. cbn [Ddl.set_policies Ddl.tables]. rewrite Ht.
        rewrite Hgone. reflexivity. }
      repeat (split; [reflexivity|]).
      split; [intros p Hin; apply filter_In in Hin as [Hin _]; exact Hin|].
      split; [|intros _; exact Hgone].
      intros p Hin Hne. cbn [Ddl.set_policies Ddl.policies].
      apply filter_In. split; [exact Hin|]. rewrite Hne. reflexivity.
    + exists c. split; [reflexivity|]. rewrite Ht, Hp.
      repeat (split; [reflexivity|]). split; [auto|]. split; [auto|]. intros _. reflexivity.
  - exists c. split; [reflexivity|]. rewrite Ht.
    repeat (split; [reflexivity|]). split; [auto|]. split; [auto|]. discriminate.
Qed.

Lemma Ok_inj {A} (a b : A) : Ddl.Ok a = Ddl.Ok b -> a = b.
Proof. intros H. injection H as H. exact H. Qed.

Lemma migration_is_idempotent_witness :
  Ddl.has_policy Ddl.migrated "Super admins can read all profiles" "profiles" = false.
Proof.
  destruct (migration_is_idempotent Ddl.after_schema) as (c' & Hrun & H).
  rewrite migrated_ok in Hrun. apply Ok_inj in Hrun. rewrite Hrun.
  apply H. vm_compute. reflexivity.
Defined.

(** ** Before the migration *)

Lemma after_schema_profiles_select :
  Rls.policies_for Ddl.after_schema "profiles" Ddl.CmdSelect
  = [Ddl.mkpolicy "Users can read their own profile" "profiles" Ddl.CmdSelect
       (Some (Ddl.EEq Ddl.AuthUid (Ddl.Col "id"))) None;
     Ddl.mkpolicy "Super admins can read all profiles" "profiles" Ddl.CmdSelect
       (Some (Ddl.EExists "profiles"
                (Ddl.EAnd (Ddl.EEq (Ddl.Col "id") Ddl.AuthUid)
                          (Ddl.EEq (Ddl.Col "role") (Ddl.TextLit "super_admin")))))
       None]
  /\ Rls.rls_on Ddl.after_schema "profiles" = true
  /\ Rls.rls_on Ddl.after_schema "bookings" = true.
Proof. vm_compute. repeat split; reflexivity. Qed.

Lemma after_schema_bookings_policies :
  Rls.policies_for Ddl.after_schema "bookings" Ddl.CmdSelect
  = Rls.policies_for Ddl.migrated "bookings" Ddl.CmdSelect
  /\ Rls.policies_for Ddl.after_schema "bookings" Ddl.CmdUpdate
     = Rls.policies_for Ddl.migrated "bookings" Ddl.CmdUpdate.
Proof. vm_compute. split; reflexivity. Qed.

(** With a row in profiles, the policies of profiles cannot be evaluated
    at any depth before the migration. *)
Lemma profiles_recursion (db : database) (uid : uuid) (fuel : nat)
      (r : string -> Sql.value) :
  db_profiles db <> [] ->
  Rls.visible_at Ddl.after_schema db (Rls.Authenticated uid) fuel "profiles" r
  = Rls.InfiniteRecursion "profiles".
Proof.
  intros Hne. destruct after_schema_profiles_select as (Hp & Hon & _).
  revert r. induction fuel as [|fuel IH]; intros r; [reflexivity|].
  cbn [Rls.visible_at]. rewrite Hon, Hp.
  cbn [Rls.any_of Rls.using_holds Ddl.pol_using].
  cbn [Rls.eval_with].
  change (rows_of db "profiles") with (map profiles.col (db_profiles db)).
  destruct (db_profiles db) as [|p ps]; [contradiction|].
  cbn [map Rls.any_of]. rewrite IH. reflexivity.
Qed.

(** X4.  Before the migration, as soon as profiles holds a row, every
    check of a signed-in caller's right to select or update a row of
    profiles or of bookings ends in the recursion error; so the dashboard's
    query fails and its list is not replaced. *)
Theorem schema_alone_cannot_be_read
        (db : database) (user : types.User) (p : profiles.row) (b : bookings.row)
        (tab : status) :
  db_profiles db <> [] ->
  let who := Rls.Authenticated (types.id user) in
  Rls.permits Ddl.after_schema db who "profiles" Ddl.CmdSelect (profiles.col p)
  = Rls.InfiniteRecursion "profiles"
  /\ Rls.permits Ddl.after_schema db who "bookings" Ddl.CmdSelect (bookings.col b)
     = Rls.InfiniteRecursion "profiles"
  /\ Rls.permits Ddl.after_schema db who "bookings" Ddl.CmdUpdate (bookings.col b)
     = Rls.InfiniteRecursion "profiles"
  /\ (db_bookings db <> [] ->
      AdminDashboard.fetchBookings_query Ddl.after_schema db user tab
      = Dml.Raise (Dml.PolicyRecursion "bookings")).
Proof.
  intros Hne. cbv zeta.
  destruct after_schema_profiles_select as (Hp & Hon & Hob).
  destruct after_schema_bookings_policies as (Hbs & Hbu).
  assert (Hsub : forall fuel row w,
             Rls.eval_with db (Rls.Authenticated (types.id user))
               (Rls.visible_at Ddl.after_schema db (Rls.Authenticated (types.id user)) fuel)
               row (Ddl.EExists "profiles" w)
             = Rls.InfiniteRecursion "profiles").
  { intros fuel row w. cbn [Rls.eval_with].
    change (rows_of db "profiles") with (map profiles.col (db_profiles db)).
    pose proof (fun r => profiles_recursion db (types.id user) fuel r Hne) as Hrec.
    destruct (db_profiles db) as [|q qs]; [contradiction|].
    cbn [map Rls.any_of].
    rewrite Hrec. reflexivity. }
  assert (Hsel : forall row,
             Rls.permits Ddl.after_schema db (Rls.Authenticated (types.id user))
               "bookings" Ddl.CmdSelect row
             = Rls.InfiniteRecursion "profiles").
  { intros row. unfold Rls.permits. rewrite Hob, Hbs, bookings_select_policies.
    cbn [Rls.any_of Rls.using_holds Ddl.pol_using]. rewrite eval_or, Hsub.
    reflexivity. }
  split.
  { unfold Rls.permits. rewrite Hon, Hp.
    cbn [Rls.any_of Rls.using_holds Ddl.pol_using]. rewrite Hsub.
    cbn [Rls.eval_with Rls.bind]. reflexivity. }
  split; [apply Hsel|]. split.
  { unfold Rls.permits. rewrite Hob, Hbu, bookings_update_policies.
    cbn [Rls.any_of Rls.using_holds Ddl.pol_using]. rewrite eval_or, Hsub.
    reflexivity. }
  intros Hrows. unfold AdminDashboard.fetchBookings_query, Dml.select_bookings.
  destruct (db_bookings db) as [|r rows]; [contradiction|].
  cbn [Dml.readable]. unfold AdminDashboard.session_of. rewrite Hsel. reflexivity.
Qed.

Lemma schema_alone_cannot_be_read_witness :
  AdminDashboard.fetchBookings_query Ddl.after_schema Examples.booked
    (Examples.as_user Examples.sam) confirmed
  = Dml.Raise (Dml.PolicyRecursion "bookings").
Proof.
  apply (proj2 (proj2 (proj2
           (schema_alone_cannot_be_read Examples.booked (Examples.as_user Examples.sam)
              Examples.sam Examples.anns_booking confirmed
              ltac:(discriminate))))).
  discriminate.
Defined.

(** ** More on the conversion statistics *)

(** X5.  With unique ids in profiles, a call of the function returns, in
    whatever order, one row per account of role admin, and none for a
    client or a super_admin. *)
Theorem stats_rows_are_the_admins (db : database) (rows : list Stats.row) :
  NoDup (map profiles.id (db_profiles db)) ->
  Stats.returns db rows ->
  Permutation (map Stats.admin_id rows)
    (map profiles.id
       (filter (fun p => role_eqb (profiles.role_ p) admin) (db_profiles db)))
  /\ NoDup (map Stats.admin_id rows)
  /\ forall r, In r rows ->
       exists p, In p (db_profiles db) /\ profiles.role_ p = admin
                 /\ Stats.admin_id r = profiles.id p
                 /\ Stats.admin_name r = profiles.name p
                 /\ Stats.admin_color r = profiles.admin_color p.
Proof.
  intros Hnd Hret. unfold Stats.returns in Hret.
  rewrite get_admin_conversion_stats_rows in Hret by exact Hnd.
  assert (Hids : Permutation (map Stats.admin_id rows)
                   (map profiles.id (filter Stats.is_admin (db_profiles db)))).
  { apply (Permutation_map Stats.admin_id) in Hret. rewrite map_map in Hret. exact Hret. }
  split; [exact Hids|]. split.
  - eapply Permutation_NoDup; [apply Permutation_sym; exact Hids|].
    apply NoDup_map_filter. exact Hnd.
  - intros r Hr. apply (Permutation_in _ Hret) in Hr.
    apply in_map_iff in Hr as (p & <- & Hp).
    apply filter_In in Hp as [Hp Hrole]. exists p.
    split; [exact Hp|]. split; [|repeat split].
    unfold Stats.is_admin in Hrole. destruct (profiles.role_ p); try discriminate Hrole.
    reflexivity.
Qed.

Lemma stats_rows_are_the_admins_witness :
  Permutation (map Stats.admin_id (Stats.get_admin_conversion_stats Examples.busy)) [4%N].
Proof.
  apply (proj1 (stats_rows_are_the_admins Examples.busy
                  (Stats.get_admin_conversion_stats Examples.busy)
                  ltac:(simpl; repeat constructor; simpl; intuition discriminate)
                  (Permutation_refl _))).
Defined.

Lemma count_where_split {A} (f g h : A -> bool) (l : list A) :
  (forall x, h x = f x || g x) -> (forall x, f x && g x = false) ->
  (count_where f l + count_where g l = count_where h l)%Z.
Proof.
  intros Hh Hfg. unfold count_where.
  induction l as [|x l IH]; [reflexivity|].
  cbn [filter]. rewrite Hh. specialize (Hfg x).
  destruct (f x), (g x); try discriminate Hfg; cbn [orb List.length]; lia.
Qed.

Lemma count_where_le {A} (f g : A -> bool) (l : list A) :
  (forall x, f x = true -> g x = true) ->
  (0 <= count_where f l <= count_where g l)%Z.
Proof.
  intros Hfg. unfold count_where.
  induction l as [|x l IH]; [simpl; lia|].
  cbn [filter]. specialize (Hfg x).
  destruct (f x); [rewrite Hfg by reflexivity|destruct (g x)]; cbn [List.length]; lia.
Qed.

(** X6.  In every row that the function returns, whatever the tables
    hold, the two counts are not negative and conversion_rate lies between
    0 and 100; a row whose two counts are both 0 has conversion_rate 0 and
    avg_response_time 0 (the ELSE branch and the COALESCE default). *)
Theorem stats_counts_and_rate (db : database) (r : Stats.row) :
  In r (Stats.get_admin_conversion_stats db) ->
  (0 <= Stats.inquiries_assigned r)%Z
  /\ (0 <= Stats.confirmed_bookings r)%Z
  /\ (0 <= Stats.conversion_rate r <= 100)%Q
  /\ (Stats.inquiries_assigned r + Stats.confirmed_bookings r = 0 ->
      Stats.conversion_rate r = 0%Q /\ Stats.avg_response_time r = 0%Q)%Z.
Proof.
  unfold Stats.get_admin_conversion_stats. intros Hr.
  apply in_map_iff in Hr as (g & <- & _).
  destruct g as [[[i n] c] rows]. unfold Stats.aggregate.
  cbn [fst snd Stats.inquiries_assigned Stats.confirmed_bookings Stats.conversion_rate
       Stats.avg_response_time].
  pose proof (count_where_split (Stats.has_status [inquiry])
                (Stats.has_status [confirmed; cleared]) Stats.has_booking rows) as Hsum.
  assert (Hh : forall j, Stats.has_booking j
                         = Stats.has_status [inquiry] j
                           || Stats.has_status [confirmed; cleared] j).
  { intros [p [b|]]; unfold Stats.has_booking, Stats.has_status; cbn [snd];
      [destruct (bookings.status_ b)|]; reflexivity. }
  assert (Hd : forall j, Stats.has_status [inquiry] j
                         && Stats.has_status [confirmed; cleared] j = false).
  { intros [p [b|]]; unfold Stats.has_status; cbn [snd];
      [destruct (bookings.status_ b)|]; reflexivity. }
  specialize (Hsum Hh Hd).
  pose proof (count_where_le (Stats.has_status [inquiry]) Stats.has_booking rows) as Hi.
  pose proof (count_where_le (Stats.has_status [confirmed; cleared]) Stats.has_booking rows)
    as Hw.
  assert (Hi' : (0 <= count_where (Stats.has_status [inquiry]) rows
                 <= count_where Stats.has_booking rows)%Z).
  { apply Hi. intros j Hj. rewrite Hh, Hj. reflexivity. }
  assert (Hw' : (0 <= count_where (Stats.has_status [confirmed; cleared]) rows
                 <= count_where Stats.has_booking rows)%Z).
  { apply Hw. intros j Hj. rewrite Hh, Hj. apply orb_true_r. }
  split; [lia|]. split; [lia|]. split.
  - destruct (count_where Stats.has_booking rows >? 0)%Z eqn:E.
    + apply rate_bounds; [exact Hw' | apply Z.gtb_lt; exact E].
    + split; [apply Qle_refl | discriminate].
  - intros H0.
    assert (Hz : count_where Stats.has_booking rows = 0%Z) by lia.
    rewrite Hz. cbn [Z.gtb Z.compare]. split; [reflexivity|].
    assert (Hnone : non_null (map Stats.joined_hours rows) = []).
    { unfold count_where in Hz.
      assert (Hf : filter Stats.has_booking rows = [])
        by (destruct (filter Stats.has_booking rows); [reflexivity | cbn in Hz; lia]).
      clear - Hf. induction rows as [|[p [b|]] rows IH]; [reflexivity| |].
      - cbn in Hf. discriminate Hf.
      - cbn in Hf. cbn. apply IH. exact Hf. }
    unfold avg. rewrite Hnone. reflexivity.
Qed.

Lemma stats_counts_and_rate_witness :
  exists r, In r (Stats.get_admin_conversion_stats Examples.busy)
            /\ (0 <= Stats.conversion_rate r <= 100)%Q.
Proof.
  destruct (Stats.get_admin_conversion_stats Examples.busy) as [|r rest] eqn:E;
    [vm_compute in E; discriminate E|].
  exists r. split; [left; reflexivity|].
  apply (stats_counts_and_rate Examples.busy r). rewrite E. left. reflexivity.
Defined.

(** ** More on the provisioning trigger *)

(** The trigger function succeeds only for an id and an email that no
    profile has yet. *)
Lemma handle_new_user_fresh (db db' : database) (NEW : Auth.users_row) (now : timestamptz) :
  Auth.handle_new_user db NEW now = Dml.Done db' ->
  existsb (fun p => N.eqb (profiles.id p) (Auth.id NEW)) (db_profiles db) = false
  /\ exists e, Auth.email NEW = Some e
               /\ existsb (fun p => profiles.email p =? e) (db_profiles db) = false.
Proof.
  unfold Auth.handle_new_user, Auth.insert_profile.
  destruct (Auth.email NEW) as [e|]; [|discriminate].
  cbn [Dml.not_null Dml.bind option_map].
  destruct (Auth.coalesce2 (Auth.get_text (Auth.raw_user_meta_data NEW) "name")
                           (Some (split_part e "@" 1))) as [n|]; [|discriminate].
  cbn [Dml.not_null Dml.bind].
  destruct (Auth.coalesce2 (Auth.get_text (Auth.raw_user_meta_data NEW) "role")
                           (Some "client")) as [t|]; [|discriminate].
  cbn [Dml.not_null Dml.bind].
  destruct (role_of_text t) as [r|]; [|discriminate]. cbn [Dml.bind].
  destruct (existsb (fun p => N.eqb (profiles.id p) (Auth.id NEW)) (db_profiles db));
    [discriminate|]. cbn [negb Dml.guard Dml.bind].
  destruct (existsb (fun p => profiles.email p =? e) (db_profiles db)) eqn:Hem;
    [discriminate|]. intros _. split; [reflexivity|]. exists e. split; [reflexivity|exact Hem].
Qed.

(** The trigger function never succeeds for an id or an email that a
    profile has already. *)
Lemma handle_new_user_taken (db : database) (NEW : Auth.users_row) (now : timestamptz)
      (p : profiles.row) :
  In p (db_profiles db) ->
  profiles.id p = Auth.id NEW \/ Some (profiles.email p) = Auth.email NEW ->
  forall db', Auth.handle_new_user db NEW now <> Dml.Done db'.
Proof.
  intros Hp Hsame db' Hdone.
  apply handle_new_user_fresh in Hdone as (Hid & e & He & Hem).
  destruct Hsame as [Hs|Hs].
  - apply (proj1 (existsb_false_iff _ _)) with (x := p) in Hid; [|exact Hp].
    apply N.eqb_neq in Hid. contradiction.
  - apply (proj1 (existsb_false_iff _ _)) with (x := p) in Hem; [|exact Hp].
    apply String.eqb_neq in Hem. congruence.
Qed.

(** X7.  The trigger function keeps the ids and the emails of profiles
    unique, keeps every existing profile, in place, and the other two
    tables; and once it has provisioned an identity it raises for every
    later identity with the same id or the same email. *)
Theorem handle_new_user_keeps_profiles_unique
        (db db' : database) (NEW : Auth.users_row) (now : timestamptz) :
  NoDup (map profiles.id (db_profiles db)) ->
  NoDup (map profiles.email (db_profiles db)) ->
  Auth.handle_new_user db NEW now = Dml.Done db' ->
  NoDup (map profiles.id (db_profiles db'))
  /\ NoDup (map profiles.email (db_profiles db'))
  /\ firstn (List.length (db_profiles db)) (db_profiles db') = db_profiles db
  /\ List.length (db_profiles db') = S (List.length (db_profiles db))
  /\ db_bookings db' = db_bookings db
  /\ db_notifications db' = db_notifications db
  /\ forall NEW' now' db'',
       Auth.id NEW' = Auth.id NEW \/ Auth.email NEW' = Auth.email NEW ->
       Auth.handle_new_user db' NEW' now' <> Dml.Done db''.
Proof.
  intros Hids Hems Hdone.
  pose proof (handle_new_user_fresh _ _ _ _ Hdone) as (Hid & e & He & Hem).
  apply handle_new_user_done in Hdone as (e' & r & He' & _ & ->).
  rewrite He in He'. injection He' as <-.
  cbn [db_profiles db_bookings db_notifications].
  split; [|split; [|split; [|split; [|split; [|split]]]]].
  - rewrite map_app. cbn [map].
    apply NoDup_app; [exact Hids | repeat constructor; intros [] |].
    intros i Hi [<-|[]]. apply in_map_iff in Hi as (p & Hpi & Hp).
    apply (proj1 (existsb_false_iff _ _)) with (x := p) in Hid; [|exact Hp].
    apply N.eqb_neq in Hid. cbn [profiles.id] in Hpi. congruence.
  - rewrite map_app. cbn [map].
    apply NoDup_app; [exact Hems | repeat constructor; intros [] |].
    intros i Hi [<-|[]]. apply in_map_iff in Hi as (p & Hpi & Hp).
    apply (proj1 (existsb_false_iff _ _)) with (x := p) in Hem; [|exact Hp].
    apply String.eqb_neq in Hem. cbn [profiles.email] in Hpi. congruence.
  - rewrite firstn_app, Nat.sub_diag, firstn_all. cbn [firstn]. apply app_nil_r.
  - rewrite length_app. cbn [List.length]. lia.
  - reflexivity.
  - reflexivity.
  - intros NEW' now' db'' Hsame.
    apply handle_new_user_taken
      with (p := profiles.mk (Auth.id NEW) e
                   (match Auth.get_text (Auth.raw_user_meta_data NEW) "name" with
                    | Some n => n
                    | None => local_part e
                    end) None r None (Some now) (Some now)).
    + cbn [db_profiles]. apply in_or_app. right. left. reflexivity.
    + cbn [profiles.id profiles.email]. destruct Hsame as [H|H]; [left|right]; congruence.
Qed.

Lemma handle_new_user_keeps_profiles_unique_witness :
  exists db',
    Auth.handle_new_user Examples.office (Auth.mk 9 (Some "eve@x.com") None) 7 = Dml.Done db'
    /\ NoDup (map profiles.id (db_profiles db'))
    /\ forall db'', Auth.handle_new_user db' (Auth.mk 10 (Some "eve@x.com") None) 8
                    <> Dml.Done db''.
Proof.
  eexists. split; [reflexivity|].
  pose proof (handle_new_user_keeps_profiles_unique Examples.office _
                (Auth.mk 9 (Some "eve@x.com") None) 7
                ltac:(simpl; repeat constructor; simpl; intuition discriminate)
                ltac:(simpl; repeat constructor; simpl; intuition discriminate)
                eq_refl) as (H1 & _ & _ & _ & _ & _ & H7).
  split; [exact H1|]. intros db''. apply H7. right. reflexivity.
Defined.

(** ** More on the admin dashboard *)

Lemma where_status (b : bookings.row) (tab : status) :
  Sql.holds (Sql.eq (bookings.col b "status") (Sql.VText (status_text tab)))
  = status_eqb (bookings.status_ b) tab.
Proof.
  change (bookings.col b "status") with (Sql.VText (status_text (bookings.status_ b))).
  destruct (bookings.status_ b), tab; reflexivity.
Qed.

Lemma where_assigned (b : bookings.row) (uid : uuid) :
  Sql.holds (Sql.eq (bookings.col b "assigned_admin_id") (Sql.VUuid uid))
  = is_assigned uid b.
Proof.
  change (bookings.col b "assigned_admin_id")
    with (Sql.of_option Sql.VUuid (bookings.assigned_admin_id b)).
  unfold is_assigned. destruct (bookings.assigned_admin_id b) as [a|]; [|reflexivity].
  cbn. destruct (N.eqb a uid); reflexivity.
Qed.

(** After the migration every read of bookings succeeds, and returns the
    caller's own bookings, or all of them to an admin or super_admin. *)
Lemma readable_migrated (db : database) (uid : uuid) (rows : list bookings.row) :
  Dml.readable Ddl.migrated db (Rls.Authenticated uid) rows
  = Dml.Done (filter (fun b => owns uid b
                               || caller_role_in db uid ["admin"; "super_admin"]) rows).
Proof.
  induction rows as [|r rows IH]; [reflexivity|].
  cbn [Dml.readable filter]. rewrite bookings_select_value, IH.
  cbn [Dml.of_policy Dml.bind]. reflexivity.
Qed.

Lemma filter_filter_andb {A} (f g : A -> bool) (l : list A) :
  filter f (filter g l) = filter (fun x => g x && f x) l.
Proof.
  induction l as [|x l IH]; [reflexivity|].
  cbn [filter]. destruct (g x); cbn [filter andb]; rewrite IH; reflexivity.
Qed.

Lemma insert_by_Permutation r l :
  Permutation (AdminDashboard.insert_by r l) (r :: l).
Proof.
  induction l as [|h t IH]; cbn [AdminDashboard.insert_by]; [reflexivity|].
  destruct (AdminDashboard.newer_first r h); [reflexivity|].
  rewrite IH. apply perm_swap.
Qed.

Lemma order_created_desc_Permutation l :
  Permutation (AdminDashboard.order_created_desc l) l.
Proof.
  unfold AdminDashboard.order_created_desc.
  induction l as [|r l IH]; cbn [fold_right]; [reflexivity|].
  rewrite insert_by_Permutation, IH. reflexivity.
Qed.

Lemma newer_first_total a b :
  AdminDashboard.newer_first a b = false -> AdminDashboard.newer_first b a = true.
Proof.
  unfold AdminDashboard.newer_first.
  destruct (bookings.created_at a), (bookings.created_at b); try discriminate; auto.
  intros H. apply Z.leb_gt in H. apply Z.leb_le. lia.
Qed.

Lemma not_older_trans a b c : not_older a b -> not_older b c -> not_older a c.
Proof.
  unfold not_older, AdminDashboard.newer_first.
  destruct (bookings.created_at a), (bookings.created_at b), (bookings.created_at c);
    try discriminate; auto.
  intros H1 H2. apply Z.leb_le in H1, H2. apply Z.leb_le. lia.
Qed.

Lemma insert_by_sorted r l :
  StronglySorted not_older l -> StronglySorted not_older (AdminDashboard.insert_by r l).
Proof.
  induction 1 as [|h t Ht IH Hall]; cbn [AdminDashboard.insert_by].
  - repeat constructor.
  - destruct (AdminDashboard.newer_first r h) eqn:E.
    + constructor; [constructor; assumption|].
      constructor; [exact E|].
      apply Forall_forall. intros x Hx.
      apply not_older_trans with (b := h); [exact E|].
      apply (proj1 (Forall_forall _ _) Hall). exact Hx.
    + constructor; [exact IH|].
      apply Forall_forall. intros x Hx.
      apply (proj1 (insert_by_In _ _ _)) in Hx as [->|Hx].
      * apply newer_first_total. exact E.
      * apply (proj1 (Forall_forall _ _) Hall). exact Hx.
Qed.

Lemma order_created_desc_sorted l :
  StronglySorted not_older (AdminDashboard.order_created_desc l).
Proof.
  unfold AdminDashboard.order_created_desc.
  induction l as [|r l IH]; cbn [fold_right]; [constructor|].
  apply insert_by_sorted. exact IH.
Qed.

(** X8.  Whatever the catalog, the list that fetchBookings receives is
    ordered by created_at with the newest first (a NULL counting as the
    newest), every listed booking is a row of the table with the status of
    the tab, and for a user whose role is admin it is assigned to that
    user. *)
Theorem fetchBookings_sorted_and_filtered
        (cat : Ddl.catalog) (db : database) (user : types.User) (tab : status)
        (data : list bookings.row) :
  AdminDashboard.fetchBookings_query cat db user tab = Dml.Done data ->
  StronglySorted not_older data
  /\ forall b, In b data ->
       In b (db_bookings db)
       /\ bookings.status_ b = tab
       /\ (types.role_ user = admin ->
           bookings.assigned_admin_id b = Some (types.id user)).
Proof.
  intros Hq. pose proof (fetchBookings_subset _ _ _ _ _ Hq) as Hsub.
  unfold AdminDashboard.fetchBookings_query, Dml.select_bookings in Hq.
  destruct (Dml.readable _ _ _ _) as [rows|]; [|discriminate Hq].
  cbn [Dml.bind] in Hq. apply Done_inj in Hq. subst data.
  split; [apply order_created_desc_sorted|].
  intros b Hb. split; [apply Hsub; exact Hb|].
  apply (proj1 (order_created_desc_In _ _)) in Hb. apply filter_In in Hb as [_ Hc].
  apply andb_true_iff in Hc as [Hs Ha].
  rewrite where_status in Hs. apply status_eqb_eq in Hs.
  split; [exact Hs|]. intros Hr. rewrite Hr in Ha. cbn [role_eqb] in Ha.
  rewrite where_assigned in Ha. apply is_assigned_iff in Ha. exact Ha.
Qed.

Lemma fetchBookings_sorted_and_filtered_witness :
  exists data,
    AdminDashboard.fetchBookings_query Ddl.migrated Examples.busy
      (Examples.as_user Examples.ada) confirmed = Dml.Done data
    /\ StronglySorted not_older data.
Proof.
  eexists. split; [vm_compute; reflexivity|].
  apply (fetchBookings_sorted_and_filtered Ddl.migrated Examples.busy
           (Examples.as_user Examples.ada) confirmed _ ltac:(vm_compute; reflexivity)).
Defined.

(** X9.  After the migration fetchBookings never fails, and it receives
    exactly (as a multiset) the rows of the tab that the caller may read:
    the caller's own bookings, or every booking when the caller's profile
    row says admin or super_admin, narrowed to the bookings assigned to
    the user when the session's role is admin. *)
Theorem fetchBookings_after_migration (db : database) (user : types.User) (tab : status) :
  let uid := types.id user in
  exists data,
    AdminDashboard.fetchBookings_query Ddl.migrated db user tab = Dml.Done data
    /\ Permutation data
         (filter (fun b =>
                    (owns uid b || caller_role_in db uid ["admin"; "super_admin"])
                    && status_eqb (bookings.status_ b) tab
                    && (if role_eqb (types.role_ user) admin
                        then is_assigned uid b else true))
                 (db_bookings db)).
Proof.
  cbv zeta. unfold AdminDashboard.fetchBookings_query, Dml.select_bookings,
              AdminDashboard.session_of.
  rewrite readable_migrated. cbn [Dml.bind]. eexists. split; [reflexivity|].
  rewrite order_created_desc_Permutation, filter_filter_andb.
  erewrite filter_ext; [reflexivity|].
  intros b. cbv beta. rewrite where_status, where_assigned, andb_assoc. reflexivity.
Qed.

Lemma set_bookings_same (db : database) : Dml.set_bookings db (db_bookings db) = db.
Proof. destruct db; reflexivity. Qed.

Lemma map_unchanged {A} (f : A -> A) (l : list A) :
  (forall x, In x l -> f x = x) -> map f l = l.
Proof.
  intros H. induction l as [|x l IH]; [reflexivity|].
  cbn [map]. rewrite H by (left; reflexivity).
  rewrite IH by (intros y Hy; apply H; right; exact Hy). reflexivity.
Qed.

(** X10.  After the migration updateBookingStatus never fails: it sets
    the status and updated_at of the bookings with the given id that the
    caller may both read and update, and when there is none (an id that
    does not exist, or a booking of someone else for a caller who is not
    super_admin) it still succeeds and the database is as before. *)
Theorem updateBookingStatus_after_migration
        (db : database) (user : types.User) (bookingId : uuid)
        (n : AdminDashboard.newStatus) (now : timestamptz) :
  let uid := types.id user in
  AdminDashboard.updateBookingStatus Ddl.migrated db user bookingId n now
  = Dml.Done
      (Dml.set_bookings db
         (map (fun r =>
                 if N.eqb (bookings.id r) bookingId && may_read db uid r && may_write db uid r
                 then with_status r (AdminDashboard.status_of n) now else r)
              (db_bookings db)))
  /\ ((forall r, In r (db_bookings db) -> bookings.id r = bookingId ->
                 may_read db uid r && may_write db uid r = false) ->
      AdminDashboard.updateBookingStatus Ddl.migrated db user bookingId n now = Dml.Done db).
Proof.
  cbv zeta.
  assert (Hrun :
            AdminDashboard.updateBookingStatus Ddl.migrated db user bookingId n now
            = Dml.Done
                (Dml.set_bookings db
                   (map (fun r =>
                           if N.eqb (bookings.id r) bookingId
                              && may_read db (types.id user) r
                              && may_write db (types.id user) r
                           then with_status r (AdminDashboard.status_of n) now else r)
                        (db_bookings db)))).
  { unfold AdminDashboard.updateBookingStatus, Dml.update_bookings,
      AdminDashboard.session_of.
    replace (Dml.known_columns
               [("status", Sql.VText (status_text (AdminDashboard.status_of n)));
                ("updated_at", Sql.VTime now)])
      with (Dml.Done tt) by reflexivity.
    cbn [Dml.bind].
    rewrite (update_rows_migrated db (types.id user) (AdminDashboard.has_id bookingId)
               [("status", Sql.VText (status_text (AdminDashboard.status_of n)));
                ("updated_at", Sql.VTime now)]
               [("status", Sql.VText (status_text (AdminDashboard.status_of n)));
                ("updated_at", Sql.VTime now)]
               (fun r => with_status r (AdminDashboard.status_of n) now)
               eq_refl eq_refl
               (status_rewrites (AdminDashboard.status_of n) now)
               (fun r => eq_refl) (fun r => eq_refl) (fun r => eq_refl)).
    cbn [Dml.bind]. do 2 f_equal. apply map_ext. intros r.
    rewrite has_id_eqb. reflexivity. }
  split; [exact Hrun|].
  intros Hnone. rewrite Hrun. f_equal.
  rewrite map_unchanged; [apply set_bookings_same|].
  intros r Hr. destruct (N.eqb (bookings.id r) bookingId) eqn:E; [|reflexivity].
  apply N.eqb_eq in E. rewrite <- andb_assoc, (Hnone r Hr E). reflexivity.
Qed.

Lemma updateBookingStatus_after_migration_witness :
  AdminDashboard.updateBookingStatus Ddl.migrated Examples.busy
    (Examples.as_user Examples.ann) 11 AdminDashboard.to_cleared 9
  = Dml.Done Examples.busy.
Proof.
  apply (proj2 (updateBookingStatus_after_migration Examples.busy
                  (Examples.as_user Examples.ann) 11 AdminDashboard.to_cleared 9)).
  intros r Hr Hid. vm_compute in Hr.
  repeat (destruct Hr as [<-|Hr]; [vm_compute; reflexivity|]).
  destruct Hr.
Defined.

(** ** assignInquiry after the migration *)

(** One row of the assignment request. *)
Lemma assign_row_migrated (db : database) (uid inquiryId adminId : uuid)
      (now : timestamptz) (r : bookings.row) :
  Dml.update_row Ddl.migrated db (Rls.Authenticated uid)
    (AdminDashboard.has_id inquiryId)
    [("assigned_admin_id", Sql.VUuid adminId); ("updated_at", Sql.VTime now)] r
  = if N.eqb (bookings.id r) inquiryId && may_read db uid r && may_write db uid r
    then if N.eqb adminId uid || caller_role_in db uid ["super_admin"]
         then if Dml.option_uuid_eqb (Some adminId) (bookings.assigned_admin_id r)
                 || Dml.references_profile db (Some adminId)
              then Dml.Done (with_admin r adminId now)
              else Dml.Raise (Dml.ForeignKeyViolation "assigned_admin_id")
         else Dml.Raise (Dml.RlsViolation "bookings")
    else Dml.Done r.
Proof.
  unfold Dml.update_row, may_read, may_write. rewrite has_id_eqb.
  destruct (N.eqb (bookings.id r) inquiryId); [|reflexivity].
  rewrite bookings_select_value, bookings_update_value.
  cbn [Dml.of_policy Dml.bind andb].
  destruct (owns uid r || caller_role_in db uid ["admin"; "super_admin"]); [|reflexivity].
  destruct (is_assigned uid r || caller_role_in db uid ["super_admin"]); [|reflexivity].
  cbn [andb Dml.stored Dml.bind String.eqb Ascii.eqb Bool.eqb]. cbv beta zeta.
  rewrite bookings_update_check.
  change (Dml.overlay [("assigned_admin_id", Sql.VUuid adminId); ("updated_at", Sql.VTime now)]
            (bookings.col r) "assigned_admin_id") with (Sql.VUuid adminId).
  replace (Sql.holds (Sql.eq (Sql.VUuid adminId) (Sql.VUuid uid))) with (N.eqb adminId uid)
    by (cbn; destruct (N.eqb adminId uid); reflexivity).
  cbn [Dml.of_policy Dml.bind].
  destruct (N.eqb adminId uid || caller_role_in db uid ["super_admin"]); [|reflexivity].
  cbn [Dml.guard Dml.bind].
  change (Dml.dated [("assigned_admin_id", Sql.VUuid adminId); ("updated_at", Sql.VTime now)])
    with (Dml.Done tt).
  cbn [Dml.bind]. rewrite admin_rewrites. cbn [Dml.bind].
  change (bookings.id (with_admin r adminId now)) with (bookings.id r).
  rewrite N.eqb_refl. cbn [orb Dml.guard Dml.bind].
  change (bookings.client_id (with_admin r adminId now)) with (bookings.client_id r).
  rewrite option_uuid_eqb_refl. cbn [orb Dml.guard Dml.bind].
  change (bookings.assigned_admin_id (with_admin r adminId now)) with (Some adminId).
  destruct (Dml.option_uuid_eqb (Some adminId) (bookings.assigned_admin_id r)
            || Dml.references_profile db (Some adminId)); reflexivity.
Qed.

(** An update raises [e] when one of its rows does and every other row is
    written or raises [e] too. *)
Lemma update_rows_raise cat db who cond o (e : Dml.error) rows :
  (forall r, In r rows ->
     (exists r', Dml.update_row cat db who cond o r = Dml.Done r')
     \/ Dml.update_row cat db who cond o r = Dml.Raise e) ->
  (exists r, In r rows /\ Dml.update_row cat db who cond o r = Dml.Raise e) ->
  Dml.update_rows cat db who cond o rows = Dml.Raise e.
Proof.
  induction rows as [|r rows IH]; intros Hall (x & Hx & Hraise); [destruct Hx|].
  cbn [Dml.update_rows].
  destruct (Hall r (or_introl eq_refl)) as [(r' & Hr)|Hr]; rewrite Hr; cbn [Dml.bind];
    [|reflexivity].
  destruct Hx as [->|Hx]; [rewrite Hr in Hraise; discriminate Hraise|].
  rewrite IH; [reflexivity | intros y Hy; apply Hall; right; exact Hy | exists x; auto].
Qed.

Lemma update_rows_map cat db who cond o (g : bookings.row -> bookings.row) rows :
  (forall r, In r rows -> Dml.update_row cat db who cond o r = Dml.Done (g r)) ->
  Dml.update_rows cat db who cond o rows = Dml.Done (map g rows).
Proof.
  induction rows as [|r rows IH]; intros Hall; [reflexivity|].
  cbn [Dml.update_rows map]. rewrite (Hall r (or_introl eq_refl)). cbn [Dml.bind].
  rewrite IH by (intros y Hy; apply Hall; right; exact Hy). reflexivity.
Qed.

(** X12.  assignInquiry after the migration, for a caller [uid]:
    - a caller whose profile says super_admin assigns every booking of
      the given id, whatever its status and whatever the role of the
      account [adminId], provided that account has a profile;
    - for an account without a profile the request of a super_admin is
      rejected by the foreign key, as soon as it would change a booking;
    - a caller who is not super_admin cannot hand a booking assigned to
      itself over to another account: the request is rejected by the
      update policy, which also checks the new row;
    - and when the caller may update no booking of that id, the request
      succeeds and changes nothing. *)
Theorem assignInquiry_after_migration
        (db : database) (user : types.User) (inquiryId adminId : uuid) (now : timestamptz) :
  let uid := types.id user in
  let request :=
    SuperAdminDashboard.assignInquiry Ddl.migrated db user inquiryId adminId now in
  (caller_role_in db uid ["super_admin"] = true ->
   Dml.references_profile db (Some adminId) = true ->
   request
   = Dml.Done (Dml.set_bookings db
                 (map (fun r => if N.eqb (bookings.id r) inquiryId
                                then with_admin r adminId now else r)
                      (db_bookings db))))
  /\ (caller_role_in db uid ["super_admin"] = true ->
      Dml.references_profile db (Some adminId) = false ->
      (exists r, In r (db_bookings db) /\ bookings.id r = inquiryId
                 /\ bookings.assigned_admin_id r <> Some adminId) ->
      request = Dml.Raise (Dml.ForeignKeyViolation "assigned_admin_id"))
  /\ (caller_role_in db uid ["super_admin"] = false ->
      adminId <> uid ->
      (exists r, In r (db_bookings db) /\ bookings.id r = inquiryId
                 /\ may_read db uid r = true
                 /\ bookings.assigned_admin_id r = Some uid) ->
      request = Dml.Raise (Dml.RlsViolation "bookings"))
  /\ ((forall r, In r (db_bookings db) -> bookings.id r = inquiryId ->
                 may_read db uid r && may_write db uid r = false) ->
      request = Dml.Done db).
Proof.
  cbv zeta.
  unfold SuperAdminDashboard.assignInquiry, Dml.update_bookings, AdminDashboard.session_of.
  change (Dml.stored [("assigned_admin_id", Sql.VUuid adminId); ("updated_at", Sql.VTime now)])
    with (Dml.Done [("assigned_admin_id", Sql.VUuid adminId); ("updated_at", Sql.VTime now)]).
  cbn [Dml.bind].
  split; [|split; [|split]].
  - intros Hsuper Href.
    rewrite update_rows_map
      with (g := fun r => if N.eqb (bookings.id r) inquiryId
                          then with_admin r adminId now else r); [reflexivity|].
    intros r _. rewrite assign_row_migrated. unfold may_read, may_write.
    replace (caller_role_in db (types.id user) ["admin"; "super_admin"]) with true.
    + rewrite Hsuper, Href, !orb_true_r, !andb_true_r.
      destruct (N.eqb (bookings.id r) inquiryId); reflexivity.
    + symmetry. unfold caller_role_in in *. apply existsb_exists.
      apply existsb_exists in Hsuper as (p & Hp & Hrole). exists p. split; [exact Hp|].
      unfold own_role_in in *. apply andb_true_iff in Hrole as [Hid Hrole].
      rewrite Hid. cbn [andb existsb] in *. rewrite orb_false_r in Hrole.
      rewrite Hrole. apply orb_true_r.
  - intros Hsuper Href (x & Hx & Hid & Hother).
    assert (Hread : caller_role_in db (types.id user) ["admin"; "super_admin"] = true).
    { unfold caller_role_in in *. apply existsb_exists.
      apply existsb_exists in Hsuper as (p & Hp & Hrole). exists p. split; [exact Hp|].
      unfold own_role_in in *. apply andb_true_iff in Hrole as [Hpid Hrole].
      rewrite Hpid. cbn [andb existsb] in *. rewrite orb_false_r in Hrole.
      rewrite Hrole. apply orb_true_r. }
    rewrite update_rows_raise with (e := Dml.ForeignKeyViolation "assigned_admin_id");
      [reflexivity | |].
    + intros r _. rewrite assign_row_migrated. unfold may_read, may_write.
      rewrite Hsuper, Hread, Href, !orb_true_r, !andb_true_r, !orb_false_r.
      destruct (N.eqb (bookings.id r) inquiryId); [|left; eexists; reflexivity].
      destruct (Dml.option_uuid_eqb (Some adminId) (bookings.assigned_admin_id r));
        [left; eexists; reflexivity | right; reflexivity].
    + exists x. split; [exact Hx|]. rewrite assign_row_migrated. unfold may_read, may_write.
      rewrite Hsuper, Hread, Href, !orb_true_r, !andb_true_r, !orb_false_r.
      apply N.eqb_eq in Hid. rewrite Hid.
      destruct (bookings.assigned_admin_id x) as [a|]; cbn [Dml.option_uuid_eqb];
        [|reflexivity].
      destruct (N.eqb adminId a) eqn:E; [|reflexivity].
      apply N.eqb_eq in E. subst a. contradiction Hother. reflexivity.
  - intros Hsuper Hne (x & Hx & Hid & Hread & Hmine).
    apply N.eqb_neq in Hne.
    rewrite update_rows_raise with (e := Dml.RlsViolation "bookings"); [reflexivity | |].
    + intros r _. rewrite assign_row_migrated. rewrite Hsuper, Hne. cbn [orb].
      destruct (N.eqb (bookings.id r) inquiryId && may_read db (types.id user) r
                && may_write db (types.id user) r);
        [right; reflexivity | left; eexists; reflexivity].
    + exists x. split; [exact Hx|]. rewrite assign_row_migrated. rewrite Hsuper, Hne.
      apply N.eqb_eq in Hid. rewrite Hid, Hread. unfold may_write.
      apply is_assigned_iff in Hmine. rewrite Hmine. reflexivity.
  - intros Hnone.
    rewrite update_rows_map with (g := fun r => r).
    + rewrite map_id. cbn [Dml.bind]. rewrite set_bookings_same. reflexivity.
    + intros r Hr. rewrite assign_row_migrated.
      destruct (N.eqb (bookings.id r) inquiryId) eqn:E; [|reflexivity].
      apply N.eqb_eq in E. rewrite <- andb_assoc, (Hnone r Hr E). reflexivity.
Qed.

Lemma assignInquiry_after_migration_witness :
  SuperAdminDashboard.assignInquiry Ddl.migrated Examples.busy
    (Examples.as_user Examples.ada) 11 1 9
  = Dml.Raise (Dml.RlsViolation "bookings").
Proof.
  apply (proj1 (proj2 (proj2 (assignInquiry_after_migration Examples.busy
                                (Examples.as_user Examples.ada) 11 1 9)))).
  - vm_compute. reflexivity.
  - discriminate.
  - exists (Examples.assigned 11 inquiry (Some 4%N)).
    split; [left; reflexivity|]. split; [reflexivity|]. split; vm_compute; reflexivity.
Defined.

(** ** The receipts upload and the width of total_spend *)

Lemma Qfloor_ge (z : Z) (x : Q) : (z <= Qfloor x)%Z <-> (inject_Z z <= x)%Q.
Proof.
  pose proof (Qfloor_le x) as Hlo. pose proof (Qlt_floor x) as Hhi. split; intros H.
  - apply Qle_trans with (y := inject_Z (Qfloor x)); [|exact Hlo].
    rewrite <- Zle_Qle. exact H.
  - assert (Hlt : (inject_Z z < inject_Z (Qfloor x + 1))%Q)
      by (apply Qle_lt_trans with (y := x); assumption).
    rewrite <- Zlt_Qlt in Hlt. lia.
Qed.

(** The rounded amount does not fit decimal(10,2) exactly from
    99999999.995 on, in absolute value. *)
Lemma overflow_threshold (q : Q) :
  Qle_bool (100000000 # 1) (Qabs (round_numeric q 2)) = true
  <-> (99999999995 # 1000 <= Qabs q)%Q.
Proof.
  rewrite Qle_bool_iff. unfold round_numeric. cbv zeta.
  change (10 ^ Z.of_nat 2)%Z with 100%Z. change (inject_Z 100) with 100%Q.
  destruct (Qle_bool 0 (q * 100)) eqn:E.
  - apply Qle_bool_iff in E.
    assert (Hq : (0 <= q)%Q) by lra.
    rewrite (Qabs_pos q Hq).
    assert (H0 : (0 <= Qfloor (q * 100 + (1 # 2)))%Z).
    { apply Qfloor_ge. change (inject_Z 0) with 0%Q. lra. }
    assert (Hf : (0 <= inject_Z (Qfloor (q * 100 + (1 # 2))))%Q)
      by (change 0%Q with (inject_Z 0); rewrite <- Zle_Qle; exact H0).
    rewrite Qabs_pos by (unfold Qdiv; change (/ 100)%Q with (1 # 100)%Q; lra).
    pose proof (Qfloor_ge 10000000000 (q * 100 + (1 # 2))) as Hz.
    change (inject_Z 10000000000) with 10000000000%Q in Hz.
    unfold Qdiv. change (/ 100)%Q with (1 # 100)%Q. split; intros H.
    + assert (Hn : (10000000000 <= inject_Z (Qfloor (q * 100 + (1 # 2))))%Q) by lra.
      change 10000000000%Q with (inject_Z 10000000000) in Hn.
      rewrite <- Zle_Qle in Hn. apply Hz in Hn. lra.
    + assert (Hn : (10000000000 <= q * 100 + (1 # 2))%Q) by lra.
      apply Hz in Hn. rewrite Zle_Qle in Hn.
      change (inject_Z 10000000000) with 10000000000%Q in Hn. lra.
  - assert (E' : ~ (0 <= q * 100)%Q) by (rewrite <- Qle_bool_iff, E; discriminate).
    assert (Hq : (q <= 0)%Q) by lra.
    rewrite (Qabs_neg q Hq).
    assert (H0 : (0 <= Qfloor (- (q * 100) + (1 # 2)))%Z).
    { apply Qfloor_ge. change (inject_Z 0) with 0%Q. lra. }
    assert (Hf : (0 <= inject_Z (Qfloor (- (q * 100) + (1 # 2))))%Q)
      by (change 0%Q with (inject_Z 0); rewrite <- Zle_Qle; exact H0).
    rewrite inject_Z_opp.
    rewrite Qabs_neg by (unfold Qdiv; change (/ 100)%Q with (1 # 100)%Q; lra).
    pose proof (Qfloor_ge 10000000000 (- (q * 100) + (1 # 2))) as Hz.
    change (inject_Z 10000000000) with 10000000000%Q in Hz.
    unfold Qdiv. change (/ 100)%Q with (1 # 100)%Q. split; intros H.
    + assert (Hn : (10000000000 <= inject_Z (Qfloor (- (q * 100) + (1 # 2))))%Q) by lra.
      change 10000000000%Q with (inject_Z 10000000000) in Hn.
      rewrite <- Zle_Qle in Hn. apply Hz in Hn. lra.
    + assert (Hn : (10000000000 <= - (q * 100) + (1 # 2))%Q) by lra.
      apply Hz in Hn. rewrite Zle_Qle in Hn.
      change (inject_Z 10000000000) with 10000000000%Q in Hn. lra.
Qed.

(** A request whose values cannot be converted rewrites no row: a row
    that it reaches raises the error, the others are left alone. *)
Lemma update_rows_unconverted cat db who cond o (e : Dml.error) rows rows' :
  Dml.stored o = Dml.Raise e ->
  Dml.update_rows cat db who cond o rows = Dml.Done rows' -> rows' = rows.
Proof.
  intros Ho. revert rows'. induction rows as [|r rows IH]; intros rows'; cbn [Dml.update_rows].
  - intros H. apply Done_inj in H. symmetry. exact H.
  - destruct (Dml.update_row cat db who cond o r) as [r1|] eqn:E1; [|discriminate].
    cbn [Dml.bind].
    destruct (Dml.update_rows cat db who cond o rows) as [rest|]; [|discriminate].
    cbn [Dml.bind]. intros H. apply Done_inj in H. subst rows'.
    rewrite (IH rest eq_refl). f_equal.
    unfold Dml.update_row in E1. destruct (cond r); [|apply Done_inj in E1; auto].
    destruct (Dml.of_policy "bookings" (Rls.permits cat db who "bookings" Ddl.CmdSelect _))
      as [can_read|]; [|discriminate E1].
    cbn [Dml.bind] in E1.
    destruct (Dml.of_policy "bookings" (Rls.permits cat db who "bookings" Ddl.CmdUpdate _))
      as [can_write|]; [|discriminate E1].
    cbn [Dml.bind] in E1.
    destruct (can_read && can_write); [|apply Done_inj in E1; auto].
    rewrite Ho in E1. discriminate E1.
Qed.

Lemma update_row_unconverted db uid cond o (e : Dml.error) r :
  Dml.stored o = Dml.Raise e ->
  Dml.update_row Ddl.migrated db (Rls.Authenticated uid) cond o r
  = if cond r && may_read db uid r && may_write db uid r then Dml.Raise e else Dml.Done r.
Proof.
  intros Ho. unfold Dml.update_row, may_read, may_write.
  destruct (cond r); [|reflexivity].
  rewrite bookings_select_value, bookings_update_value. cbn [Dml.of_policy Dml.bind andb].
  destruct ((owns uid r || caller_role_in db uid ["admin"; "super_admin"])
            && (is_assigned uid r || caller_role_in db uid ["super_admin"]));
    [|reflexivity].
  rewrite Ho. reflexivity.
Qed.

(** X11.  A receipts upload whose amount is 99999999.995 or more in
    absolute value does not fit decimal(10,2).  Whatever the catalog, such
    a request never changes the database.  After the migration it raises
    a numeric overflow, and the dashboard keeps its state, when the
    caller may read and update a booking of the given id; when there is
    no such booking the amount is never converted: the request succeeds,
    writes nothing, and the dashboard fetches its list again.  After the
    migration the overflow is the only way the request fails: a smaller
    amount, and an amount that is not a finite number (sent as null), are
    accepted. *)
Theorem uploadReceipts_overflow
        (cat : Ddl.catalog) (db : database) (user : types.User) (bookingId : uuid)
        (q : Q) (now : timestamptz) (s : AdminDashboard.state) :
  let uid := types.id user in
  let upload c := AdminDashboard.uploadReceipts c db user bookingId (types.Finite q) now in
  ((99999999995 # 1000 <= Qabs q)%Q ->
   fst (AdminDashboard.after_request db (upload cat) s) = db
   /\ ((exists r, In r (db_bookings db) /\ bookings.id r = bookingId
                  /\ may_read db uid r && may_write db uid r = true) ->
       upload Ddl.migrated = Dml.Raise (Dml.NumericOverflow "total_spend")
       /\ AdminDashboard.after_request db (upload Ddl.migrated) s = (db, s))
   /\ ((forall r, In r (db_bookings db) -> bookings.id r = bookingId ->
                  may_read db uid r && may_write db uid r = false) ->
       upload Ddl.migrated = Dml.Done db
       /\ AdminDashboard.after_request db (upload Ddl.migrated) s
          = (db, AdminDashboard.fetchBookings_start s)))
  /\ (~ (99999999995 # 1000 <= Qabs q)%Q -> exists db', upload Ddl.migrated = Dml.Done db')
  /\ exists db',
       AdminDashboard.uploadReceipts Ddl.migrated db user bookingId types.NotFinite now
       = Dml.Done db'.
Proof.
  cbv zeta. split; [|split].
  - intros Hbig. apply overflow_threshold in Hbig.
    assert (Ho : Dml.stored [("receipts_uploaded", Sql.VBool true);
                             ("total_spend", types.json_number (types.Finite q));
                             ("updated_at", Sql.VTime now)]
                 = Dml.Raise (Dml.NumericOverflow "total_spend"))
      by (rewrite upload_stored, Hbig; reflexivity).
    split; [|split].
    + unfold AdminDashboard.after_request.
      destruct (AdminDashboard.uploadReceipts cat db user bookingId (types.Finite q) now)
        as [db'|] eqn:E; [|reflexivity].
      cbn [fst]. apply update_bookings_cases in E as (rows & Hrows & ->).
      apply (update_rows_unconverted _ _ _ _ _ _ _ _ Ho) in Hrows. subst rows.
      apply set_bookings_same.
    + intros (x & Hx & Hid & Hmay).
      assert (Hr : AdminDashboard.uploadReceipts Ddl.migrated db user bookingId
                     (types.Finite q) now
                   = Dml.Raise (Dml.NumericOverflow "total_spend")).
      { unfold AdminDashboard.uploadReceipts, Dml.update_bookings,
          AdminDashboard.session_of.
        replace (Dml.known_columns [("receipts_uploaded", Sql.VBool true);
                                    ("total_spend", types.json_number (types.Finite q));
                                    ("updated_at", Sql.VTime now)])
          with (Dml.Done tt) by reflexivity.
        cbn [Dml.bind].
        rewrite update_rows_raise with (e := Dml.NumericOverflow "total_spend");
          [reflexivity | |].
        - intros r _. rewrite (update_row_unconverted _ _ _ _ _ _ Ho).
          destruct (AdminDashboard.has_id bookingId r && may_read db (types.id user) r
                    && may_write db (types.id user) r);
            [right; reflexivity | left; eexists; reflexivity].
        - exists x. split; [exact Hx|]. rewrite (update_row_unconverted _ _ _ _ _ _ Ho).
          rewrite has_id_eqb. apply N.eqb_eq in Hid.
          rewrite Hid, <- andb_assoc, Hmay. reflexivity. }
      rewrite Hr. split; reflexivity.
    + intros Hnone.
      assert (Hr : AdminDashboard.uploadReceipts Ddl.migrated db user bookingId
                     (types.Finite q) now = Dml.Done db).
      { unfold AdminDashboard.uploadReceipts, Dml.update_bookings,
          AdminDashboard.session_of.
        replace (Dml.known_columns [("receipts_uploaded", Sql.VBool true);
                                    ("total_spend", types.json_number (types.Finite q));
                                    ("updated_at", Sql.VTime now)])
          with (Dml.Done tt) by reflexivity.
        cbn [Dml.bind].
        rewrite update_rows_map with (g := fun r => r).
        - rewrite map_id. cbn [Dml.bind]. rewrite set_bookings_same. reflexivity.
        - intros r Hr. rewrite (update_row_unconverted _ _ _ _ _ _ Ho), has_id_eqb.
          destruct (N.eqb (bookings.id r) bookingId) eqn:E; [|reflexivity].
          apply N.eqb_eq in E. rewrite <- andb_assoc, (Hnone r Hr E). reflexivity. }
      rewrite Hr. split; reflexivity.
  - intros Hsmall. eexists. apply uploadReceipts_writes.
    apply not_true_is_false. intros H. apply Hsmall. apply overflow_threshold. exact H.
  - eexists. apply uploadReceipts_writes. exact I.
Qed.

Lemma uploadReceipts_overflow_witness :
  AdminDashboard.uploadReceipts Ddl.migrated Examples.busy (Examples.as_user Examples.ada)
    12 (types.Finite (100000000 # 1)) 9
  = Dml.Raise (Dml.NumericOverflow "total_spend")
  /\ AdminDashboard.uploadReceipts Ddl.migrated Examples.busy (Examples.as_user Examples.ada)
       77 (types.Finite (100000000 # 1)) 9
     = Dml.Done Examples.busy.
Proof.
  assert (Hbig : (99999999995 # 1000 <= Qabs (100000000 # 1))%Q)
    by (unfold Qle, Qabs; simpl; lia).
  split.
  - apply (proj1 (proj2 (proj1 (uploadReceipts_overflow Ddl.migrated Examples.busy
                                  (Examples.as_user Examples.ada) 12 (100000000 # 1) 9
                                  AdminDashboard.initial) Hbig))).
    exists (Examples.assigned 12 confirmed (Some 4%N)).
    split; [right; left; reflexivity|]. split; [reflexivity | vm_compute; reflexivity].
  - apply (proj2 (proj2 (proj1 (uploadReceipts_overflow Ddl.migrated Examples.busy
                                  (Examples.as_user Examples.ada) 77 (100000000 # 1) 9
                                  AdminDashboard.initial) Hbig))).
    intros r Hr Hid. vm_compute in Hr.
    repeat (destruct Hr as [<-|Hr]; [vm_compute in Hid; discriminate Hid|]).
    destruct Hr.
Defined.

(** ** What the application never writes *)

Lemma Forall2_refl_on {A} (R : A -> A -> Prop) (l : list A) :
  (forall x, R x x) -> Forall2 R l l.
Proof. intros H. induction l; constructor; auto. Qed.

(** The profiles after provisioning an identity keep their ids unique. *)
Lemma handle_new_user_ids (db db' : database) (NEW : Auth.users_row) (now : timestamptz) :
  Auth.handle_new_user db NEW now = Dml.Done db' ->
  exists p, db' = mkdb (db_profiles db ++ [p]) (db_bookings db) (db_notifications db)
            /\ (NoDup (map profiles.id (db_profiles db)) ->
                NoDup (map profiles.id (db_profiles db ++ [p]))).
Proof.
  intros Hdone.
  pose proof (handle_new_user_fresh _ _ _ _ Hdone) as (Hid & _).
  apply handle_new_user_done in Hdone as (e & r & _ & _ & ->).
  eexists. split; [reflexivity|]. intros Hids.
  rewrite map_app. cbn [map].
  apply NoDup_app; [exact Hids | repeat constructor; intros [] |].
  intros i Hi [<-|[]]. apply in_map_iff in Hi as (p & Hpi & Hp).
  apply (proj1 (existsb_false_iff _ _)) with (x := p) in Hid; [|exact Hp].
  apply N.eqb_neq in Hid. cbn [profiles.id] in Hpi. congruence.
Qed.

(** One step on the three tables: notifications are never written,
    profiles only grow, and bookings are rewritten in place by the request
    of the action or grow by one submitted row under a new id. *)
Lemma step_rows (cat : Ddl.catalog) (a : App.action) (w : App.world) :
  db_notifications (App.db (App.step cat a w)) = db_notifications (App.db w)
  /\ (exists more,
        db_profiles (App.db (App.step cat a w)) = db_profiles (App.db w) ++ more
        /\ (more = [] \/ exists NEW now, a = App.Provision NEW now)
        /\ (NoDup (map profiles.id (db_profiles (App.db w))) ->
            NoDup (map profiles.id (db_profiles (App.db (App.step cat a w))))))
  /\ exists rows' extra,
       db_bookings (App.db (App.step cat a w)) = rows' ++ extra
       /\ Forall2 (rewritten_by a) (db_bookings (App.db w)) rows'
       /\ (extra = []
           \/ exists who data g now,
                a = App.Submit who data g now
                /\ extra = [submitted_row g now data]
                /\ Dml.has_booking_id (App.db w) g = false).
Proof.
  assert (Hkeep : forall d, d = App.db w ->
            db_notifications d = db_notifications (App.db w)
            /\ (exists more,
                  db_profiles d = db_profiles (App.db w) ++ more
                  /\ (more = [] \/ exists NEW now, a = App.Provision NEW now)
                  /\ (NoDup (map profiles.id (db_profiles (App.db w))) ->
                      NoDup (map profiles.id (db_profiles d))))
            /\ exists rows' extra,
                 db_bookings d = rows' ++ extra
                 /\ Forall2 (rewritten_by a) (db_bookings (App.db w)) rows'
                 /\ (extra = []
                     \/ exists who data g now,
                          a = App.Submit who data g now
                          /\ extra = [submitted_row g now data]
                          /\ Dml.has_booking_id (App.db w) g = false)).
  { intros d ->. split; [reflexivity|]. split.
    - exists []. rewrite app_nil_r. auto.
    - exists (db_bookings (App.db w)), []. rewrite app_nil_r.
      split; [reflexivity|]. split; [|left; reflexivity].
      apply Forall2_refl_on. intros x. left. reflexivity. }
  assert (Hrows : forall d,
            db_profiles d = db_profiles (App.db w) ->
            db_notifications d = db_notifications (App.db w) ->
            Forall2 (rewritten_by a) (db_bookings (App.db w)) (db_bookings d) ->
            db_notifications d = db_notifications (App.db w)
            /\ (exists more,
                  db_profiles d = db_profiles (App.db w) ++ more
                  /\ (more = [] \/ exists NEW now, a = App.Provision NEW now)
                  /\ (NoDup (map profiles.id (db_profiles (App.db w))) ->
                      NoDup (map profiles.id (db_profiles d))))
            /\ exists rows' extra,
                 db_bookings d = rows' ++ extra
                 /\ Forall2 (rewritten_by a) (db_bookings (App.db w)) rows'
                 /\ (extra = []
                     \/ exists who data g now,
                          a = App.Submit who data g now
                          /\ extra = [submitted_row g now data]
                          /\ Dml.has_booking_id (App.db w) g = false)).
  { intros d Hp Hn Hb. split; [exact Hn|]. split.
    - exists []. rewrite app_nil_r, Hp. auto.
    - exists (db_bookings d), []. rewrite app_nil_r. auto. }
  assert (Hsession : forall i (f : App.session -> App.session),
            let d := App.db (App.on_session i (fun s => (App.db w, f s)) w) in
            db_notifications d = db_notifications (App.db w)
            /\ (exists more,
                  db_profiles d = db_profiles (App.db w) ++ more
                  /\ (more = [] \/ exists NEW now, a = App.Provision NEW now)
                  /\ (NoDup (map profiles.id (db_profiles (App.db w))) ->
                      NoDup (map profiles.id (db_profiles d))))
            /\ exists rows' extra,
                 db_bookings d = rows' ++ extra
                 /\ Forall2 (rewritten_by a) (db_bookings (App.db w)) rows'
                 /\ (extra = []
                     \/ exists who data g now,
                          a = App.Submit who data g now
                          /\ extra = [submitted_row g now data]
                          /\ Dml.has_booking_id (App.db w) g = false)).
  { intros i f. cbv zeta. apply Hkeep. rewrite on_session_db.
    destruct (nth_error (App.sessions w) i); reflexivity. }
  destruct a as [who data g now | NEW now | i tab | i k | i k | i k now | i k spend now
                 | i k now | i k | i k | i | i k j now]; cbn [App.step];
    try apply Hsession.
  - (* Submit *)
    cbn [App.db].
    destruct (onSubmit_rows cat (App.db w) who g now data) as [->|[Hnew ->]];
      [apply Hkeep; reflexivity|].
    split; [reflexivity|]. split.
    + exists []. rewrite app_nil_r. auto.
    + exists (db_bookings (App.db w)), [submitted_row g now data].
      split; [reflexivity|]. split; [apply Forall2_refl_on; intros x; left; reflexivity|].
      right. exists who, data, g, now. auto.
  - (* Provision *)
    destruct (Auth.handle_new_user (App.db w) NEW now) as [db'|] eqn:E;
      [|apply Hkeep; reflexivity].
    cbn [App.db]. apply handle_new_user_ids in E as (p & -> & Hnd).
    split; [reflexivity|]. split.
    + exists [p]. split; [reflexivity|]. split; [right; eauto | exact Hnd].
    + exists (db_bookings (App.db w)), []. rewrite app_nil_r.
      split; [reflexivity|]. split; [|left; reflexivity].
      apply Forall2_refl_on. intros x. left. reflexivity.
  - (* UpdateServed *)
    rewrite on_session_db.
    destruct (nth_error (App.sessions w) i) as [s|] eqn:Es; [|apply Hkeep; reflexivity].
    unfold App.with_admin. cbn [fst].
    destruct (update_serve_db cat (App.db w) (App.user s) k (App.admin_ s))
      as [->|(u & db' & Hu & Hreq & ->)]; [apply Hkeep; reflexivity|].
    destruct u as [bookingId n now | bookingId spend now]; cbn [AdminDashboard.request] in Hreq.
    + apply updateBookingStatus_cases in Hreq as (Hp & Hn & Hrows').
      apply Hrows; [exact Hp | exact Hn|].
      eapply Forall2_impl; [|exact Hrows'].
      intros r r' [-> | [_ ->]]; [left; reflexivity | right; left; eauto].
    + apply uploadReceipts_cases in Hreq as (Hp & Hn & Hrows').
      apply Hrows; [exact Hp | exact Hn|].
      eapply Forall2_impl; [|exact Hrows'].
      intros r r' [-> | [_ ->]]; [left; reflexivity | right; right; eauto].
  - (* AssignInquiry *)
    rewrite on_session_db.
    destruct (nth_error (App.sessions w) i) as [s|] eqn:Es; [|apply Hkeep; reflexivity].
    destruct (SuperAdminDashboard.loading (App.super_ s)); [apply Hkeep; reflexivity|].
    destruct (nth_error (SuperAdminDashboard.unassignedInquiries (App.super_ s)) k)
      as [inquiry_|]; [|apply Hkeep; reflexivity].
    destruct (nth_error (SuperAdminDashboard.options (App.super_ s)) j) as [adm|];
      [|apply Hkeep; reflexivity].
    unfold App.with_super, SuperAdminDashboard.after_request. cbn [fst].
    destruct (SuperAdminDashboard.assignInquiry cat (App.db w) (App.user s)
                (bookings.id inquiry_) (profiles.id adm) now) as [db'|] eqn:Hreq;
      cbn [fst]; [|apply Hkeep; reflexivity].
    apply assignInquiry_cases in Hreq as (Hp & Hn & Hrows').
    apply Hrows; [exact Hp | exact Hn|].
    eapply Forall2_impl; [|exact Hrows'].
    intros r r' [-> | ->]; [left; reflexivity | right; eexists; reflexivity].
Qed.

Lemma never_rewritten_refl b : never_rewritten b b.
Proof. unfold never_rewritten. repeat split. Qed.

Lemma never_rewritten_trans a b c :
  never_rewritten a b -> never_rewritten b c -> never_rewritten a c.
Proof.
  unfold never_rewritten. intros H1 H2.
  repeat match goal with
         | H : _ /\ _ |- _ => destruct H
         end.
  repeat split; congruence.
Qed.

Lemma rewritten_by_never a r r' : rewritten_by a r r' -> never_rewritten r r'.
Proof.
  intros [->|H]; [apply never_rewritten_refl|].
  destruct a; try contradiction.
  - destruct H as [(n & now & ->)|(spend & now & ->)]; unfold never_rewritten; repeat split.
  - destruct H as [adm ->]. unfold never_rewritten. repeat split.
Qed.

Lemma Forall2_trans_app {A} (R : A -> A -> Prop) (l1 l2 l3 extra : list A) :
  (forall x y z, R x y -> R y z -> R x z) ->
  Forall2 R l1 l2 -> Forall2 R (l2 ++ extra) l3 ->
  exists l3' extra', l3 = l3' ++ extra' /\ Forall2 R l1 l3'
                     /\ List.length extra' = List.length extra.
Proof.
  intros Htrans H12. revert l3. induction H12 as [|x y l1 l2 Hxy H12 IH]; intros l3 H23.
  - exists [], l3. split; [reflexivity|]. split; [constructor|].
    symmetry. eapply Forall2_length. exact H23.
  - cbn [app] in H23. inversion H23 as [|? z ? l3t Hyz H23t]; subst.
    destruct (IH l3t H23t) as (l3' & extra' & -> & H13 & Hlen).
    exists (z :: l3'), extra'. split; [reflexivity|]. split; [|exact Hlen].
    constructor; [eapply Htrans; eauto | exact H13].
Qed.

(** X13.  Whatever the catalog, the users and the sequence of actions:
    the application never writes notifications; profiles are only added
    to, at the end; and no booking is ever deleted or moved, nor are its
    id, client_id, the fields of the form, receipts_approved or
    created_at ever rewritten. *)
Theorem run_frame (cat : Ddl.catalog) (actions : list App.action) (w : App.world) :
  let w' := App.run cat actions w in
  db_notifications (App.db w') = db_notifications (App.db w)
  /\ (exists more, db_profiles (App.db w') = db_profiles (App.db w) ++ more)
  /\ exists rows' extra,
       db_bookings (App.db w') = rows' ++ extra
       /\ Forall2 never_rewritten (db_bookings (App.db w)) rows'.
Proof.
  cbv zeta. revert w. induction actions as [|a rest IH]; intros w; cbn [App.run].
  - split; [reflexivity|]. split; [exists []; symmetry; apply app_nil_r|].
    exists (db_bookings (App.db w)), []. rewrite app_nil_r.
    split; [reflexivity|]. apply Forall2_refl_on. apply never_rewritten_refl.
  - destruct (IH (App.step cat a w)) as (Hn & (more & Hp) & rows2 & extra2 & Hb & Hrel).
    destruct (step_rows cat a w)
      as (Hn1 & (more1 & Hp1 & _) & rows1 & extra1 & Hb1 & Hrel1 & _).
    split; [congruence|]. split.
    + exists (more1 ++ more). rewrite Hp, Hp1, app_assoc. reflexivity.
    + rewrite Hb1 in Hrel.
      assert (Hrel1' : Forall2 never_rewritten (db_bookings (App.db w)) rows1)
        by (eapply Forall2_impl; [|exact Hrel1]; intros x y; apply rewritten_by_never).
      destruct (Forall2_trans_app _ _ _ _ _ never_rewritten_trans Hrel1' Hrel)
        as (l3' & extra' & -> & H13 & _).
      exists l3', (extra' ++ extra2). rewrite Hb, app_assoc. auto.
Qed.

(** ** The super-admin dashboard after the migration *)

(** After the migration a caller reads its own profile row and no other. *)
Lemma readable_profiles_migrated (db : database) (uid : uuid) (rows : list profiles.row) :
  Dml.readable_profiles Ddl.migrated db (Rls.Authenticated uid) rows
  = Dml.Done (filter (fun p => N.eqb uid (profiles.id p)) rows).
Proof.
  induction rows as [|r rows IH]; [reflexivity|].
  cbn [Dml.readable_profiles filter]. rewrite profiles_select_value, IH.
  cbn [Dml.of_policy Dml.bind]. reflexivity.
Qed.

Lemma where_unassigned_inquiry (b : bookings.row) :
  Sql.holds (Sql.eq (bookings.col b "status") (Sql.VText "inquiry"))
  && SuperAdminDashboard.is_null (bookings.col b "assigned_admin_id") = true
  <-> bookings.status_ b = inquiry /\ bookings.assigned_admin_id b = None.
Proof.
  change (Sql.VText "inquiry") with (Sql.VText (status_text inquiry)).
  rewrite where_status, andb_true_iff, status_eqb_eq.
  change (bookings.col b "assigned_admin_id")
    with (Sql.of_option Sql.VUuid (bookings.assigned_admin_id b)).
  destruct (bookings.assigned_admin_id b); cbn; intuition congruence.
Qed.

Lemma where_role_admin (p : profiles.row) :
  Sql.holds (Sql.in3 (profiles.col p "role") [Sql.VText "admin"; Sql.VText "super_admin"])
  = negb (role_eqb (profiles.role_ p) client).
Proof.
  change (profiles.col p "role") with (Sql.VText (role_text (profiles.role_ p))).
  destruct (profiles.role_ p); reflexivity.
Qed.

(** The three lists that fetchData receives after the migration. *)
Lemma fetchData_migrated (db : database) (user : types.User) :
  SuperAdminDashboard.fetchData_query Ddl.migrated db user
  = Dml.Done
      (Stats.get_admin_conversion_stats db,
       filter (fun b =>
                 Sql.holds (Sql.eq (bookings.col b "status") (Sql.VText "inquiry"))
                 && SuperAdminDashboard.is_null (bookings.col b "assigned_admin_id"))
              (filter (may_read db (types.id user)) (db_bookings db)),
       filter (fun p => negb (role_eqb (profiles.role_ p) client))
              (filter (fun p => N.eqb (types.id user) (profiles.id p)) (db_profiles db))).
Proof.
  unfold SuperAdminDashboard.fetchData_query, Dml.select_bookings, Dml.select_profiles,
    AdminDashboard.session_of.
  rewrite readable_migrated, readable_profiles_migrated. cbn [Dml.bind].
  do 2 f_equal. apply filter_ext. intros p. apply where_role_admin.
Qed.

(** X14.  After the migration fetchData never fails, and for a caller
    [uid] it receives: the statistics of every admin; the inquiries
    without an assigned admin among the bookings the caller may read; and
    as the list of admins only profiles of the caller itself, so that the
    options of the "Assign to Admin" select, the listed profiles of role
    admin, are empty for every caller whose own profile is not of role
    admin, a super_admin included. *)
Theorem fetchData_after_migration (db : database) (user : types.User) :
  let uid := types.id user in
  exists inquiries admins_,
    SuperAdminDashboard.fetchData_query Ddl.migrated db user
    = Dml.Done (Stats.get_admin_conversion_stats db, inquiries, admins_)
    /\ (forall b, In b inquiries <->
          In b (db_bookings db) /\ may_read db uid b = true
          /\ bookings.status_ b = inquiry /\ bookings.assigned_admin_id b = None)
    /\ (forall p, In p admins_ <->
          In p (db_profiles db) /\ profiles.id p = uid /\ profiles.role_ p <> client)
    /\ ((forall p, In p (db_profiles db) -> profiles.id p = uid ->
                   profiles.role_ p <> admin) ->
        forall s, SuperAdminDashboard.options
                    (SuperAdminDashboard.mk (Stats.get_admin_conversion_stats db)
                       inquiries admins_ false s) = []).
Proof.
  cbv zeta. rewrite fetchData_migrated. eexists. eexists. split; [reflexivity|].
  assert (Hadm : forall p,
             In p (filter (fun p => negb (role_eqb (profiles.role_ p) client))
                     (filter (fun p => N.eqb (types.id user) (profiles.id p))
                        (db_profiles db)))
             <-> In p (db_profiles db) /\ profiles.id p = types.id user
                 /\ profiles.role_ p <> client).
  { intros p. rewrite !filter_In, N.eqb_eq, negb_true_iff.
    split.
    - intros [[Hp Hid] Hr]. split; [exact Hp|]. split; [symmetry; exact Hid|].
      intros Hc. rewrite Hc in Hr. discriminate Hr.
    - intros (Hp & Hid & Hr). split; [split; [exact Hp | symmetry; exact Hid]|].
      destruct (profiles.role_ p); try reflexivity. contradiction Hr. reflexivity. }
  split; [|split].
  - intros b. rewrite !filter_In, where_unassigned_inquiry. tauto.
  - exact Hadm.
  - intros Hnone s. unfold SuperAdminDashboard.options.
    cbn [SuperAdminDashboard.admins].
    apply filter_none. intros p Hp. apply Hadm in Hp as (Hp & Hid & _).
    apply not_true_is_false. intros Hr. apply role_eqb_eq in Hr.
    exact (Hnone p Hp Hid Hr).
Qed.

Lemma fetchData_after_migration_witness :
  exists stats inquiries admins_,
    SuperAdminDashboard.fetchData_query Ddl.migrated Examples.busy
      (Examples.as_user Examples.sam) = Dml.Done (stats, inquiries, admins_)
    /\ SuperAdminDashboard.options
         (SuperAdminDashboard.mk stats inquiries admins_ false 0) = [].
Proof.
  destruct (fetchData_after_migration Examples.busy (Examples.as_user Examples.sam))
    as (inquiries & admins_ & Hq & _ & _ & Hnone).
  exists (Stats.get_admin_conversion_stats Examples.busy), inquiries, admins_.
  split; [exact Hq|]. apply Hnone.
  intros p Hp Hid. vm_compute in Hp.
  repeat (destruct Hp as [<-|Hp]; [try discriminate; vm_compute in Hid; discriminate Hid|]).
  destruct Hp.
Defined.

(** ** Nothing is assigned after the migration *)

Lemma In_replace {A} (i : nat) (y x : A) (l : list A) :
  In x (App.replace i y l) -> x = y \/ In x l.
Proof.
  revert i. induction l as [|h t IH]; intros i; destruct i; cbn [App.replace]; intros H;
    try contradiction.
  - destruct H as [<-|H]; [left; reflexivity | right; right; exact H].
  - destruct H as [<-|H]; [right; left; reflexivity|].
    destruct (IH i H) as [->|Hin]; [left; reflexivity | right; right; exact Hin].
Qed.

(** One step on the sessions: every session comes from one of before, with
    the same user, and its super-admin lists are the old ones or, the
    database being left as it was, the ones that fetchData has received. *)
Lemma step_sessions (cat : Ddl.catalog) (a : App.action) (w : App.world) (s' : App.session) :
  In s' (App.sessions (App.step cat a w)) ->
  exists s,
    In s (App.sessions w) /\ App.user s' = App.user s
    /\ ((SuperAdminDashboard.admins (App.super_ s')
         = SuperAdminDashboard.admins (App.super_ s)
         /\ SuperAdminDashboard.unassignedInquiries (App.super_ s')
            = SuperAdminDashboard.unassignedInquiries (App.super_ s))
        \/ (App.db (App.step cat a w) = App.db w
            /\ exists stats,
                 SuperAdminDashboard.fetchData_query cat (App.db w) (App.user s)
                 = Dml.Done (stats,
                             SuperAdminDashboard.unassignedInquiries (App.super_ s'),
                             SuperAdminDashboard.admins (App.super_ s')))).
Proof.
  assert (Hsame : In s' (App.sessions w) ->
            exists s,
              In s (App.sessions w) /\ App.user s' = App.user s
              /\ (SuperAdminDashboard.admins (App.super_ s')
                  = SuperAdminDashboard.admins (App.super_ s)
                  /\ SuperAdminDashboard.unassignedInquiries (App.super_ s')
                     = SuperAdminDashboard.unassignedInquiries (App.super_ s))).
  { intros H. exists s'. split; [exact H|]. split; [reflexivity|]. split; reflexivity. }
  assert (Hone : forall i f,
            (forall s0, App.user (snd (f s0)) = App.user s0
                        /\ SuperAdminDashboard.admins (App.super_ (snd (f s0)))
                           = SuperAdminDashboard.admins (App.super_ s0)
                        /\ SuperAdminDashboard.unassignedInquiries (App.super_ (snd (f s0)))
                           = SuperAdminDashboard.unassignedInquiries (App.super_ s0)) ->
            In s' (App.sessions (App.on_session i f w)) ->
            exists s,
              In s (App.sessions w) /\ App.user s' = App.user s
              /\ (SuperAdminDashboard.admins (App.super_ s')
                  = SuperAdminDashboard.admins (App.super_ s)
                  /\ SuperAdminDashboard.unassignedInquiries (App.super_ s')
                     = SuperAdminDashboard.unassignedInquiries (App.super_ s))).
  { intros i f Hf. rewrite on_session_sessions.
    destruct (nth_error (App.sessions w) i) as [s|] eqn:Es.
    - intros H. apply In_replace in H as [->|H].
      + exists s. split; [eapply nth_error_In; exact Es|]. apply Hf.
      + exists s'. split; [exact H|]. split; [reflexivity|]. split; reflexivity.
    - intros H. exists s'. split; [exact H|]. split; [reflexivity|]. split; reflexivity. }
  destruct a as [who data g now | NEW now | i tab | i k | i k | i k now | i k spend now
                 | i k now | i k | i k | i | i k j now]; cbn [App.step].
  - cbn [App.sessions]. intros H. destruct (Hsame H) as (s & H1 & H2 & H3). exists s. auto.
  - intros H.
    assert (H' : In s' (App.sessions w))
      by (destruct (Auth.handle_new_user (App.db w) NEW now); exact H).
    destruct (Hsame H') as (s & H1 & H2 & H3). exists s. auto.
  - intros H. apply Hone in H as (s & H1 & H2 & H3); [exists s; auto|].
    intros s0. cbn [snd App.user App.super_]. auto.
  - intros H. apply Hone in H as (s & H1 & H2 & H3); [exists s; auto|].
    intros s0. cbn [snd App.user App.super_]. auto.
  - intros H. apply Hone in H as (s & H1 & H2 & H3); [exists s; auto|].
    intros s0. cbn [snd App.user App.super_]. auto.
  - intros H. apply Hone in H as (s & H1 & H2 & H3); [exists s; auto|].
    intros s0. cbn [snd]. unfold App.click.
    destruct (nth_error _ k); [|auto]. destruct (AdminDashboard.shows_confirm _ _ _); auto.
  - intros H. apply Hone in H as (s & H1 & H2 & H3); [exists s; auto|].
    intros s0. cbn [snd]. unfold App.click.
    destruct (nth_error _ k); [|auto]. destruct (AdminDashboard.shows_upload _ _ _); auto.
  - intros H. apply Hone in H as (s & H1 & H2 & H3); [exists s; auto|].
    intros s0. cbn [snd]. unfold App.click.
    destruct (nth_error _ k); [|auto]. destruct (AdminDashboard.shows_clear _ _ _); auto.
  - intros H. apply Hone in H as (s & H1 & H2 & H3); [exists s; auto|].
    intros s0. unfold App.with_admin. cbn [snd App.user App.super_]. auto.
  - intros H. apply Hone in H as (s & H1 & H2 & H3); [exists s; auto|].
    intros s0. cbn [snd App.user App.super_]. auto.
  - (* FetchDataDone *)
    rewrite on_session_db, on_session_sessions.
    destruct (nth_error (App.sessions w) i) as [s|] eqn:Es;
      [|intros H; destruct (Hsame H) as (s & H1 & H2 & H3); exists s; auto].
    cbn [fst snd]. intros H.
    apply In_replace in H as [->|H];
      [|destruct (Hsame H) as (s0 & H1 & H2 & H3); exists s0; auto].
    exists s. split; [eapply nth_error_In; exact Es|]. split; [reflexivity|].
    cbn [App.super_ App.user]. unfold SuperAdminDashboard.fetchData_finish.
    destruct (SuperAdminDashboard.pending (App.super_ s)); [left; split; reflexivity|].
    destruct (SuperAdminDashboard.fetchData_query cat (App.db w) (App.user s))
      as [[[stats inquiries] admins_]|]; [|left; split; reflexivity].
    right. split; [reflexivity|]. exists stats. reflexivity.
  - intros H. apply Hone in H as (s & H1 & H2 & H3); [exists s; auto|].
    intros s0. destruct (SuperAdminDashboard.loading (App.super_ s0)); [auto|].
    destruct (nth_error _ k); [|auto]. destruct (nth_error _ j); [|auto].
    unfold App.with_super, SuperAdminDashboard.after_request.
    destruct (SuperAdminDashboard.assignInquiry _ _ _ _ _ _); cbn [snd App.user App.super_];
      auto.
Qed.

(** A request that may update no booking of the given id succeeds and
    writes nothing. *)
Lemma assignInquiry_skips (db : database) (user : types.User) (inquiryId adminId : uuid)
      (now : timestamptz) :
  (forall r, In r (db_bookings db) -> bookings.id r = inquiryId ->
             may_read db (types.id user) r && may_write db (types.id user) r = false) ->
  SuperAdminDashboard.assignInquiry Ddl.migrated db user inquiryId adminId now = Dml.Done db.
Proof.
  intros Hnone.
  unfold SuperAdminDashboard.assignInquiry, Dml.update_bookings, AdminDashboard.session_of.
  change (Dml.stored [("assigned_admin_id", Sql.VUuid adminId); ("updated_at", Sql.VTime now)])
    with (Dml.Done [("assigned_admin_id", Sql.VUuid adminId); ("updated_at", Sql.VTime now)]).
  cbn [Dml.bind].
  rewrite update_rows_map with (g := fun r => r).
  - rewrite map_id. cbn [Dml.bind]. rewrite set_bookings_same. reflexivity.
  - intros r Hr. rewrite assign_row_migrated.
    destruct (N.eqb (bookings.id r) inquiryId) eqn:E; [|reflexivity].
    apply N.eqb_eq in E. rewrite <- andb_assoc, (Hnone r Hr E). reflexivity.
Qed.

(** In a settled world the select of the super-admin dashboard offers a
    session only its own account, of role admin, for inquiries that are
    still unassigned; the update policy lets such a caller write none of
    them. *)
Lemma assign_changes_nothing (w : App.world) (s : App.session)
      (inquiry_ : bookings.row) (adm : profiles.row) (now : timestamptz) :
  settled w -> In s (App.sessions w) ->
  In inquiry_ (SuperAdminDashboard.unassignedInquiries (App.super_ s)) ->
  In adm (SuperAdminDashboard.options (App.super_ s)) ->
  SuperAdminDashboard.assignInquiry Ddl.migrated (App.db w) (App.user s)
    (bookings.id inquiry_) (profiles.id adm) now
  = Dml.Done (App.db w).
Proof.
  intros (HP & _ & HS) Hs Hinq Hadm. destruct (HS s Hs) as [Hown Hun].
  unfold SuperAdminDashboard.options in Hadm. apply filter_In in Hadm as [Hadm Hrole].
  apply role_eqb_eq in Hrole. destruct (Hown adm Hadm) as [Hin Hid].
  apply assignInquiry_skips. intros r Hr Hrid.
  apply andb_false_iff. right. unfold may_write. apply orb_false_iff. split.
  - apply not_true_is_false. intros Hass. apply is_assigned_iff in Hass.
    assert (Hnone : Some (types.id (App.user s)) = None).
    { apply (Hun inquiry_ _ Hinq). rewrite <- Hrid, <- Hass. unfold assignments.
      apply (in_map (fun r => (bookings.id r, bookings.assigned_admin_id r))). exact Hr. }
    discriminate Hnone.
  - apply not_true_is_false. intros Hsuper.
    apply (proj1 (caller_role_in_iff _ _ [super_admin])) in Hsuper as (p & Hp & Hpid & Hprole).
    assert (p = adm)
      by (apply (NoDup_map_inj profiles.id (db_profiles (App.db w))); congruence).
    subst p. rewrite Hrole in Hprole. destruct Hprole as [H|[]]. discriminate H.
Qed.

Lemma assignments_rewritten (a : App.action) (rows rows' : list bookings.row) :
  (forall i k j now, a <> App.AssignInquiry i k j now) ->
  Forall2 (rewritten_by a) rows rows' -> assignments rows' = assignments rows.
Proof.
  intros Ha H. induction H as [|r r' rows rows' Hr _ IH]; [reflexivity|].
  unfold assignments in *. cbn [map]. rewrite IH. f_equal.
  destruct Hr as [->|Hr]; [reflexivity|].
  destruct a; try contradiction.
  - destruct Hr as [(n & now & ->)|(spend & now & ->)]; reflexivity.
  - exfalso. eapply Ha. reflexivity.
Qed.

(** After the migration a step in a settled world leaves every
    assignment as it is; a booking that it adds is assigned to nobody. *)
Lemma step_assignments (a : App.action) (w : App.world) :
  settled w ->
  exists later,
    assignments (db_bookings (App.db (App.step Ddl.migrated a w)))
    = assignments (db_bookings (App.db w)) ++ later
    /\ (later = []
        \/ exists g, later = [(g, None)] /\ Dml.has_booking_id (App.db w) g = false).
Proof.
  intros Hw.
  assert (Hother : (forall i k j now, a <> App.AssignInquiry i k j now) ->
            exists later,
              assignments (db_bookings (App.db (App.step Ddl.migrated a w)))
              = assignments (db_bookings (App.db w)) ++ later
              /\ (later = []
                  \/ exists g, later = [(g, None)]
                               /\ Dml.has_booking_id (App.db w) g = false)).
  { intros Ha.
    destruct (step_rows Ddl.migrated a w) as (_ & _ & rows' & extra & Hb & Hrel & Hextra).
    rewrite Hb. unfold assignments at 1. rewrite map_app.
    fold (assignments rows'). rewrite (assignments_rewritten a _ _ Ha Hrel).
    eexists. split; [reflexivity|].
    destruct Hextra as [->|(who & data & g & now & _ & -> & Hnew)]; [left; reflexivity|].
    right. exists g. split; [reflexivity | exact Hnew]. }
  destruct a as [who data g now | NEW now | i tab | i k | i k | i k now | i k spend now
                 | i k now | i k | i k | i | i k j now];
    try (apply Hother; intros; discriminate).
  exists []. rewrite app_nil_r. split; [|left; reflexivity]. f_equal. f_equal.
  cbn [App.step]. rewrite on_session_db.
  destruct (nth_error (App.sessions w) i) as [s|] eqn:Es; [|reflexivity].
  destruct (SuperAdminDashboard.loading (App.super_ s)); [reflexivity|].
  destruct (nth_error (SuperAdminDashboard.unassignedInquiries (App.super_ s)) k)
    as [inquiry_|] eqn:Ek; [|reflexivity].
  destruct (nth_error (SuperAdminDashboard.options (App.super_ s)) j) as [adm|] eqn:Ej;
    [|reflexivity].
  rewrite (assign_changes_nothing w s inquiry_ adm now Hw);
    [reflexivity | eapply nth_error_In; exact Es | eapply nth_error_In; exact Ek
     | eapply nth_error_In; exact Ej].
Qed.

Lemma assignments_ids (rows : list bookings.row) :
  map fst (assignments rows) = map bookings.id rows.
Proof. unfold assignments. rewrite map_map. reflexivity. Qed.

Lemma settled_step (a : App.action) (w : App.world) :
  settled w -> settled (App.step Ddl.migrated a w).
Proof.
  intros Hw. pose proof Hw as (HP & HB & HS).
  destruct (step_assignments a w Hw) as (later & Hass & Hlater).
  destruct (step_rows Ddl.migrated a w) as (_ & (more & Hprof & _ & Hnd) & _).
  split; [apply Hnd; exact HP|]. split.
  - rewrite <- assignments_ids, Hass, map_app, assignments_ids.
    destruct Hlater as [->|(g & -> & Hnew)]; [cbn [map]; rewrite app_nil_r; exact HB|].
    cbn [map fst]. apply NoDup_app; [exact HB | repeat constructor; intros [] |].
    intros x Hx [<-|[]]. apply in_map_iff in Hx as (r & Hrid & Hr).
    unfold Dml.has_booking_id in Hnew.
    apply (proj1 (existsb_false_iff _ _)) with (x := r) in Hnew; [|exact Hr].
    apply N.eqb_neq in Hnew. contradiction.
  - intros s' Hs'.
    destruct (step_sessions Ddl.migrated a w s' Hs')
      as (s & Hs & Huser & [[Hadm Hinq]|[Hdb (stats & Hq)]]).
    + destruct (HS s Hs) as [Hown Hun]. split.
      * intros p Hp. rewrite Hadm in Hp. destruct (Hown p Hp) as [Hin Hid].
        split; [rewrite Hprof; apply in_or_app; left; exact Hin | congruence].
      * intros v o Hv Hin. rewrite Hinq in Hv. rewrite Hass in Hin.
        apply in_app_or in Hin as [Hin|Hin]; [apply (Hun v o Hv Hin)|].
        destruct Hlater as [->|(g & -> & _)]; [destruct Hin|].
        destruct Hin as [Hin|[]]. congruence.
    + rewrite Hdb. rewrite fetchData_migrated in Hq. apply Done_inj in Hq.
      injection Hq as _ Hinq Hadm. split.
      * intros p Hp. rewrite <- Hadm in Hp.
        apply filter_In in Hp as [Hp _]. apply filter_In in Hp as [Hp Hid].
        apply N.eqb_eq in Hid. split; [exact Hp | congruence].
      * intros v o Hv Hin. rewrite <- Hinq in Hv.
        apply filter_In in Hv as [Hv Hcond]. apply filter_In in Hv as [Hv _].
        apply where_unassigned_inquiry in Hcond as [_ Hnull].
        unfold assignments in Hin. apply in_map_iff in Hin as (r & Hr & Hin).
        injection Hr as Hrid Hro.
        assert (r = v) by (apply (NoDup_map_inj bookings.id (db_bookings (App.db w))); auto).
        subst r. congruence.
Qed.

(** X15.  After the migration no booking is ever assigned through the
    application.  From a database with unique profile ids and unique
    booking ids, whatever the signed-in users (of any role, in any number
    of sessions) and whatever they do, every booking keeps the
    assigned_admin_id it had, and the bookings submitted since are
    assigned to nobody: the "Assign to Admin" select offers a session
    only profiles it has read, those are its own, and a caller of role
    admin may not update an unassigned inquiry. *)
Theorem nothing_is_assigned_after_migration
        (d : database) (users : list types.User) (actions : list App.action) :
  NoDup (map profiles.id (db_profiles d)) ->
  NoDup (map bookings.id (db_bookings d)) ->
  exists later,
    assignments (db_bookings (App.db (App.run Ddl.migrated actions (App.start d users))))
    = assignments (db_bookings d) ++ later
    /\ Forall (fun x => snd x = None) later.
Proof.
  intros HP HB.
  assert (Hstart : settled (App.start d users)).
  { split; [exact HP|]. split; [exact HB|]. intros s Hs.
    unfold App.start in Hs. cbn [App.sessions] in Hs.
    apply in_map_iff in Hs as (u & <- & _). split; intros x; intros; contradiction. }
  change (db_bookings d) with (db_bookings (App.db (App.start d users))).
  generalize dependent (App.start d users). clear HP HB d users.
  induction actions as [|a rest IH]; intros w Hw; cbn [App.run].
  - exists []. rewrite app_nil_r. split; [reflexivity | constructor].
  - destruct (IH _ (settled_step a w Hw)) as (later2 & H2 & Hnone2).
    destruct (step_assignments a w Hw) as (later1 & H1 & Hnone1).
    exists (later1 ++ later2). rewrite H2, H1, app_assoc. split; [reflexivity|].
    apply Forall_app. split; [|exact Hnone2].
    destruct Hnone1 as [->|(g & -> & _)]; repeat constructor.
Qed.

Lemma nothing_is_assigned_after_migration_witness :
  exists later,
    assignments
      (db_bookings
         (App.db (App.run Ddl.migrated
                    [App.FetchDataDone 0; App.AssignInquiry 0 0 0 9;
                     App.FetchDataDone 1; App.AssignInquiry 1 0 0 9]
                    (App.start Examples.busy
                       [Examples.as_user Examples.sam; Examples.as_user Examples.ada]))))
    = assignments (db_bookings Examples.busy) ++ later
    /\ Forall (fun x => snd x = None) later.
Proof.
  apply (nothing_is_assigned_after_migration Examples.busy
           [Examples.as_user Examples.sam; Examples.as_user Examples.ada]
           [App.FetchDataDone 0; App.AssignInquiry 0 0 0 9;
            App.FetchDataDone 1; App.AssignInquiry 1 0 0 9]).
  - simpl. repeat constructor; simpl; intuition discriminate.
  - simpl. repeat constructor; simpl; intuition discriminate.
Defined.

(** ** More on the authentication form and the routes *)

Lemma domain_part_app (l x : string) :
  local_part l = l -> domain_part (l ++ String "@" x)%string = Some (local_part x).
Proof.
  induction l as [|c l IH]; cbn [append domain_part local_part]; intros Hl.
  - reflexivity.
  - destruct (Ascii.eqb c "@"); [discriminate Hl|].
    apply IH. injection Hl as Hl. exact Hl.
Qed.

Lemma local_part_app (d rest : string) :
  local_part d = d -> local_part (d ++ String "@" rest)%string = d.
Proof.
  induction d as [|c d IH]; cbn [append local_part]; intros Hd.
  - reflexivity.
  - destruct (Ascii.eqb c "@"); [discriminate Hd|].
    injection Hd as Hd. rewrite IH by exact Hd. reflexivity.
Qed.

(** X16.  The test of the organization email reads only the text between
    the first and the second '@': when that text, lower-cased, is an
    allowed domain, the address passes whatever stands before the first
    '@' and whatever follows a second one, and the handler sends the
    whole text to signIn. *)
Theorem isOrganizationEmail_reads_second_field
        (l d rest password name role : string) (toast_bound auth_rejects : bool) :
  local_part l = l -> local_part d = d ->
  In (toLowerCase d) AuthForm.ALLOWED_DOMAINS ->
  let address := (l ++ String "@" (d ++ String "@" rest))%string in
  AuthForm.isOrganizationEmail address = true
  /\ AuthForm.isOrganizationEmail (l ++ String "@" d)%string = true
  /\ In (AuthForm.SignIn address password)
        (fst (AuthForm.handleSubmit toast_bound true auth_rejects
                (AuthForm.mk address password name role))).
Proof.
  intros Hl Hd Hin. cbv zeta.
  assert (H1 : AuthForm.isOrganizationEmail (l ++ String "@" (d ++ String "@" rest))%string = true).
  { apply isOrganizationEmail_spec. exists d. split; [|exact Hin].
    rewrite domain_part_app by exact Hl. rewrite local_part_app by exact Hd. reflexivity. }
  split; [exact H1|]. split.
  - apply isOrganizationEmail_spec. exists d. split; [|exact Hin].
    rewrite domain_part_app by exact Hl. rewrite Hd. reflexivity.
  - unfold AuthForm.handleSubmit. cbn [AuthForm.email AuthForm.password].
    rewrite H1. cbn [negb fst app]. right. right. left. reflexivity.
Qed.

Lemma isOrganizationEmail_reads_second_field_witness :
  AuthForm.isOrganizationEmail "eve@YourCompany.com@elsewhere.example" = true.
Proof.
  pose proof (isOrganizationEmail_reads_second_field "eve" "YourCompany.com"
                "elsewhere.example" "secret" "Eve" "client" true false
                eq_refl eq_refl (or_introl eq_refl)) as H.
  cbv zeta in H. destruct H as [H _]. exact H.
Defined.

(** X17.  The route that App opens by default for a role is among the
    guarded routes, it is guarded for that role and for no other, and the
    three roles are sent to three different routes. *)
Theorem getDashboardRoute_is_allowed (r : role) :
  (exists v, In (AppRoutes.getDashboardRoute r, [r], v) AppRoutes.routes)
  /\ (forall roles v,
        In (AppRoutes.getDashboardRoute r, roles, v) AppRoutes.routes -> roles = [r])
  /\ (forall r', AppRoutes.getDashboardRoute r' = AppRoutes.getDashboardRoute r -> r' = r).
Proof.
  split; [|split].
  - destruct r; eexists; cbn; eauto.
  - intros roles v H. destruct r; cbn in H;
      repeat (destruct H as [H|H]; [injection H as <-; try discriminate; reflexivity
                                   | try discriminate]);
      try contradiction.
  - intros r' H. destruct r, r'; try reflexivity; discriminate H.
Qed.
